(** * DoorLockD client: the lifecycle orchestrator of [DoorLockDClient.py]

    A shallow embedding of the class [DoorLockDClient]: the global data
    container [dc], the root logger, the calls into the collaborators
    ([toml], [logging], [Events], [ModuleManager], [signal], [threading])
    and Python's exception discipline ([try]/[except]/[finally],
    [sys.exit]) are written out as a state-and-exception monad over an
    explicit process state, with a chronological trace of what the process
    did. *)

From Stdlib Require Import String Ascii List ZArith Bool Lia DecimalString.
Import ListNotations.
Local Open Scope string_scope.
Local Open Scope Z_scope.
Set Warnings "-register-all".

(** ** Python values read from the configuration *)

(** What [toml.load] can put into the configuration dictionary.  Floats and
    dates are not interpreted: [VOpaque] keeps only their truth value. *)
Inductive value : Type :=
| VNone
| VBool (b : bool)
| VInt (z : Z)
| VStr (s : string)
| VList (l : list value)
| VTable (kvs : list (string * value))
| VOpaque (truth : bool).

Definition dict : Type := list (string * value).

(** [d[k]] when present: the first binding of [k]. *)
Fixpoint dict_get (d : dict) (k : string) : option value :=
  match d with
  | [] => None
  | (k', v) :: d' => if String.eqb k k' then Some v else dict_get d' k
  end.

(** Python's truth value of an object, as [if x:] and [not x] use it. *)
Definition truthy (v : value) : bool :=
  match v with
  | VNone => false
  | VBool b => b
  | VInt z => negb (z =? 0)
  | VStr s => negb (String.eqb s "")
  | VList l => match l with [] => false | _ => true end
  | VTable kvs => match kvs with [] => false | _ => true end
  | VOpaque t => t
  end.

Definition py_type_name (v : value) : string :=
  match v with
  | VNone => "NoneType"
  | VBool _ => "bool"
  | VInt _ => "int"
  | VStr _ => "str"
  | VList _ => "list"
  | VTable _ => "dict"
  | VOpaque _ => "float"
  end.

(** ** Exceptions *)

Inductive ExitCode : Type :=
| ExitNone
| ExitInt (n : Z)
| ExitStr (s : string).

Inductive exn_class : Type :=
| AttributeError
| TypeError
| ValueError
| FileNotFoundError
| TomlDecodeError
| OtherException (name : string)
| KeyboardInterrupt
| GeneratorExit.

Inductive exn : Type :=
| Exn (c : exn_class) (msg : string)
| SystemExit (code : ExitCode).

(** [isinstance(e, Exception)]: [KeyboardInterrupt], [GeneratorExit] and
    [SystemExit] derive from [BaseException] only. *)
Definition is_Exception (e : exn) : bool :=
  match e with
  | Exn KeyboardInterrupt _ => false
  | Exn GeneratorExit _ => false
  | Exn _ _ => true
  | SystemExit _ => false
  end.

Definition is_KeyboardInterrupt (e : exn) : bool :=
  match e with
  | Exn KeyboardInterrupt _ => true
  | _ => false
  end.

Definition is_FileNotFoundError (e : exn) : bool :=
  match e with
  | Exn FileNotFoundError _ => true
  | _ => false
  end.

Definition is_TomlDecodeError (e : exn) : bool :=
  match e with
  | Exn TomlDecodeError _ => true
  | _ => false
  end.

Definition is_AttributeError (e : exn) : bool :=
  match e with
  | Exn AttributeError _ => true
  | _ => false
  end.

(** The exception raised by [None.attr]. *)
Definition none_has_no (attr : string) : exn :=
  Exn AttributeError ("'NoneType' object has no attribute '" ++ attr ++ "'").

Definition has_no (v : value) (attr : string) : exn :=
  Exn AttributeError
      ("'" ++ py_type_name v ++ "' object has no attribute '" ++ attr ++ "'").

(** A computation either returns or raises. *)
Inductive Res (A : Type) : Type :=
| Ret (a : A)
| Raise (e : exn).
Arguments Ret {A} a.
Arguments Raise {A} e.

(** [x.get(k, default)]: a dictionary method, missing on every other type. *)
Definition py_get (x : value) (k : string) (default : value) : Res value :=
  match x with
  | VTable kvs =>
      Ret (match dict_get kvs k with Some v => v | None => default end)
  | _ => Raise (has_no x "get")
  end.

(** [str.upper] on ASCII letters; strings are byte strings here (the UTF-8
    bytes of Python's), and the bytes of other letters are left as they are.
    On a string of ASCII characters this is [str.upper]; the properties
    below that read a level name assume that it names a level ([names_level]),
    which only a string of ASCII letters does here. *)
Definition upper_ascii (c : ascii) : ascii :=
  let n := nat_of_ascii c in
  if (97 <=? n)%nat && (n <=? 122)%nat then ascii_of_nat (n - 32) else c.

Fixpoint upper (s : string) : string :=
  match s with
  | EmptyString => EmptyString
  | String c s' => String (upper_ascii c) (upper s')
  end.

(** [x.upper()]. *)
Definition py_upper (x : value) : Res string :=
  match x with
  | VStr s => Ret (upper s)
  | _ => Raise (has_no x "upper")
  end.

(** ** The [logging] module *)

Inductive Level : Type := DEBUG | INFO | WARNING | ERROR | CRITICAL.

Definition levelno (l : Level) : Z :=
  match l with
  | DEBUG => 10
  | INFO => 20
  | WARNING => 30
  | ERROR => 40
  | CRITICAL => 50
  end.

Definition levelname (l : Level) : string :=
  match l with
  | DEBUG => "DEBUG"
  | INFO => "INFO"
  | WARNING => "WARNING"
  | ERROR => "ERROR"
  | CRITICAL => "CRITICAL"
  end.

(** The logger method that logs at a level: [logger.info], ... *)
Definition method_of (l : Level) : string :=
  match l with
  | DEBUG => "debug"
  | INFO => "info"
  | WARNING => "warning"
  | ERROR => "error"
  | CRITICAL => "critical"
  end.

(** [handler.setLevel(getattr(logging, NAME))]: the upper-case attributes of
    the module are the level constants and two values that [setLevel]
    refuses; every other name is no attribute at all. *)
Definition logging_level (NAME : string) : Res Z :=
  if String.eqb NAME "CRITICAL" then Ret 50
  else if String.eqb NAME "FATAL" then Ret 50
  else if String.eqb NAME "ERROR" then Ret 40
  else if String.eqb NAME "WARNING" then Ret 30
  else if String.eqb NAME "WARN" then Ret 30
  else if String.eqb NAME "INFO" then Ret 20
  else if String.eqb NAME "DEBUG" then Ret 10
  else if String.eqb NAME "NOTSET" then Ret 0
  else if String.eqb NAME "BASIC_FORMAT"
       then Raise (Exn ValueError "Unknown level")
  else if String.eqb NAME "_STYLES"
       then Raise (Exn TypeError "Level not an integer or a valid string")
  else Raise (Exn AttributeError
                  ("module 'logging' has no attribute '" ++ NAME ++ "'")).

Inductive Stream : Type :=
| Console
| File (name : string).

Record Handler : Type := mkHandler {
  h_stream : Stream;
  h_level : Z;
  h_format : string
}.

(** The format string given to [logging.Formatter] in [setup_logging]. *)
Definition formatter : string :=
  "%(asctime)s - %(name)s - %(levelname)s - %(message)s".

Record LogRecord : Type := mkRecord {
  asctime : string;
  name : string;
  rec_level : Level;
  message : string
}.

Definition record_field (r : LogRecord) (key : string) : option string :=
  if String.eqb key "asctime" then Some (asctime r)
  else if String.eqb key "name" then Some (name r)
  else if String.eqb key "levelname" then Some (levelname (rec_level r))
  else if String.eqb key "message" then Some (message r)
  else None.

(** Percent-style formatting restricted to [%(key)s] fields, which is all the
    formatter of this program uses.  [None] stands for a formatting error. *)
Inductive FmtMode : Type :=
| Text
| Percent
| Key (acc : string)
| Conv (key : string).

Fixpoint percent_format (fmt : string) (mode : FmtMode) (r : LogRecord)
  : option string :=
  match fmt with
  | EmptyString => match mode with Text => Some EmptyString | _ => None end
  | String c rest =>
      match mode with
      | Text =>
          if Ascii.eqb c "%"%char then percent_format rest Percent r
          else option_map (String c) (percent_format rest Text r)
      | Percent =>
          if Ascii.eqb c "("%char then percent_format rest (Key EmptyString) r
          else if Ascii.eqb c "%"%char
               then option_map (String c) (percent_format rest Text r)
          else None
      | Key acc =>
          if Ascii.eqb c ")"%char then percent_format rest (Conv acc) r
          else percent_format rest (Key (acc ++ String c EmptyString)) r
      | Conv key =>
          if Ascii.eqb c "s"%char then
            match record_field r key, percent_format rest Text r with
            | Some v, Some tail => Some (v ++ tail)
            | _, _ => None
            end
          else None
      end
  end.

Definition format (h : Handler) (r : LogRecord) : option string :=
  percent_format (h_format h) Text r.

(** What a record logged on the root logger writes: the logger drops it below
    its own level, and each handler below the handler's. *)
Definition emit (root_level : Z) (handlers : list Handler) (r : LogRecord)
  : list (Stream * option string) :=
  if levelno (rec_level r) <? root_level then []
  else map (fun h => (h_stream h, format h r))
           (filter (fun h => h_level h <=? levelno (rec_level r)) handlers).

(** [min(l)] on a list of levels; [min([])] raises [ValueError]. *)
Definition list_min (l : list Z) : Res Z :=
  match l with
  | [] => Raise (Exn ValueError "min() arg is an empty sequence")
  | x :: l' => Ret (fold_left Z.min l' x)
  end.

(** ** The collaborators *)

(** [libs.Module.ModuleManager], as the client uses it.  Every call may
    change the manager and may raise; [abort_msg] and [exit_msg] are the two
    attributes [shutdown] reads ([None] or a string). *)
Module ModuleManager.
Class Interface (MM : Type) : Type := {
  new : Res MM;
  load_all : value -> MM -> MM * option exn;
  do_all : string -> MM -> MM * option exn;
  main_loop : MM -> MM * option exn;
  abort : string -> exn -> MM -> MM * option exn;
  exit : string -> MM -> MM * option exn;
  abort_msg : MM -> option string;
  exit_msg : MM -> option string
}.
End ModuleManager.

(** What the rest of the world answers: the version command, the hardware
    shelf, the configuration file, the log file, the event bus, the signal
    module, and [str] of the values this development does not interpret. *)
Record Env : Type := mkEnv {
  git_describe : Res string;
  new_io_ports : option exn;
  toml_load : Res dict;
  open_log_file : string -> option exn;
  new_events : option exn;
  install_signal : Z -> option exn;
  str_of_opaque : value -> string
}.

Definition SIGINT : Z := 2.
Definition SIGTERM : Z := 15.

(** ** The process state and its trace *)

Inductive Event : Type :=
| EvPrint (msg : string)
| EvTomlLoad
| EvOpenLogFile (name : string)
| EvAddHandler (h : Handler)
| EvNewEvents
| EvNewManager
| EvExcepthook
| EvSignal (signum : Z)
| EvLoadAll (outcome : option exn)
| EvDoAll (phase : string) (outcome : option exn)
| EvMainLoop (outcome : option exn)
| EvShutdown
| EvLog (lvl : Level) (msg : string).

Inductive Logger : Type := RootLogger.
Inductive EventBus : Type := Events.

(** The attributes of [dc], the root logger, the installed hooks, and the
    trace ([EvShutdown] is a ghost event marking each entry into
    [shutdown]). *)
Record State (MM : Type) : Type := mkState {
  dc_app_name_ver : string;
  dc_config : dict;
  dc_module : option MM;
  dc_e : option EventBus;
  dc_logger : option Logger;
  root_handlers : list Handler;
  root_level : Z;
  excepthook : bool;
  signal_handlers : list Z;
  trace : list Event
}.
Arguments mkState {MM}.
Arguments dc_app_name_ver {MM}.
Arguments dc_config {MM}.
Arguments dc_module {MM}.
Arguments dc_e {MM}.
Arguments dc_logger {MM}.
Arguments root_handlers {MM}.
Arguments root_level {MM}.
Arguments excepthook {MM}.
Arguments signal_handlers {MM}.
Arguments trace {MM}.

Section Updates.
Context {MM : Type}.
Implicit Type s : State MM.

Definition set_app_name_ver (v : string) s : State MM :=
  mkState v (dc_config s) (dc_module s) (dc_e s) (dc_logger s)
          (root_handlers s) (root_level s) (excepthook s)
          (signal_handlers s) (trace s).
Definition set_config (c : dict) s : State MM :=
  mkState (dc_app_name_ver s) c (dc_module s) (dc_e s) (dc_logger s)
          (root_handlers s) (root_level s) (excepthook s)
          (signal_handlers s) (trace s).
Definition set_module (m : option MM) s : State MM :=
  mkState (dc_app_name_ver s) (dc_config s) m (dc_e s) (dc_logger s)
          (root_handlers s) (root_level s) (excepthook s)
          (signal_handlers s) (trace s).
Definition set_e (e : option EventBus) s : State MM :=
  mkState (dc_app_name_ver s) (dc_config s) (dc_module s) e (dc_logger s)
          (root_handlers s) (root_level s) (excepthook s)
          (signal_handlers s) (trace s).
Definition set_logger (l : option Logger) s : State MM :=
  mkState (dc_app_name_ver s) (dc_config s) (dc_module s) (dc_e s) l
          (root_handlers s) (root_level s) (excepthook s)
          (signal_handlers s) (trace s).
Definition set_handlers (hs : list Handler) s : State MM :=
  mkState (dc_app_name_ver s) (dc_config s) (dc_module s) (dc_e s)
          (dc_logger s) hs (root_level s) (excepthook s)
          (signal_handlers s) (trace s).
Definition set_level (z : Z) s : State MM :=
  mkState (dc_app_name_ver s) (dc_config s) (dc_module s) (dc_e s)
          (dc_logger s) (root_handlers s) z (excepthook s)
          (signal_handlers s) (trace s).
Definition set_excepthook (b : bool) s : State MM :=
  mkState (dc_app_name_ver s) (dc_config s) (dc_module s) (dc_e s)
          (dc_logger s) (root_handlers s) (root_level s) b
          (signal_handlers s) (trace s).
Definition set_signal_handlers (l : list Z) s : State MM :=
  mkState (dc_app_name_ver s) (dc_config s) (dc_module s) (dc_e s)
          (dc_logger s) (root_handlers s) (root_level s) (excepthook s)
          l (trace s).
Definition record (ev : Event) s : State MM :=
  mkState (dc_app_name_ver s) (dc_config s) (dc_module s) (dc_e s)
          (dc_logger s) (root_handlers s) (root_level s) (excepthook s)
          (signal_handlers s) (trace s ++ [ev]).
End Updates.

(** ** The monad: state that survives a raise *)

Definition M (MM A : Type) : Type := State MM -> Res A * State MM.

Section Monad.
Context {MM : Type}.

Definition ret {A} (a : A) : M MM A := fun s => (Ret a, s).

Definition bind {A B} (m : M MM A) (k : A -> M MM B) : M MM B :=
  fun s =>
    match m s with
    | (Ret a, s') => k a s'
    | (Raise e, s') => (Raise e, s')
    end.

Definition raise {A} (e : exn) : M MM A := fun s => (Raise e, s).

Definition lift {A} (r : Res A) : M MM A := fun s => (r, s).

Definition gets {A} (f : State MM -> A) : M MM A := fun s => (Ret (f s), s).

Definition modify (f : State MM -> State MM) : M MM unit :=
  fun s => (Ret tt, f s).

Definition check (o : option exn) : M MM unit :=
  match o with
  | None => ret tt
  | Some e => raise e
  end.

(** [try: m  except ...: h e]; [h e = None] when no clause matches [e]. *)
Definition try_except {A} (m : M MM A) (h : exn -> option (M MM A))
  : M MM A :=
  fun s =>
    match m s with
    | (Ret a, s') => (Ret a, s')
    | (Raise e, s') =>
        match h e with
        | Some handler => handler s'
        | None => (Raise e, s')
        end
    end.

(** [try: m  finally: f].  [f] runs on every way out of [m]; what [f]
    raises replaces the outcome of [m]. *)
Definition try_finally {A} (m : M MM A) (f : M MM unit) : M MM A :=
  fun s =>
    match m s with
    | (r, s') =>
        match f s' with
        | (Ret _, s'') => (r, s'')
        | (Raise e, s'') => (Raise e, s'')
        end
    end.
End Monad.

Declare Scope py_scope.
Delimit Scope py_scope with py.
Notation "x <- m ;; k" := (bind m (fun x => k))
  (at level 100, m at next level, right associativity) : py_scope.
Notation "m ;; k" := (bind m (fun _ => k))
  (at level 100, right associativity) : py_scope.
Local Open Scope py_scope.

(** ** Strings of the source that are not plain ASCII *)

Definition bytes (l : list nat) : string :=
  string_of_list_ascii (map ascii_of_nat l).

(** The glyph bytes that open three messages of the source. *)
Definition glyph_cross : string := bytes [226; 128; 154; 195; 185; 195; 165]%nat.
Definition glyph_rocket : string :=
  bytes [239; 163; 191; 195; 188; 195; 182; 195; 132]%nat.
Definition glyph_wrench : string :=
  bytes [239; 163; 191; 195; 188; 195; 174; 195; 159]%nat.

(** [str(e)]; a [SystemExit] without a code, as [sys.exit()] raises it, has
    no argument and prints as the empty string. *)
Definition exn_str (e : exn) : string :=
  match e with
  | Exn _ msg => msg
  | SystemExit ExitNone => EmptyString
  | SystemExit (ExitInt n) =>
      DecimalString.NilZero.string_of_int (Z.to_int n)
  | SystemExit (ExitStr s) => s
  end.

(** ** The client *)

Section DoorLockDClient.
Context {MM : Type} {manager : ModuleManager.Interface MM} (env : Env).

(** [str(x)] inside an f-string. *)
Definition py_str (x : value) : string :=
  match x with
  | VNone => "None"
  | VBool true => "True"
  | VBool false => "False"
  | VInt z => DecimalString.NilZero.string_of_int (Z.to_int z)
  | VStr s => s
  | _ => str_of_opaque env x
  end.

(** [dc.logger.<method>(msg)]: [dc.logger] is [None] or the root logger. *)
Definition dc_log (lvl : Level) (msg : string) : M MM unit :=
  fun s =>
    match dc_logger s with
    | None => (Raise (none_has_no (method_of lvl)), s)
    | Some RootLogger => (Ret tt, record (EvLog lvl msg) s)
    end.

(** [logger.<method>(msg)] on the local variable bound to the root logger. *)
Definition root_log (lvl : Level) (msg : string) : M MM unit :=
  modify (record (EvLog lvl msg)).

(** [dc.config.get("doorlockd", {}).get(key, default)]. *)
Definition doorlockd_option (key : string) (default : value) : M MM value :=
  cfg <- gets dc_config ;;
  section <- lift (py_get (VTable cfg) "doorlockd" (VTable [])) ;;
  lift (py_get section key default).

(** [dc.module.do_all(phase)]. *)
Definition call_do_all (phase : string) : M MM unit :=
  fun s =>
    match dc_module s with
    | None => (Raise (none_has_no "do_all"), s)
    | Some m =>
        let '(m', r) := ModuleManager.do_all phase m in
        check r (record (EvDoAll phase r) (set_module (Some m') s))
    end.

(** [dc.module.load_all(module_configs)]. *)
Definition call_load_all (module_configs : value) : M MM unit :=
  fun s =>
    match dc_module s with
    | None => (Raise (none_has_no "load_all"), s)
    | Some m =>
        let '(m', r) := ModuleManager.load_all module_configs m in
        check r (record (EvLoadAll r) (set_module (Some m') s))
    end.

(** [dc.module.main_loop()]. *)
Definition call_main_loop : M MM unit :=
  fun s =>
    match dc_module s with
    | None => (Raise (none_has_no "main_loop"), s)
    | Some m =>
        let '(m', r) := ModuleManager.main_loop m in
        check r (record (EvMainLoop r) (set_module (Some m') s))
    end.

(** [dc.module.<attr>] for the two message attributes. *)
Definition module_attr (attr : string) (read : MM -> option string)
  : M MM (option string) :=
  fun s =>
    match dc_module s with
    | None => (Raise (none_has_no attr), s)
    | Some m => (Ret (read m), s)
    end.

Definition str_truthy (o : option string) : bool :=
  match o with
  | None => false
  | Some s => negb (String.eqb s "")
  end.

Definition str_or_none (o : option string) : string :=
  match o with
  | None => "None"
  | Some s => s
  end.

(** [sys.exit(code)]. *)
Definition sys_exit {A} (code : ExitCode) : M MM A := raise (SystemExit code).

Definition get_git_version : M MM string :=
  try_except
    (lift (git_describe env))
    (fun e =>
       if is_Exception e then
         Some (modify (record (EvPrint
                 ("Warning: Could not read version from git: " ++ exn_str e))) ;;
               ret "version-unknown")
       else None).

Definition setup_application_info : M MM unit :=
  ver <- get_git_version ;;
  modify (set_app_name_ver ("doorlockd-client" ++ "(" ++ ver ++ ")")).

Definition setup_data_container : M MM unit :=
  modify (set_config []) ;;
  modify (set_module None) ;;
  modify (set_e None) ;;
  modify (set_logger None) ;;
  check (new_io_ports env).

Definition init : M MM unit :=
  setup_application_info ;;
  setup_data_container.

Definition load_configuration : M MM unit :=
  try_except
    (modify (record EvTomlLoad) ;;
     cfg <- lift (toml_load env) ;;
     modify (set_config cfg) ;;
     dc_log INFO "Configuration loaded successfully")
    (fun e =>
       if is_FileNotFoundError e then
         Some (sys_exit (ExitStr
                 (glyph_cross ++ " Configuration file 'config.ini' not found.")))
       else if is_TomlDecodeError e then
         Some (sys_exit (ExitStr
                 (glyph_cross ++ " Invalid configuration file: " ++ exn_str e)))
       else None).

(** [logging.FileHandler(logfile_name)]: opens the file. *)
Definition new_file_handler (logfile_name : value) : M MM string :=
  match logfile_name with
  | VStr path =>
      modify (record (EvOpenLogFile path)) ;;
      check (open_log_file env path) ;;
      ret path
  | _ =>
      raise (Exn TypeError
                 ("expected str, bytes or os.PathLike object, not "
                    ++ py_type_name logfile_name))
  end.

(** [logger.addHandler(h)]. *)
Definition add_handler (h : Handler) : M MM unit :=
  modify (fun s => record (EvAddHandler h)
                          (set_handlers (root_handlers s ++ [h]) s)).

(** [setup_logging], block by block as the source comments them: the
    console handler, the file handler if configured, the overall level
    and the publication of the logger in [dc], the deprecation warning. *)
Definition install_console_handler : M MM unit :=
  console_level <- doorlockd_option "stderr_level" (VStr "INFO") ;;
  NAME <- lift (py_upper console_level) ;;
  level <- lift (logging_level NAME) ;;
  add_handler (mkHandler Console level formatter).

Definition install_file_handler : M MM unit :=
  logfile_name <- doorlockd_option "logfile_name" VNone ;;
  if truthy logfile_name then
    path <- new_file_handler logfile_name ;;
    file_level <- doorlockd_option "logfile_level" (VStr "INFO") ;;
    NAME <- lift (py_upper file_level) ;;
    level <- lift (logging_level NAME) ;;
    add_handler (mkHandler (File path) level formatter) ;;
    dc_log INFO ("Logging to file: " ++ py_str logfile_name
                   ++ " (level: " ++ py_str file_level ++ ")")
  else ret tt.

Definition set_overall_level : M MM unit :=
  handlers <- gets root_handlers ;;
  lowest <- lift (list_min (map h_level handlers)) ;;
  modify (set_level lowest) ;;
  modify (set_logger (Some RootLogger)).

Definition warn_deprecated : M MM unit :=
  deprecated_log_level <- doorlockd_option "log_level" VNone ;;
  if truthy deprecated_log_level then
    root_log WARNING
      ("Deprecated config 'doorlockd.log_level' will be ignored: "
         ++ py_str deprecated_log_level)
  else ret tt.

Definition setup_logging : M MM unit :=
  install_console_handler ;;
  install_file_handler ;;
  set_overall_level ;;
  warn_deprecated.

Definition setup_event_system : M MM unit :=
  check (new_events env) ;;
  modify (fun s => record EvNewEvents (set_e (Some Events) s)) ;;
  dc_log DEBUG "Event system initialized".

Definition setup_module_manager : M MM unit :=
  m <- lift ModuleManager.new ;;
  modify (fun s => record EvNewManager (set_module (Some m) s)) ;;
  dc_log DEBUG "Module manager initialized".

Definition setup_exception_handling : M MM unit :=
  modify (fun s => record EvExcepthook (set_excepthook true s)) ;;
  dc_log DEBUG "Global exception handler configured".

(** [signal.signal(signum, signal_handler)]. *)
Definition signal_signal (signum : Z) : M MM unit :=
  check (install_signal env signum) ;;
  modify (fun s => record (EvSignal signum)
                          (set_signal_handlers (signal_handlers s ++ [signum]) s)).

Definition setup_signal_handlers : M MM unit :=
  signal_signal SIGINT ;;
  signal_signal SIGTERM ;;
  dc_log DEBUG "Signal handlers configured".

Definition initialize_modules : M MM bool :=
  try_except
    (cfg <- gets dc_config ;;
     let module_configs :=
       match dict_get cfg "module" with Some v => v | None => VTable [] end in
     call_load_all module_configs ;;
     call_do_all "setup" ;;
     call_do_all "enable" ;;
     dc_log INFO "All modules initialized successfully" ;;
     ret true)
    (fun e =>
       if is_Exception e then
         Some (dc_log ERROR ("Failed to initialize modules: " ++ exn_str e) ;;
               ret false)
       else None).

Definition main_loop : M MM unit :=
  try_except
    (name_ver <- gets dc_app_name_ver ;;
     dc_log INFO (glyph_rocket ++ " " ++ name_ver ++ " entering main loop") ;;
     call_main_loop)
    (fun e =>
       if is_KeyboardInterrupt e then
         Some (dc_log INFO "Main loop interrupted by user")
       else if is_Exception e then
         Some (dc_log ERROR ("Main loop error: " ++ exn_str e))
       else None).

Definition shutdown : M MM unit :=
  modify (record EvShutdown) ;;
  dc_log INFO "Initiating shutdown sequence..." ;;
  call_do_all "disable" ;;
  call_do_all "teardown" ;;
  abort_msg <- module_attr "abort_msg" ModuleManager.abort_msg ;;
  if str_truthy abort_msg then
    dc_log WARNING ("Shutdown due to abort: " ++ str_or_none abort_msg)
  else
    exit_msg <- module_attr "exit_msg" ModuleManager.exit_msg ;;
    if str_truthy exit_msg then
      dc_log INFO ("Shutdown requested: " ++ str_or_none exit_msg)
    else dc_log INFO "Normal shutdown completed".

(** The body of the [try] in [run]: the initialization sequence, then
    the check of the flag and the modules. *)
Definition startup : M MM unit :=
  load_configuration ;;
  setup_logging ;;
  name_ver <- gets dc_app_name_ver ;;
  dc_log INFO (glyph_wrench ++ " " ++ name_ver ++ " starting up...") ;;
  setup_event_system ;;
  setup_module_manager ;;
  setup_exception_handling ;;
  setup_signal_handlers.

Definition operate : M MM unit :=
  enable_modules <- doorlockd_option "enable_modules" (VBool true) ;;
  if negb (truthy enable_modules) then
    dc_log WARNING "Modules are disabled in configuration"
  else
    ok <- initialize_modules ;;
    if ok : bool then main_loop else ret tt.

(** The [except Exception as e] clause of [run]. *)
Definition fatal (e : exn) : option (M MM unit) :=
  if is_Exception e then
    Some (dc_log CRITICAL ("Fatal error during startup: " ++ exn_str e) ;;
          sys_exit (ExitInt 1))
  else None.

Definition run : M MM unit :=
  try_finally (try_except (startup ;; operate) fatal) shutdown.

(** [main()]: construct the client, then run it. *)
Definition main : M MM unit :=
  init ;;
  run.

(** The global handlers installed by [setup_exception_handling] and
    [setup_signal_handlers]; both only talk to [dc.module]. *)
Definition global_exception_handler (exc_value : exn) : M MM unit :=
  fun s =>
    let error_msg := "Uncaught exception in thread: " ++ exn_str exc_value in
    match dc_module s with
    | None => (Raise (none_has_no "abort"), s)
    | Some m =>
        let '(m', r) := ModuleManager.abort error_msg exc_value m in
        check r (set_module (Some m') s)
    end.

Definition signal_handler (signum : Z) : M MM unit :=
  fun s =>
    let signal_name := if signum =? SIGINT then "SIGINT" else "SIGTERM" in
    match dc_module s with
    | None => (Raise (none_has_no "exit"), s)
    | Some m =>
        let '(m', r) := ModuleManager.exit ("Received " ++ signal_name) m in
        check r (set_module (Some m') s)
    end.
End DoorLockDClient.

(** ** The process *)

(** A process before [main]: no attribute of [dc] is set, the root logger
    has no handler and its default level [WARNING]. *)
Definition process_start {MM : Type} : State MM :=
  mkState "" [] None None None [] 30 false [] [].

(** The exit status of the interpreter for the outcome of [main]: [0] on
    return, the code of an uncaught [SystemExit] ([None] is [0]; an integer
    that fits a C [long], of 64 bits here, is passed to [exit] and the
    system keeps its low byte, any other integer gives [255]; a string is
    printed and gives [1]), [130] for [KeyboardInterrupt], and [1] for every
    other uncaught exception. *)
Definition exit_status {A : Type} (r : Res A) : Z :=
  match r with
  | Ret _ => 0
  | Raise (SystemExit ExitNone) => 0
  | Raise (SystemExit (ExitInt n)) =>
      if (- 2 ^ 63 <=? n) && (n <? 2 ^ 63) then n mod 256 else 255
  | Raise (SystemExit (ExitStr _)) => 1
  | Raise (Exn KeyboardInterrupt _) => 130
  | Raise (Exn _ _) => 1
  end.

(** ** A manager with scripted outcomes *)

Module SpecManager.
(** Modelled from the spec: [libs/Module.py], which holds [ModuleManager],
    is not among the sources.  The manager keeps the termination reason in
    the attributes [shutdown] reads, the cause of an abort, and a log of its
    own; the outcomes of [load_all], [do_all] and [main_loop] are scripted
    by [script], keyed by the name of the call or of the phase. *)
Record t : Type := mk {
  script : string -> option exn;
  abort_msg : option string;
  abort_cause : option exn;
  exit_msg : option string;
  log : list string
}.

(** Modelled from the spec: the reason is created empty at startup
    (section 3). *)
Definition fresh (sc : string -> option exn) : t := mk sc None None None [].

Definition is_empty (m : t) : bool :=
  match abort_msg m, exit_msg m with
  | None, None => true
  | _, _ => false
  end.

(** Modelled from the spec: [ModuleManager.abort], the request of the
    exception gateway, as an atomic set-if-empty (sections 4.3 and 5): the
    first capture records the message and the cause; a later one is logged
    and does not overwrite the recorded reason. *)
Definition request_abort (msg : string) (cause : exn) (m : t) : t :=
  if is_empty m
  then mk (script m) (Some msg) (Some cause) (exit_msg m) (log m)
  else mk (script m) (abort_msg m) (abort_cause m) (exit_msg m)
          (log m ++ ["superseded abort request: " ++ msg]).

(** Modelled from the spec: [ModuleManager.exit], the request of the signal
    gateway, as an atomic set-if-empty (sections 4.2 and 5): a request that
    finds a reason recorded is logged as superseded and discarded. *)
Definition request_exit (msg : string) (m : t) : t :=
  if is_empty m
  then mk (script m) (abort_msg m) (abort_cause m) (Some msg) (log m)
  else mk (script m) (abort_msg m) (abort_cause m) (exit_msg m)
          (log m ++ ["superseded exit request: " ++ msg]).

Definition interface (sc : string -> option exn) : ModuleManager.Interface t :=
  {| ModuleManager.new := Ret (fresh sc);
     ModuleManager.load_all := fun _ m => (m, script m "load_all");
     ModuleManager.do_all := fun phase m => (m, script m phase);
     ModuleManager.main_loop := fun m => (m, script m "main_loop");
     ModuleManager.abort := fun msg cause m => (request_abort msg cause m, None);
     ModuleManager.exit := fun msg m => (request_exit msg m, None);
     ModuleManager.abort_msg := abort_msg;
     ModuleManager.exit_msg := exit_msg |}.

(** The script in which every call returns. *)
Definition quiet : string -> option exn := fun _ => None.

(** The script in which exactly the calls named in [l] raise. *)
Definition failing (l : list (string * exn)) : string -> option exn :=
  fun call =>
    match find (fun p => String.eqb call (fst p)) l with
    | Some p => Some (snd p)
    | None => None
    end.
End SpecManager.

(** A quiet world around a given outcome of [toml.load]. *)
Definition world (config : Res dict) : Env :=
  mkEnv (Ret "heads/main-0-g0000000") None config (fun _ => None) None
        (fun _ => None) (fun _ => "").

(** * The vocabulary of the properties *)

Local Open Scope list_scope.

(** ** Traces and the parts of [run] *)

(** [m] only appends to the trace, and only events accepted by [ok]. *)
Definition emits {MM A : Type} (ok : Event -> bool) (m : M MM A) : Prop :=
  forall s, exists d, trace (snd (m s)) = trace s ++ d /\ forallb ok d = true.

(** What [load_configuration] leaves behind: the configuration when it was
    parsed, and the call of [toml.load] in the trace. *)
Definition after_load {MM : Type} (env : Env) (s : State MM) : State MM :=
  match toml_load env with
  | Ret cfg => set_config cfg (record EvTomlLoad s)
  | Raise _ => record EvTomlLoad s
  end.

(** The part of [run] that follows a completed initialization sequence. *)
Definition run_modules {MM : Type} {manager : ModuleManager.Interface MM}
  : M MM unit :=
  try_finally (try_except operate fatal) shutdown.

(** ** Classes of events *)

Definition is_shutdown_entry (ev : Event) : bool :=
  match ev with
  | EvShutdown => true
  | _ => false
  end.

Definition not_shutdown_entry (ev : Event) : bool := negb (is_shutdown_entry ev).

(** Calls that reach the modules before shutdown. *)
Definition is_forward_call (ev : Event) : bool :=
  match ev with
  | EvLoadAll _ => true
  | EvMainLoop _ => true
  | EvDoAll phase _ => String.eqb phase "setup" || String.eqb phase "enable"
  | _ => false
  end.

Definition is_phase_call (ev : Event) : bool :=
  match ev with
  | EvDoAll _ _ => true
  | _ => false
  end.

Definition is_log (ev : Event) : bool :=
  match ev with
  | EvLog _ _ => true
  | _ => false
  end.

Definition is_log_at (lvl : Level) (ev : Event) : bool :=
  match ev with
  | EvLog l _ => levelno l =? levelno lvl
  | _ => false
  end.

(** What the initialization sequence may leave in the trace. *)
Definition startup_event (ev : Event) : bool :=
  match ev with
  | EvTomlLoad | EvOpenLogFile _ | EvAddHandler _ | EvNewEvents
  | EvNewManager | EvExcepthook | EvSignal _ => true
  | EvLog l _ => negb (levelno l =? 50) && negb (levelno l =? 40)
  | _ => false
  end.

(** What [shutdown] may leave in the trace. *)
Definition shutdown_event (ev : Event) : bool :=
  match ev with
  | EvShutdown => true
  | EvDoAll phase _ => String.eqb phase "disable" || String.eqb phase "teardown"
  | EvLog l _ => negb (levelno l =? 50) && negb (levelno l =? 40)
  | _ => false
  end.

Definition shutdown_entries (d : list Event) : nat :=
  length (filter is_shutdown_entry d).

(** What the part of [run] after the initialization may leave in the trace. *)
Definition operate_event (ev : Event) : bool :=
  match ev with
  | EvLoadAll _ | EvMainLoop _ => true
  | EvDoAll phase _ => String.eqb phase "setup" || String.eqb phase "enable"
  | EvLog l _ => negb (levelno l =? 50)
  | _ => false
  end.

Definition fatal_event (ev : Event) : bool := is_log_at CRITICAL ev.

Definition is_main_loop_call (ev : Event) : bool :=
  match ev with
  | EvMainLoop _ => true
  | _ => false
  end.

(** A forward call other than the operational loop raised [e]. *)
Definition initialization_raised (e : exn) (d : list Event) : Prop :=
  In (EvLoadAll (Some e)) d \/ In (EvDoAll "setup" (Some e)) d
  \/ In (EvDoAll "enable" (Some e)) d.

Definition quiet_event (ev : Event) : bool :=
  negb (is_main_loop_call ev) && negb (is_log_at CRITICAL ev)
  && negb (is_shutdown_entry ev).

(** Events of a run whose initialization sequence did not complete. *)
Definition unstarted_event (ev : Event) : bool :=
  startup_event ev || fatal_event ev || shutdown_event ev.

(** ** Handlers and log lines *)



(** What [setup_logging] may add after the console handler. *)
Definition logging_event (ev : Event) : bool :=
  match ev with
  | EvOpenLogFile _ => true
  | EvAddHandler h => match h_stream h with File _ => true | Console => false end
  | EvLog _ _ => true
  | _ => false
  end.

(** The table [dc.config.get("doorlockd", {})], when it is a table. *)
Definition doorlockd_section (cfg : dict) : option dict :=
  match dict_get cfg "doorlockd" with
  | None => Some []
  | Some (VTable kvs) => Some kvs
  | Some _ => None
  end.

(** The option [key], when set, is the name of a logging level. *)
Definition names_level (section : dict) (key : string) : Prop :=
  forall v, dict_get section key = Some v ->
            exists n l, v = VStr n /\ logging_level (upper n) = Ret l.




(** ** Deliveries to the gateways *)

(** What the two gateways can be handed: a signal, or the exception that
    escaped a thread. *)
Inductive Delivery : Type :=
| Signal (signum : Z)
| ThreadException (exc_value : exn).

Section Gateways.
Context {MM : Type} {manager : ModuleManager.Interface MM}.

(** The handler that the delivery runs. *)
Definition deliver (dl : Delivery) : M MM unit :=
  match dl with
  | Signal signum => signal_handler signum
  | ThreadException exc_value => global_exception_handler exc_value
  end.

(** An interleaving: the deliveries in the order in which the manager's
    atomic requests take effect. *)
Fixpoint deliver_all (ds : list Delivery) : M MM unit :=
  match ds with
  | [] => ret tt
  | dl :: ds' => deliver dl ;; deliver_all ds'
  end.
End Gateways.

(** The reason a manager holds: the three attributes the requests write. *)
Definition reason_of (m : SpecManager.t)
  : option string * option exn * option string :=
  (SpecManager.abort_msg m, SpecManager.abort_cause m, SpecManager.exit_msg m).

(** At most one of Abort and Exit is set. *)
Definition exclusive (m : SpecManager.t) : Prop :=
  SpecManager.abort_msg m = None \/ SpecManager.exit_msg m = None.

Definition superseded (entry : string) : bool :=
  String.prefix "superseded" entry.

(** ** Parts of the state, and calls that failed *)

(** [m] leaves the part [f] of the state as it found it, whatever its
    outcome. *)
Definition keeps {MM A X : Type} (f : State MM -> X) (m : M MM A) : Prop :=
  forall s, f (snd (m s)) = f s.

(** The two gateways as the interpreter holds them: [threading.excepthook]
    and the signals with a handler of the client. *)
Definition hooks {MM : Type} (s : State MM) : bool * list Z :=
  (excepthook s, signal_handlers s).

(** What the initialization sequence touches before it constructs the
    manager: neither [dc.module] nor a gateway. *)
Definition wiring {MM : Type} (s : State MM) : option MM * (bool * list Z) :=
  (dc_module s, hooks s).

(** What [setup_logging] publishes in its last block: the logger in [dc]
    and the level of the root logger. *)
Definition published {MM : Type} (s : State MM) : option Logger * Z :=
  (dc_logger s, root_level s).

(** A call into the manager that raised. *)
Definition call_raised (ev : Event) : bool :=
  match ev with
  | EvLoadAll (Some _) | EvDoAll _ (Some _) | EvMainLoop (Some _) => true
  | _ => false
  end.

(** No event of the class [later] follows a call that raised. *)
Fixpoint quiet_after_failure (later : Event -> bool) (d : list Event) : bool :=
  match d with
  | [] => true
  | ev :: d' =>
      (if call_raised ev then forallb (fun ev' => negb (later ev')) d' else true)
      && quiet_after_failure later d'
  end.

(** A line that reports the reason of the shutdown. *)
Definition is_reason_line (ev : Event) : bool :=
  match ev with
  | EvLog _ msg =>
      String.prefix "Shutdown due to abort: " msg
      || String.prefix "Shutdown requested: " msg
      || String.eqb msg "Normal shutdown completed"
  | _ => false
  end.

(** ** Counting what a run did *)

(** The applications of the phase [phase] among the events [d]. *)
Definition applies (phase : string) (ev : Event) : bool :=
  match ev with
  | EvDoAll p _ => String.eqb p phase
  | _ => false
  end.

Definition phase_applications (phase : string) (d : list Event) : nat :=
  length (filter (applies phase) d).

(** What the [try] block and the [except] clause of [run] may leave in the
    trace. *)
Definition before_shutdown (ev : Event) : bool :=
  startup_event ev || operate_event ev || fatal_event ev.

(** ** Concrete worlds, managers and states *)

Definition quiet_manager : ModuleManager.Interface SpecManager.t :=
  SpecManager.interface SpecManager.quiet.

Definition failing_manager (l : list (string * exn))
  : ModuleManager.Interface SpecManager.t :=
  SpecManager.interface (SpecManager.failing l).

Definition boom : exn := Exn (OtherException "RuntimeError") "reader not found".
Definition bang : exn := Exn (OtherException "RuntimeError") "reader not open".

(** The state in which [main] calls [run]: the client has been constructed. *)
Definition constructed : State SpecManager.t :=
  snd (init (world (Ret [])) process_start).

(** The same state with the root logger already bound to [dc.logger]. *)
Definition logged : State SpecManager.t := set_logger (Some RootLogger) constructed.

(** A state in which the logger and a manager exist. *)
Definition ready (sc : string -> option exn) : State SpecManager.t :=
  set_module (Some (SpecManager.fresh sc)) logged.

(** The events that lead from [s] to [s']. *)
Definition added {MM : Type} (s s' : State MM) : list Event :=
  skipn (length (trace s)) (trace s').

Definition missing_file : exn :=
  Exn FileNotFoundError "No such file or directory: 'config.ini'".

Definition modules_disabled : dict :=
  [("doorlockd", VTable [("enable_modules", VBool false)])].

Definition file_logging : dict :=
  [("doorlockd", VTable [("logfile_name", VStr "/var/log/doorlockd.log")])].

(** A run in which the application of [setup] fails and [shutdown] works. *)
Definition setup_fails : State SpecManager.t :=
  snd (run (manager := failing_manager [("setup", boom)]) (world (Ret [])) logged).

(** A run in which the operational loop raises an [Exception]. *)
Definition bus_error : exn := Exn (OtherException "OSError") "bus error".

Definition loop_fails : State SpecManager.t :=
  snd (run (manager := failing_manager [("main_loop", bus_error)])
           (world (Ret [])) logged).

(** [setup_logging] on a configuration that asks for a log file. *)
Definition log_to_file : State SpecManager.t :=
  snd (setup_logging (world (Ret file_logging)) (set_config file_logging constructed)).

(** The quiet world with the modules disabled, entered with a logger. *)
Definition started_disabled : State SpecManager.t :=
  snd (startup (manager := quiet_manager) (world (Ret modules_disabled)) logged).

(** A machine without [git]: the version command cannot be started. *)
Definition world_without_git : Env :=
  mkEnv (Raise (Exn FileNotFoundError "No such file or directory: 'git'"))
        None (Ret []) (fun _ => None) None (fun _ => None) (fun _ => "").

(** [run] entered with a logger when [config.ini] is missing. *)
Definition config_missing : State SpecManager.t :=
  snd (startup (manager := quiet_manager) (world (Raise missing_file)) logged).

(** A level name that [logging] does not know. *)
Definition unknown_level : dict :=
  [("doorlockd", VTable [("stderr_level", VStr "loud")])].

(** [setup_logging] for a log file, entered with a logger. *)
Definition logging_to_file : State SpecManager.t :=
  snd (setup_logging (world (Ret file_logging)) (set_config file_logging logged)).

(** The flag set to the number [0]. *)
Definition modules_zero : dict :=
  [("doorlockd", VTable [("enable_modules", VInt 0)])].

(** A run in which [load_all] fails. *)
Definition load_fails : State SpecManager.t :=
  snd (run (manager := failing_manager [("load_all", boom)]) (world (Ret [])) logged).

Definition interrupt : exn := Exn KeyboardInterrupt "".

(** A run in which the application of [setup] is interrupted. *)
Definition setup_interrupted : State SpecManager.t :=
  snd (run (manager := failing_manager [("setup", interrupt)]) (world (Ret [])) logged).

(** The initialization sequence of the run in which the loop fails. *)
Definition started_for_the_loop : State SpecManager.t :=
  snd (startup (manager := failing_manager [("main_loop", bus_error)])
               (world (Ret [])) logged).

(** A configuration file that cannot be read. *)
Definition permission_denied : exn :=
  Exn (OtherException "PermissionError") "Permission denied: 'config.ini'".

(** The state in which [main] calls [shutdown]: the empty configuration has
    been read and nothing else has happened. *)
Definition loaded : State SpecManager.t := after_load (world (Ret [])) constructed.

(** * Reasoning about traces *)

(** ** Lists of events *)

Lemma shutdown_entries_app d1 d2 :
  shutdown_entries (d1 ++ d2) = (shutdown_entries d1 + shutdown_entries d2)%nat.
Proof.
  unfold shutdown_entries. rewrite filter_app, length_app. reflexivity.
Qed.

Lemma shutdown_entries_none d :
  forallb not_shutdown_entry d = true -> shutdown_entries d = 0%nat.
Proof.
  unfold shutdown_entries, not_shutdown_entry.
  induction d as [|ev d IH]; simpl; [reflexivity|].
  destruct (is_shutdown_entry ev); simpl; [discriminate|exact IH].
Qed.

Lemma forallb_weaken (p q : Event -> bool) d :
  (forall ev, p ev = true -> q ev = true) ->
  forallb p d = true -> forallb q d = true.
Proof.
  intros Hpq. rewrite !forallb_forall. auto.
Qed.

Lemma forallb_not_In (p : Event -> bool) d ev :
  forallb p d = true -> p ev = false -> ~ In ev d.
Proof.
  rewrite forallb_forall. intros Hall Hev Hin.
  rewrite (Hall _ Hin) in Hev. discriminate.
Qed.

(** ** Rules for [emits] *)

Section Emits.
Context {MM : Type}.

Lemma emits_weaken {A} (p q : Event -> bool) (m : M MM A) :
  (forall ev, p ev = true -> q ev = true) -> emits p m -> emits q m.
Proof.
  intros Hpq Hm s. destruct (Hm s) as (d & Hd & Hall).
  exists d. split; [exact Hd|]. eapply forallb_weaken; eauto.
Qed.

Lemma emits_nothing {A} ok (m : M MM A) :
  (forall s, trace (snd (m s)) = trace s) -> emits ok m.
Proof.
  intros H s. exists []. rewrite app_nil_r. split; [apply H|reflexivity].
Qed.

Lemma emits_ret {A} ok (a : A) : emits ok (ret (MM := MM) a).
Proof. apply emits_nothing. reflexivity. Qed.

Lemma emits_raise {A} ok e : emits ok (raise (MM := MM) (A := A) e).
Proof. apply emits_nothing. reflexivity. Qed.

Lemma emits_lift {A} ok (r : Res A) : emits ok (lift (MM := MM) r).
Proof. apply emits_nothing. reflexivity. Qed.

Lemma emits_gets {A} ok (f : State MM -> A) : emits ok (gets f).
Proof. apply emits_nothing. reflexivity. Qed.

Lemma emits_check ok o : emits ok (check (MM := MM) o).
Proof. destruct o; [apply emits_raise|apply emits_ret]. Qed.

Lemma emits_sys_exit {A} ok code : emits ok (sys_exit (MM := MM) (A := A) code).
Proof. apply emits_raise. Qed.

Lemma emits_modify ok (f : State MM -> State MM) :
  (forall s, trace (f s) = trace s) -> emits ok (modify f).
Proof. intros H. apply emits_nothing. exact H. Qed.

Lemma emits_record ok ev (f : State MM -> State MM) :
  ok ev = true -> (forall s, trace (f s) = trace s) ->
  emits ok (modify (fun s => record ev (f s))).
Proof.
  intros Hev Hf s. exists [ev]. simpl. rewrite Hf, Hev. split; reflexivity.
Qed.

Lemma emits_bind {A B} ok (m : M MM A) (k : A -> M MM B) :
  emits ok m -> (forall a, emits ok (k a)) -> emits ok (bind m k).
Proof.
  intros Hm Hk s. unfold bind.
  destruct (Hm s) as (d1 & Hd1 & Hall1).
  destruct (m s) as [[a|e] s1]; simpl in Hd1.
  - destruct (Hk a s1) as (d2 & Hd2 & Hall2).
    exists (d1 ++ d2). rewrite Hd2, Hd1, app_assoc, forallb_app, Hall1, Hall2.
    split; reflexivity.
  - exists d1. simpl. split; assumption.
Qed.

Lemma emits_try_except {A} ok (m : M MM A) (h : exn -> option (M MM A)) :
  emits ok m -> (forall e handler, h e = Some handler -> emits ok handler) ->
  emits ok (try_except m h).
Proof.
  intros Hm Hh s. unfold try_except.
  destruct (Hm s) as (d1 & Hd1 & Hall1).
  destruct (m s) as [[a|e] s1]; simpl in Hd1.
  - exists d1. simpl. split; assumption.
  - destruct (h e) as [handler|] eqn:Hhe.
    + destruct (Hh e handler Hhe s1) as (d2 & Hd2 & Hall2).
      exists (d1 ++ d2). rewrite Hd2, Hd1, app_assoc, forallb_app, Hall1, Hall2.
      split; reflexivity.
    + exists d1. simpl. split; assumption.
Qed.

Lemma emits_try_finally {A} ok (m : M MM A) (f : M MM unit) :
  emits ok m -> emits ok f -> emits ok (try_finally m f).
Proof.
  intros Hm Hf s. unfold try_finally.
  destruct (Hm s) as (d1 & Hd1 & Hall1).
  destruct (m s) as [r s1]; simpl in Hd1.
  destruct (Hf s1) as (d2 & Hd2 & Hall2).
  exists (d1 ++ d2).
  destruct (f s1) as [[u|e] s2]; simpl in *;
    rewrite Hd2, Hd1, app_assoc, forallb_app, Hall1, Hall2; split; reflexivity.
Qed.
End Emits.

(** ** What each method of the client may add to the trace *)

Section ClientEmits.
Context {MM : Type} {manager : ModuleManager.Interface MM} (env : Env).

Lemma emits_dc_log ok lvl msg :
  ok (EvLog lvl msg) = true -> emits ok (dc_log (MM := MM) lvl msg).
Proof.
  intros Hok s. unfold dc_log. destruct (dc_logger s) as [[]|]; simpl.
  - exists [EvLog lvl msg]. simpl. rewrite Hok. split; reflexivity.
  - exists []. rewrite app_nil_r. split; reflexivity.
Qed.

Lemma emits_root_log ok lvl msg :
  ok (EvLog lvl msg) = true -> emits ok (root_log (MM := MM) lvl msg).
Proof.
  intros Hok s. exists [EvLog lvl msg]. simpl. rewrite Hok. split; reflexivity.
Qed.

Lemma emits_doorlockd_option ok key default :
  emits ok (doorlockd_option (MM := MM) key default).
Proof.
  unfold doorlockd_option.
  repeat (apply emits_bind; [|intros ?]);
    first [apply emits_gets | apply emits_lift].
Qed.

Lemma emits_call_do_all ok phase :
  (forall r, ok (EvDoAll phase r) = true) -> emits ok (call_do_all phase).
Proof.
  intros Hok s. unfold call_do_all. destruct (dc_module s) as [m|]; simpl.
  - destruct (ModuleManager.do_all phase m) as [m' r].
    exists [EvDoAll phase r]. simpl. rewrite Hok.
    destruct r; simpl; split; reflexivity.
  - exists []. rewrite app_nil_r. split; reflexivity.
Qed.

Lemma emits_call_load_all ok cfg :
  (forall r, ok (EvLoadAll r) = true) -> emits ok (call_load_all cfg).
Proof.
  intros Hok s. unfold call_load_all. destruct (dc_module s) as [m|]; simpl.
  - destruct (ModuleManager.load_all cfg m) as [m' r].
    exists [EvLoadAll r]. simpl. rewrite Hok.
    destruct r; simpl; split; reflexivity.
  - exists []. rewrite app_nil_r. split; reflexivity.
Qed.

Lemma emits_call_main_loop ok :
  (forall r, ok (EvMainLoop r) = true) -> emits ok call_main_loop.
Proof.
  intros Hok s. unfold call_main_loop. destruct (dc_module s) as [m|]; simpl.
  - destruct (ModuleManager.main_loop m) as [m' r].
    exists [EvMainLoop r]. simpl. rewrite Hok.
    destruct r; simpl; split; reflexivity.
  - exists []. rewrite app_nil_r. split; reflexivity.
Qed.

Lemma emits_module_attr ok attr (read : MM -> option string) :
  emits ok (module_attr attr read).
Proof.
  apply emits_nothing. intros s. unfold module_attr.
  destruct (dc_module s); reflexivity.
Qed.
End ClientEmits.

(** One rule of [emits], chosen by the shape of the computation. *)
Ltac emits_step :=
  match goal with
  | |- emits _ (bind _ _) => apply emits_bind; [|intros ?]
  | |- emits _ (try_except _ _) =>
      apply emits_try_except;
      [|let e := fresh "e" in
        let handler := fresh "handler" in
        let H := fresh "H" in
        intros e handler H; cbv beta in H]
  | |- emits _ (try_finally _ _) => apply emits_try_finally
  | |- emits _ (ret _) => apply emits_ret
  | |- emits _ (raise _) => apply emits_raise
  | |- emits _ (sys_exit _) => apply emits_sys_exit
  | |- emits _ (lift _) => apply emits_lift
  | |- emits _ (gets _) => apply emits_gets
  | |- emits _ (check _) => apply emits_check
  | |- emits _ (doorlockd_option _ _) => apply emits_doorlockd_option
  | |- emits _ (module_attr _ _) => apply emits_module_attr
  | |- emits _ (dc_log _ _) => apply emits_dc_log; reflexivity
  | |- emits _ (root_log _ _) => apply emits_root_log; reflexivity
  | |- emits _ (call_do_all _) => apply emits_call_do_all; intros ?; reflexivity
  | |- emits _ (call_load_all _) => apply emits_call_load_all; intros ?; reflexivity
  | |- emits _ call_main_loop => apply emits_call_main_loop; intros ?; reflexivity
  | |- emits _ (modify (fun s => record _ _)) =>
      apply emits_record; [reflexivity|intros ?; reflexivity]
  | |- emits _ (modify (record ?ev)) =>
      apply (emits_record _ ev (fun s => s)); [reflexivity|intros ?; reflexivity]
  | |- emits _ (modify _) => apply emits_modify; intros ?; reflexivity
  | H : (if ?b then _ else _) = Some _ |- _ => destruct b
  | H : Some _ = Some _ |- _ => injection H as <-
  | H : None = Some _ |- _ => discriminate H
  | |- emits _ (if ?b then _ else _) => destruct b
  | |- emits _ (match ?x with _ => _ end) => destruct x
  end.

Ltac emits_auto := repeat emits_step.

Section ClientTraces.
Context {MM : Type} {manager : ModuleManager.Interface MM} (env : Env).

Lemma startup_emits : emits startup_event (startup (MM := MM) env).
Proof.
  unfold startup, load_configuration, setup_logging, install_console_handler,
  install_file_handler, set_overall_level, warn_deprecated, new_file_handler,
    add_handler, setup_event_system, setup_module_manager,
    setup_exception_handling, setup_signal_handlers, signal_signal.
  emits_auto.
Qed.
End ClientTraces.

Lemma startup_event_not_shutdown ev :
  startup_event ev = true -> not_shutdown_entry ev = true.
Proof. destruct ev; simpl; intros H; first [reflexivity | discriminate H]. Qed.

Lemma operate_event_not_shutdown ev :
  operate_event ev = true -> not_shutdown_entry ev = true.
Proof. destruct ev; simpl; intros H; first [reflexivity | discriminate H]. Qed.

Lemma fatal_event_not_shutdown ev :
  fatal_event ev = true -> not_shutdown_entry ev = true.
Proof. destruct ev; simpl; intros H; first [reflexivity | discriminate H]. Qed.

Section RunTraces.
Context {MM : Type} {manager : ModuleManager.Interface MM} (env : Env).

Lemma operate_emits : emits operate_event (operate (MM := MM)).
Proof.
  unfold operate, initialize_modules, main_loop. emits_auto.
Qed.

Lemma fatal_emits e handler :
  fatal (MM := MM) e = Some handler -> emits fatal_event handler.
Proof.
  unfold fatal. intros H. emits_auto.
Qed.

(** The body of the [try] of [run], with its [except] clause, never
    enters [shutdown]. *)
Lemma try_part_emits :
  emits not_shutdown_entry
        (try_except (startup env ;; operate) (fatal (MM := MM))).
Proof.
  apply emits_try_except.
  - apply emits_bind; [|intros _].
    + eapply emits_weaken; [apply startup_event_not_shutdown|].
      apply startup_emits.
    + eapply emits_weaken; [apply operate_event_not_shutdown|].
      apply operate_emits.
  - intros e handler H.
    eapply emits_weaken; [apply fatal_event_not_shutdown|].
    eapply fatal_emits; eassumption.
Qed.

Lemma after_record {A} ok ev (k : unit -> M MM A) :
  (forall u, emits ok (k u)) ->
  forall s, exists d,
    trace (snd (bind (modify (record ev)) k s)) = trace s ++ ev :: d
    /\ forallb ok d = true.
Proof.
  intros Hk s. destruct (Hk tt (record ev s)) as (d & Hd & Hall).
  exists d. split; [|exact Hall].
  unfold bind, modify. rewrite Hd. simpl. rewrite <- app_assoc. reflexivity.
Qed.

(** [shutdown] records its entry and then only logs below [ERROR] and
    applies the phases [disable] and [teardown]. *)
Lemma shutdown_trace (s : State MM) :
  exists d,
    trace (snd (shutdown s)) = trace s ++ EvShutdown :: d
    /\ forallb shutdown_event d = true
    /\ forallb not_shutdown_entry d = true.
Proof.
  assert (H : forall ok, (forall l msg, (levelno l <? 40) = true ->
                                        ok (EvLog l msg) = true) ->
                         (forall r, ok (EvDoAll "disable" r) = true) ->
                         (forall r, ok (EvDoAll "teardown" r) = true) ->
                         exists d, trace (snd (shutdown s)) = trace s ++ EvShutdown :: d
                                   /\ forallb ok d = true).
  { intros ok Hlog Hdis Htear. unfold shutdown. apply after_record. intros _.
    repeat first
      [ apply emits_bind; [|intros ?]
      | apply emits_dc_log; apply Hlog; reflexivity
      | apply emits_call_do_all; assumption
      | apply emits_module_attr
      | match goal with |- emits _ (if ?b then _ else _) => destruct b end ]. }
  destruct (H shutdown_event) as (d1 & Hd1 & Hall1);
    [intros [] msg Hl; (reflexivity || discriminate Hl)
    |intros ?; reflexivity|intros ?; reflexivity|].
  destruct (H not_shutdown_entry) as (d2 & Hd2 & Hall2);
    [intros; reflexivity|intros ?; reflexivity|intros ?; reflexivity|].
  rewrite Hd1 in Hd2. apply app_inv_head in Hd2. injection Hd2 as <-.
  exists d1. auto.
Qed.

(** From every state of the process and whatever the collaborators
    answer, [run] calls [shutdown] exactly once: the events the run adds to
    the trace contain exactly one [EvShutdown]. *)
Lemma run_enters_shutdown_once (s : State MM) :
  exists d,
    trace (snd (run env s)) = trace s ++ d /\ shutdown_entries d = 1%nat.
Proof.
  unfold run, try_finally.
  destruct (try_part_emits s) as (d1 & Hd1 & Hall1).
  destruct (try_except (startup env ;; operate) fatal s) as [r s1].
  simpl in Hd1.
  destruct (shutdown_trace s1) as (d2 & Hd2 & _ & Hall2).
  exists (d1 ++ EvShutdown :: d2). split.
  - destruct (shutdown s1) as [[u|e] s2]; simpl in *;
      rewrite Hd2, Hd1, <- app_assoc; reflexivity.
  - rewrite shutdown_entries_app.
    change (EvShutdown :: d2) with ([EvShutdown] ++ d2).
    rewrite shutdown_entries_app.
    rewrite (shutdown_entries_none d1), (shutdown_entries_none d2) by assumption.
    reflexivity.
Qed.
End RunTraces.

(** * Symbolic execution *)

Arguments logging_level : simpl never.
Arguments upper : simpl never.
Arguments exn_str : simpl never.
Arguments String.eqb : simpl nomatch.
Arguments String.append : simpl never.

(** Case analysis on the innermost scrutinee that blocks the computation. *)
Ltac destruct_innermost :=
  match goal with
  | |- context [match ?x with _ => _ end] =>
      lazymatch x with
      | context [match _ with _ => _ end] => fail
      | _ => destruct x eqn:?
      end
  end.

Ltac exec := simpl; repeat (destruct_innermost; simpl in *; try discriminate).

(** * A process whose [dc.logger] is still [None] *)

Section WithoutLogger.
Context {MM : Type} {manager : ModuleManager.Interface MM} (env : Env).

Lemma bind_raise {A B} (m : M MM A) (k : A -> M MM B) s e s1 :
  m s = (Raise e, s1) -> bind m k s = (Raise e, s1).
Proof. intros H. unfold bind. rewrite H. reflexivity. Qed.

Lemma bind_ret {A B} (m : M MM A) (k : A -> M MM B) s a s1 :
  m s = (Ret a, s1) -> bind m k s = k a s1.
Proof. intros H. unfold bind. rewrite H. reflexivity. Qed.

Lemma dc_log_without_logger lvl msg (s : State MM) :
  dc_logger s = None -> dc_log lvl msg s = (Raise (none_has_no (method_of lvl)), s).
Proof. intros H. unfold dc_log. rewrite H. reflexivity. Qed.

Lemma dc_log_with_logger lvl msg (s : State MM) :
  dc_logger s = Some RootLogger ->
  dc_log lvl msg s = (Ret tt, record (EvLog lvl msg) s).
Proof. intros H. unfold dc_log. rewrite H. reflexivity. Qed.

(** With [dc.logger = None], [load_configuration] raises on every path:
    the success message has no logger to go to, a missing or invalid file
    becomes [SystemExit], and any other exception passes through. *)
Lemma load_configuration_without_logger (s : State MM) :
  dc_logger s = None ->
  exists e,
    load_configuration env s = (Raise e, after_load env s)
    /\ match toml_load env with
       | Ret _ => e = none_has_no "info"
       | Raise e0 =>
           if is_FileNotFoundError e0 || is_TomlDecodeError e0
           then exists msg, e = SystemExit (ExitStr msg)
           else e = e0
       end.
Proof.
  intros Hlog.
  unfold load_configuration, after_load, try_except, bind, modify, lift, sys_exit, raise.
  simpl. destruct (toml_load env) as [cfg|e0]; simpl.
  - rewrite dc_log_without_logger by exact Hlog. simpl.
    eexists. split; reflexivity.
  - destruct e0 as [[] msg|code]; simpl; eexists; split;
      first [reflexivity | eexists; reflexivity].
Qed.

Lemma shutdown_without_logger (s : State MM) :
  dc_logger s = None ->
  shutdown s = (Raise (none_has_no "info"), record EvShutdown s).
Proof.
  intros Hlog. unfold shutdown.
  rewrite (bind_ret _ _ s tt (record EvShutdown s)) by reflexivity.
  apply bind_raise. apply dc_log_without_logger. exact Hlog.
Qed.

Lemma fatal_without_logger e handler (s : State MM) :
  dc_logger s = None -> fatal e = Some handler ->
  handler s = (Raise (none_has_no "critical"), s).
Proof.
  intros Hlog. unfold fatal. destruct (is_Exception e); [|discriminate].
  intros [= <-]. apply bind_raise. apply dc_log_without_logger. exact Hlog.
Qed.

(** Hence every run that starts without a logger ends in [shutdown]'s
    first statement: nothing but the call of [toml.load] and the entry
    into [shutdown] happens. *)
Lemma run_without_logger (s : State MM) :
  dc_logger s = None ->
  run env s = (Raise (none_has_no "info"), record EvShutdown (after_load env s)).
Proof.
  intros Hlog.
  destruct (load_configuration_without_logger s Hlog) as (e & Hload & _).
  assert (Hafter : dc_logger (after_load env s) = None).
  { unfold after_load. destruct (toml_load env); exact Hlog. }
  unfold run, try_finally, try_except.
  rewrite (bind_raise _ _ s e (after_load env s)).
  2:{ unfold startup. apply bind_raise. exact Hload. }
  destruct (fatal e) as [handler|] eqn:Hfatal.
  - rewrite (fatal_without_logger e handler _ Hafter Hfatal).
    rewrite shutdown_without_logger by exact Hafter. reflexivity.
  - rewrite shutdown_without_logger by exact Hafter. reflexivity.
Qed.

(** The constructor leaves every attribute that [run] fills in empty. *)
Lemma init_post (s0 s : State MM) r :
  init env s0 = (r, s) ->
  dc_logger s = None /\ dc_module s = None /\ dc_e s = None
  /\ dc_config s = []
  /\ root_handlers s = root_handlers s0
  /\ excepthook s = excepthook s0
  /\ signal_handlers s = signal_handlers s0
  \/ (exists e, r = Raise e /\ git_describe env = Raise e).
Proof.
  unfold init, setup_application_info, get_git_version, setup_data_container,
    try_except, bind, modify, lift, check, ret, raise.
  destruct (git_describe env) as [v|e]; simpl.
  - destruct (new_io_ports env); simpl; intros [= <- <-]; left; repeat split.
  - destruct (is_Exception e); simpl.
    + destruct (new_io_ports env); simpl; intros [= <- <-]; left; repeat split.
    + intros [= <- <-]. right. exists e. split; reflexivity.
Qed.

Lemma main_after_init (s0 s : State MM) :
  init env s0 = (Ret tt, s) -> main env s0 = run env s.
Proof.
  intros H. unfold main.
  exact (bind_ret (init env) (fun _ => run env) s0 tt s H).
Qed.
End WithoutLogger.

Ltac exec_with H :=
  repeat (simpl in *; rewrite ?H);
  repeat (destruct_innermost; repeat (simpl in *; rewrite ?H); try discriminate).

(** Names the events a computation added: [trace s ++ d] with [d] explicit. *)
Ltac added_events :=
  rewrite <- ?app_assoc; simpl;
  first [ exists []; split; [symmetry; apply app_nil_r|]
        | eexists; split; [reflexivity|] ].

Section LoggerIsNone.
Context {MM : Type} {manager : ModuleManager.Interface MM} (env : Env).

Lemma setup_data_container_logger (s0 : State MM) :
  dc_logger (snd (setup_data_container env s0)) = None.
Proof.
  unfold setup_data_container, bind, modify, check, ret, raise.
  destruct (new_io_ports env); reflexivity.
Qed.

Lemma load_configuration_keeps_logger (s : State MM) :
  dc_logger (snd (load_configuration env s)) = dc_logger s.
Proof.
  unfold load_configuration, try_except, bind, modify, lift, sys_exit, raise, dc_log.
  exec; congruence.
Qed.

(** [setup_logging] entered with [dc.logger = None]: the confirmation of
    file logging is reached exactly when the file handler was added, and it
    raises; the logger is assigned only on the way to a normal return. *)
Lemma setup_logging_without_logger (s : State MM) :
  dc_logger s = None ->
  exists d,
    trace (snd (setup_logging env s)) = trace s ++ d
    /\ (forall p l f,
           In (EvAddHandler (mkHandler (File p) l f)) d ->
           fst (setup_logging env s) = Raise (none_has_no "info"))
    /\ (forall e, fst (setup_logging env s) = Raise e ->
                  dc_logger (snd (setup_logging env s)) = None)
    /\ (fst (setup_logging env s) = Ret tt ->
        dc_logger (snd (setup_logging env s)) = Some RootLogger).
Proof.
  intros Hlog.
  unfold setup_logging, install_console_handler, install_file_handler,
  set_overall_level, warn_deprecated, doorlockd_option, new_file_handler, add_handler,
    root_log, dc_log, bind, lift, gets, modify, check, ret, raise, py_get,
    py_upper, list_min.
  exec_with Hlog;
    added_events;
    (split; [intros ? ? ? Hin; simpl in Hin; intuition congruence|]);
    split; intros; congruence.
Qed.

(** C9. [dc.logger] is [None] from [setup_data_container] until the
    assignment at the end of [setup_logging]: the constructor sets it to
    [None]; [load_configuration] does not assign it, and after a successful
    parse its success message dereferences [None] and raises
    [AttributeError]; in [setup_logging] the confirmation of file logging,
    reached once the file handler has been added, raises [AttributeError]
    too, and the logger is only bound when [setup_logging] returns. *)
Theorem C9_logger_is_None_until_setup_logging_assigns (s0 s : State MM) :
  dc_logger s = None ->
  dc_logger (snd (setup_data_container env s0)) = None
  /\ dc_logger (snd (load_configuration env s)) = None
  /\ (forall cfg, toml_load env = Ret cfg ->
                  fst (load_configuration env s) = Raise (none_has_no "info")
                  /\ is_AttributeError (none_has_no "info") = true)
  /\ exists d,
      trace (snd (setup_logging env s)) = trace s ++ d
      /\ (forall p l f,
             In (EvAddHandler (mkHandler (File p) l f)) d ->
             fst (setup_logging env s) = Raise (none_has_no "info"))
      /\ (forall e, fst (setup_logging env s) = Raise e ->
                    dc_logger (snd (setup_logging env s)) = None)
      /\ (fst (setup_logging env s) = Ret tt ->
          dc_logger (snd (setup_logging env s)) = Some RootLogger).
Proof.
  intros Hlog. split; [apply setup_data_container_logger|].
  split; [rewrite load_configuration_keeps_logger; exact Hlog|].
  split; [|apply setup_logging_without_logger; exact Hlog].
  intros cfg Hcfg.
  destruct (load_configuration_without_logger env s Hlog) as (e & Hload & He).
  rewrite Hcfg in He. subst e. rewrite Hload. split; reflexivity.
Qed.
End LoggerIsNone.

(** * Runs of the process as [main] starts it *)

Section ProcessRuns.
Context {MM : Type} {manager : ModuleManager.Interface MM} (env : Env).

(** C2. When [config.ini] is missing or cannot be parsed, the process ends
    with exit status 1; neither the event bus nor the module manager has
    been constructed; and between the call of [toml.load] and the end of the
    process nothing happens but the entry into [shutdown], which stops at its
    first statement: no phase is applied and no line is logged, so neither
    Disable, nor Teardown, nor the final reason appears. *)
Theorem C2_missing_or_invalid_configuration_exits_with_1
  (s0 s : State MM) (e : exn) :
  init env s0 = (Ret tt, s) ->
  toml_load env = Raise e ->
  is_FileNotFoundError e || is_TomlDecodeError e = true ->
  main env s0 = run env s
  /\ (exists msg, fst (load_configuration env s) = Raise (SystemExit (ExitStr msg)))
  /\ exit_status (fst (run env s)) = 1
  /\ dc_module (snd (run env s)) = None
  /\ dc_e (snd (run env s)) = None
  /\ trace (snd (run env s)) = trace s ++ [EvTomlLoad; EvShutdown]
  /\ forallb (fun ev => negb (is_phase_call ev) && negb (is_log ev))
             [EvTomlLoad; EvShutdown] = true.
Proof.
  intros Hinit Htoml Hclass.
  destruct (init_post env s0 s _ Hinit)
    as [(Hlog & Hmod & He & _)|(e' & Habs & _)]; [|discriminate Habs].
  split; [apply main_after_init; exact Hinit|].
  split.
  { destruct (load_configuration_without_logger env s Hlog) as (e1 & Hload & He1).
    rewrite Htoml, Hclass in He1. destruct He1 as (msg & ->).
    exists msg. rewrite Hload. reflexivity. }
  rewrite (run_without_logger env s Hlog).
  unfold after_load. rewrite Htoml. simpl.
  rewrite <- app_assoc. repeat split; assumption.
Qed.

(** C3, on the code: for every configuration that parses, the run started
    by [main] stops inside [load_configuration].  No handler is installed,
    no collaborator is constructed, no hook is installed; the run ends in
    [AttributeError] after the entry into [shutdown]. *)
Theorem C3_valid_configuration_never_starts_logging
  (s0 s : State MM) (cfg : dict) :
  init env s0 = (Ret tt, s) ->
  toml_load env = Ret cfg ->
  main env s0 = run env s
  /\ fst (run env s) = Raise (none_has_no "info")
  /\ root_handlers (snd (run env s)) = root_handlers s0
  /\ dc_logger (snd (run env s)) = None
  /\ dc_e (snd (run env s)) = None
  /\ dc_module (snd (run env s)) = None
  /\ excepthook (snd (run env s)) = excepthook s0
  /\ signal_handlers (snd (run env s)) = signal_handlers s0
  /\ trace (snd (run env s)) = trace s ++ [EvTomlLoad; EvShutdown].
Proof.
  intros Hinit Htoml.
  destruct (init_post env s0 s _ Hinit)
    as [(Hlog & Hmod & He & _ & Hh & Hx & Hsig)|(e' & Habs & _)];
    [|discriminate Habs].
  split; [apply main_after_init; exact Hinit|].
  rewrite (run_without_logger env s Hlog).
  unfold after_load. rewrite Htoml. simpl.
  rewrite <- app_assoc. repeat split; assumption.
Qed.

(** C5, on the code: with [doorlockd.enable_modules = false] the run
    started by [main] never reaches the check of the flag: no warning is
    logged and the process ends with exit status 1. *)
Theorem C5_disabled_modules_never_reach_the_check
  (s0 s : State MM) (cfg section : dict) :
  init env s0 = (Ret tt, s) ->
  toml_load env = Ret cfg ->
  dict_get cfg "doorlockd" = Some (VTable section) ->
  dict_get section "enable_modules" = Some (VBool false) ->
  exit_status (fst (main env s0)) = 1
  /\ (exists e, fst (main env s0) = Raise e)
  /\ trace (snd (main env s0)) = trace s ++ [EvTomlLoad; EvShutdown]
  /\ forallb (fun ev => negb (is_log_at WARNING ev))
             [EvTomlLoad; EvShutdown] = true.
Proof.
  intros Hinit Htoml _ _.
  destruct (init_post env s0 s _ Hinit)
    as [(Hlog & _)|(e' & Habs & _)]; [|discriminate Habs].
  rewrite (main_after_init env s0 s Hinit), (run_without_logger env s Hlog).
  unfold after_load. rewrite Htoml. simpl.
  rewrite <- app_assoc. repeat split. eexists; reflexivity.
Qed.
(** Whatever [config.ini] holds and whatever the collaborators answer, the
    run that [main] starts after constructing the client ends in the
    [AttributeError] of [None.info], raised by the first statement of
    [shutdown]; between the call of [toml.load] and the entry into
    [shutdown] nothing is recorded, and the exit status is 1. *)
Theorem every_run_of_main_ends_in_AttributeError (s0 s : State MM) :
  init env s0 = (Ret tt, s) ->
  fst (main env s0) = Raise (none_has_no "info")
  /\ is_AttributeError (none_has_no "info") = true
  /\ exit_status (fst (main env s0)) = 1
  /\ trace (snd (main env s0)) = trace s ++ [EvTomlLoad; EvShutdown].
Proof.
  intros Hinit.
  destruct (init_post env s0 s _ Hinit)
    as [(Hlog & _)|(e' & Habs & _)]; [|discriminate Habs].
  rewrite (main_after_init env s0 s Hinit), (run_without_logger env s Hlog).
  unfold after_load. destruct (toml_load env); simpl;
    rewrite <- app_assoc; repeat split.
Qed.
End ProcessRuns.

(** * How often the shutdown sequence runs *)

Lemma phase_applications_app phase d1 d2 :
  phase_applications phase (d1 ++ d2)
  = (phase_applications phase d1 + phase_applications phase d2)%nat.
Proof.
  unfold phase_applications. rewrite filter_app, length_app. reflexivity.
Qed.

Lemma phase_applications_none phase d :
  forallb (fun ev => negb (applies phase ev)) d = true ->
  phase_applications phase d = 0%nat.
Proof.
  unfold phase_applications.
  induction d as [|ev d IH]; simpl; [reflexivity|].
  destruct (applies phase ev); simpl; [discriminate|exact IH].
Qed.

Lemma before_shutdown_no_entry ev :
  before_shutdown ev = true -> not_shutdown_entry ev = true.
Proof. destruct ev; intros H; first [reflexivity | discriminate H]. Qed.

Lemma before_shutdown_no_disable ev :
  before_shutdown ev = true -> negb (applies "disable" ev) = true.
Proof.
  destruct ev; try reflexivity. unfold before_shutdown. simpl.
  rewrite orb_false_r.
  destruct (String.eqb_spec phase "setup") as [->|_]; [reflexivity|].
  destruct (String.eqb_spec phase "enable") as [->|_]; [reflexivity|discriminate].
Qed.

Lemma before_shutdown_no_teardown ev :
  before_shutdown ev = true -> negb (applies "teardown" ev) = true.
Proof.
  destruct ev; try reflexivity. unfold before_shutdown. simpl.
  rewrite orb_false_r.
  destruct (String.eqb_spec phase "setup") as [->|_]; [reflexivity|].
  destruct (String.eqb_spec phase "enable") as [->|_]; [reflexivity|discriminate].
Qed.

Section RunCounts.
Context {MM : Type} {manager : ModuleManager.Interface MM} (env : Env).

Lemma try_part_emits_before_shutdown :
  emits before_shutdown (try_except (startup env ;; operate) (fatal (MM := MM))).
Proof.
  apply emits_try_except.
  - apply emits_bind; [|intros _].
    + eapply emits_weaken; [|apply startup_emits].
      intros ev H. unfold before_shutdown. rewrite H. reflexivity.
    + eapply emits_weaken; [|apply operate_emits].
      intros ev H. unfold before_shutdown. rewrite H, orb_true_r. reflexivity.
  - intros e handler H.
    eapply emits_weaken; [|eapply fatal_emits; eassumption].
    intros ev Hev. unfold before_shutdown. rewrite Hev, orb_true_r. reflexivity.
Qed.

(** One call of [shutdown] applies each of its two phases at most once, and
    [teardown] only after [disable]. *)
Lemma shutdown_applies_each_phase_at_most_once (s : State MM) :
  exists d,
    trace (snd (shutdown s)) = trace s ++ d
    /\ shutdown_entries d = 1%nat
    /\ (phase_applications "disable" d <= 1)%nat
    /\ (phase_applications "teardown" d <= phase_applications "disable" d)%nat.
Proof.
  unfold shutdown, call_do_all, module_attr, dc_log, bind, modify, check, ret, raise.
  exec; rewrite <- ?app_assoc; simpl; eexists; (split; [reflexivity|]);
    repeat split; vm_compute; lia.
Qed.

Lemma run_applies_each_phase_at_most_once (s : State MM) :
  exists d,
    trace (snd (run env s)) = trace s ++ d
    /\ shutdown_entries d = 1%nat
    /\ (phase_applications "disable" d <= 1)%nat
    /\ (phase_applications "teardown" d <= phase_applications "disable" d)%nat.
Proof.
  unfold run, try_finally.
  destruct (try_part_emits_before_shutdown s) as (d1 & Hd1 & Hall1).
  destruct (try_except (startup env ;; operate) fatal s) as [r s1].
  simpl in Hd1.
  destruct (shutdown_applies_each_phase_at_most_once s1) as (d2 & Hd2 & Hone & Hdis & Htear).
  exists (d1 ++ d2). split.
  - destruct (shutdown s1) as [[u|e] s2]; simpl in *;
      rewrite Hd2, Hd1, <- app_assoc; reflexivity.
  - rewrite shutdown_entries_app, !phase_applications_app.
    rewrite (shutdown_entries_none d1), (phase_applications_none "disable" d1),
      (phase_applications_none "teardown" d1).
    + simpl. repeat split; assumption.
    + eapply forallb_weaken; [|exact Hall1]. apply before_shutdown_no_teardown.
    + eapply forallb_weaken; [|exact Hall1]. apply before_shutdown_no_disable.
    + eapply forallb_weaken; [|exact Hall1]. apply before_shutdown_no_entry.
Qed.

(** C1, on the code. From every state [run] calls [shutdown] exactly once,
    and applies [disable] and [teardown] at most once each, [teardown] only
    after [disable]: never more than once.  But in every run that [main]
    starts the one call stops at its first statement, [dc.logger.info] on
    [None]: neither phase is applied and nothing is logged, so the shutdown
    sequence itself executes zero times. *)
Theorem C1_shutdown_is_called_once_and_does_nothing_from_main (s0 s : State MM) :
  init env s0 = (Ret tt, s) ->
  (forall s' : State MM, exists d',
      trace (snd (run env s')) = trace s' ++ d'
      /\ shutdown_entries d' = 1%nat
      /\ (phase_applications "disable" d' <= 1)%nat
      /\ (phase_applications "teardown" d' <= phase_applications "disable" d')%nat)
  /\ main env s0 = run env s
  /\ fst (run env s) = Raise (none_has_no "info")
  /\ exists d,
      trace (snd (run env s)) = trace s ++ d
      /\ shutdown_entries d = 1%nat
      /\ phase_applications "disable" d = 0%nat
      /\ phase_applications "teardown" d = 0%nat
      /\ forallb (fun ev => negb (is_log ev)) d = true.
Proof.
  intros Hinit.
  split; [exact run_applies_each_phase_at_most_once|].
  split; [exact (main_after_init env s0 s Hinit)|].
  destruct (init_post env s0 s _ Hinit)
    as [(Hlog & _)|(e' & Habs & _)]; [|discriminate Habs].
  rewrite (run_without_logger env s Hlog). split; [reflexivity|].
  exists [EvTomlLoad; EvShutdown]. split; [|repeat split].
  unfold after_load. destruct (toml_load env); simpl; rewrite <- app_assoc; reflexivity.
Qed.
End RunCounts.

(** * The shutdown sequence *)

Section Shutdown.
Context {MM : Type} {manager : ModuleManager.Interface MM}.

Lemma app_inv_trace (t d1 d2 : list Event) : t ++ d1 = t ++ d2 -> d1 = d2.
Proof. apply app_inv_head. Qed.

(** Settles one branch of the final report. *)
Ltac reason_case :=
  intros;
  repeat match goal with
         | H : true = false |- _ => discriminate H
         | H : false = true |- _ => discriminate H
         | Hs : ?f = Some ?a, Ht : str_truthy ?f = false, Hne : ?a <> _ |- _ =>
             exfalso; rewrite Hs in Ht; unfold str_truthy in Ht;
             apply negb_false_iff in Ht; apply String.eqb_eq in Ht; exact (Hne Ht)
         | Hs : ?f = Some ?a |- context [str_or_none ?f] => rewrite Hs
         end;
  try reflexivity.

(** [shutdown] with a logger, a manager, and phase applications that
    return. *)
Lemma shutdown_completes (s : State MM) m m1 m2 :
  dc_logger s = Some RootLogger ->
  dc_module s = Some m ->
  ModuleManager.do_all "disable" m = (m1, None) ->
  ModuleManager.do_all "teardown" m1 = (m2, None) ->
  exists final,
    fst (shutdown s) = Ret tt
    /\ trace (snd (shutdown s))
       = trace s ++ [EvShutdown; EvLog INFO "Initiating shutdown sequence...";
                     EvDoAll "disable" None; EvDoAll "teardown" None; final]
    /\ (forall a, ModuleManager.abort_msg m2 = Some a -> a <> ""%string ->
                  final = EvLog WARNING ("Shutdown due to abort: " ++ a)%string)
    /\ (forall x, str_truthy (ModuleManager.abort_msg m2) = false ->
                  ModuleManager.exit_msg m2 = Some x -> x <> ""%string ->
                  final = EvLog INFO ("Shutdown requested: " ++ x)%string)
    /\ (str_truthy (ModuleManager.abort_msg m2) = false ->
        str_truthy (ModuleManager.exit_msg m2) = false ->
        final = EvLog INFO "Normal shutdown completed").
Proof.
  intros Hlog Hmod Hdis Htear.
  unfold shutdown, call_do_all, module_attr, dc_log, bind, modify, check, ret, raise.
  repeat (simpl; rewrite ?Hlog, ?Hmod, ?Hdis, ?Htear).
  destruct (str_truthy (ModuleManager.abort_msg m2)) eqn:Ha;
    repeat (simpl; rewrite ?Hlog);
    [|destruct (str_truthy (ModuleManager.exit_msg m2)) eqn:Hx;
      repeat (simpl; rewrite ?Hlog)];
    rewrite <- ?app_assoc; simpl;
    (eexists; split; [reflexivity|]; split; [reflexivity|]);
    (split; [|split]); reason_case.
Qed.

End Shutdown.

(** * The call of [shutdown] that [main] makes *)

Section ShutdownFromMain.
Context {MM : Type} {manager : ModuleManager.Interface MM} (env : Env).

(** What [main] does once the configuration has been read is the call of
    [shutdown] in the [finally] clause, made without a logger. *)
Lemma main_ends_in_shutdown (s0 s1 : State MM) :
  init env s0 = (Ret tt, s1) ->
  dc_logger (after_load env s1) = None
  /\ main env s0 = shutdown (after_load env s1).
Proof.
  intros Hinit.
  destruct (init_post env s0 s1 _ Hinit)
    as [(Hlog & _)|(e' & Habs & _)]; [|discriminate Habs].
  assert (Hafter : dc_logger (after_load env s1) = None).
  { unfold after_load. destruct (toml_load env); exact Hlog. }
  split; [exact Hafter|].
  rewrite (main_after_init env s0 s1 Hinit), (run_without_logger env s1 Hlog).
  symmetry. apply shutdown_without_logger. exact Hafter.
Qed.

(** C6, on the code. [shutdown] has the claimed shape only when nothing in
    it raises: with a logger, a manager and two phase applications that
    return, its events are the entry, the announcement, [disable],
    [teardown] and one final line with the claimed severity, and no line
    other than the announcement is ever logged before both phases.  It has
    no [try]: without a logger it raises at its first statement and applies
    no phase, and this is the case of every call that [main] makes; without
    a manager it raises after the announcement; a [disable] that raises
    leaves [teardown] unapplied and the reason unreported, and so does a
    [teardown] that raises for the reason. *)
Theorem C6_shutdown_called_by_main_applies_no_phase (s : State MM) (d : list Event) :
  trace (snd (shutdown s)) = trace s ++ d ->
  (dc_logger s = None ->
   fst (shutdown s) = Raise (none_has_no "info") /\ d = [EvShutdown])
  /\ (forall s0 s1, init env s0 = (Ret tt, s1) ->
        dc_logger (after_load env s1) = None
        /\ main env s0 = shutdown (after_load env s1))
  /\ (dc_logger s = Some RootLogger -> dc_module s = None ->
      fst (shutdown s) = Raise (none_has_no "do_all")
      /\ d = [EvShutdown; EvLog INFO "Initiating shutdown sequence..."])
  /\ (forall m m1 e,
        dc_logger s = Some RootLogger ->
        dc_module s = Some m ->
        ModuleManager.do_all "disable" m = (m1, Some e) ->
        fst (shutdown s) = Raise e
        /\ d = [EvShutdown; EvLog INFO "Initiating shutdown sequence...";
                EvDoAll "disable" (Some e)])
  /\ (forall m m1 m2 e,
        dc_logger s = Some RootLogger ->
        dc_module s = Some m ->
        ModuleManager.do_all "disable" m = (m1, None) ->
        ModuleManager.do_all "teardown" m1 = (m2, Some e) ->
        fst (shutdown s) = Raise e
        /\ d = [EvShutdown; EvLog INFO "Initiating shutdown sequence...";
                EvDoAll "disable" None; EvDoAll "teardown" (Some e)])
  /\ (forall m m1 m2,
        dc_logger s = Some RootLogger ->
        dc_module s = Some m ->
        ModuleManager.do_all "disable" m = (m1, None) ->
        ModuleManager.do_all "teardown" m1 = (m2, None) ->
        exists final,
          fst (shutdown s) = Ret tt
          /\ d = [EvShutdown; EvLog INFO "Initiating shutdown sequence...";
                  EvDoAll "disable" None; EvDoAll "teardown" None; final]
          /\ (forall a, ModuleManager.abort_msg m2 = Some a -> a <> ""%string ->
                        final = EvLog WARNING ("Shutdown due to abort: " ++ a)%string)
          /\ (forall x, str_truthy (ModuleManager.abort_msg m2) = false ->
                        ModuleManager.exit_msg m2 = Some x -> x <> ""%string ->
                        final = EvLog INFO ("Shutdown requested: " ++ x)%string)
          /\ (str_truthy (ModuleManager.abort_msg m2) = false ->
              str_truthy (ModuleManager.exit_msg m2) = false ->
              final = EvLog INFO "Normal shutdown completed"))
  /\ (forall lvl msg,
        In (EvLog lvl msg) d ->
        msg <> "Initiating shutdown sequence..."%string ->
        d = [EvShutdown; EvLog INFO "Initiating shutdown sequence...";
             EvDoAll "disable" None; EvDoAll "teardown" None; EvLog lvl msg]
        /\ (lvl = WARNING \/ lvl = INFO)).
Proof.
  intros Hd.
  split; [|split; [exact main_ends_in_shutdown|]].
  { intros Hlog. rewrite (shutdown_without_logger s Hlog) in Hd |- *.
    simpl in Hd. apply app_inv_trace in Hd. subst d. split; reflexivity. }
  split; [|split; [|split; [|split]]].
  - intros Hlog Hmod. revert Hd.
    unfold shutdown, call_do_all, dc_log, bind, modify, raise.
    simpl. rewrite Hlog. simpl. rewrite Hmod. simpl.
    rewrite <- app_assoc. intros Hd. apply app_inv_trace in Hd. subst d.
    split; reflexivity.
  - intros m m1 e Hlog Hmod Hdis. revert Hd.
    unfold shutdown, call_do_all, dc_log, bind, modify, check, raise.
    simpl. rewrite Hlog. simpl. rewrite Hmod, Hdis. simpl.
    rewrite <- !app_assoc. intros Hd. apply app_inv_trace in Hd. subst d.
    split; reflexivity.
  - intros m m1 m2 e Hlog Hmod Hdis Htear. revert Hd.
    unfold shutdown, call_do_all, dc_log, bind, modify, check, ret, raise.
    simpl. rewrite Hlog. simpl. rewrite Hmod, Hdis. simpl. rewrite Htear. simpl.
    rewrite <- !app_assoc. intros Hd. apply app_inv_trace in Hd. subst d.
    split; reflexivity.
  - intros m m1 m2 Hlog Hmod Hdis Htear.
    destruct (shutdown_completes s m m1 m2 Hlog Hmod Hdis Htear)
      as (final & Hret & Htrace & Hreport).
    rewrite Htrace in Hd. apply app_inv_trace in Hd. subst d.
    exists final. split; [exact Hret|]. split; [reflexivity|exact Hreport].
  - revert Hd.
    unfold shutdown, call_do_all, module_attr, dc_log, bind, modify, check, ret, raise.
    exec; rewrite <- ?app_assoc; simpl; intros Hd;
      first [ apply app_inv_trace in Hd
            | rewrite <- (app_nil_r (trace s)) in Hd at 1; apply app_inv_trace in Hd ];
      subst d; intros lvl msg Hin Hmsg; simpl in Hin;
      repeat match goal with
             | H : _ \/ _ |- _ => destruct H
             | H : False |- _ => destruct H
             | H : EvLog _ _ = EvLog _ _ |- _ => injection H as <- <-
             | H : _ = EvLog _ _ |- _ => discriminate H
             end;
      try (exfalso; apply Hmsg; reflexivity);
      (split; [reflexivity | auto]).
Qed.
End ShutdownFromMain.

(** * The run after the initialization sequence *)

Ltac split_events :=
  rewrite <- ?app_assoc; simpl; intros Hd;
  first [ apply app_inv_trace in Hd
        | rewrite <- (app_nil_r (trace _)) in Hd at 1; apply app_inv_trace in Hd ];
  subst.

Ltac in_cases H :=
  simpl in H;
  repeat match type of H with
         | _ \/ _ => destruct H as [H|H]
         end;
  try contradiction; try discriminate H.

Section AfterStartup.
Context {MM : Type} {manager : ModuleManager.Interface MM}.

Lemma doorlockd_option_pure key default (s : State MM) :
  exists r, doorlockd_option key default s = (r, s).
Proof.
  unfold doorlockd_option, bind, gets, lift, py_get. exec; eexists; reflexivity.
Qed.

Lemma initialize_modules_spec (s : State MM) d :
  dc_logger s = Some RootLogger ->
  trace (snd (initialize_modules s)) = trace s ++ d ->
  dc_logger (snd (initialize_modules s)) = Some RootLogger
  /\ forallb quiet_event d = true
  /\ (fst (initialize_modules s) = Ret true ->
      d = [EvLoadAll None; EvDoAll "setup" None; EvDoAll "enable" None;
           EvLog INFO "All modules initialized successfully"])
  /\ (forall e, initialization_raised e d ->
        (is_Exception e = true ->
           fst (initialize_modules s) = Ret false
           /\ (exists pre, d = pre ++ [EvLog ERROR ("Failed to initialize modules: " ++ exn_str e)%string])
           /\ exists m, dc_module (snd (initialize_modules s)) = Some m)
        /\ (is_Exception e = false -> fst (initialize_modules s) = Raise e)).
Proof.
  intros Hlog.
  unfold initialize_modules, call_load_all, call_do_all, dc_log, try_except,
    bind, gets, modify, check, ret, raise.
  exec_with Hlog.
  all: split_events.
  all: split; [reflexivity|]; split; [reflexivity|]; split; [intros; congruence|].
  all: intros e0 [Hin|[Hin|Hin]]; in_cases Hin.
  all: try (injection Hin as <-).
  all: split; intros Hexc; try congruence.
  all: split; [reflexivity|]; split; [|eexists; reflexivity].
  all: first [ eexists [_]; reflexivity | eexists [_; _]; reflexivity
             | eexists [_; _; _]; reflexivity ].
Qed.

Lemma main_loop_spec (s : State MM) d :
  dc_logger s = Some RootLogger ->
  trace (snd (main_loop s)) = trace s ++ d ->
  dc_logger (snd (main_loop s)) = Some RootLogger
  /\ forallb (fun ev => negb (is_log_at CRITICAL ev) && negb (is_shutdown_entry ev)) d = true
  /\ (forall e, ~ initialization_raised e d)
  /\ (forall e, fst (main_loop s) = Raise e ->
                is_Exception e = false /\ is_KeyboardInterrupt e = false
                /\ In (EvMainLoop (Some e)) d)
  /\ (forall e, In (EvMainLoop (Some e)) d ->
        (is_KeyboardInterrupt e = true ->
           fst (main_loop s) = Ret tt
           /\ In (EvLog INFO "Main loop interrupted by user") d)
        /\ (is_Exception e = true ->
            fst (main_loop s) = Ret tt
            /\ In (EvLog ERROR ("Main loop error: " ++ exn_str e)%string) d)
        /\ (is_KeyboardInterrupt e = false -> is_Exception e = false ->
            fst (main_loop s) = Raise e)).
Proof.
  intros Hlog.
  unfold main_loop, call_main_loop, dc_log, try_except, bind, gets, modify,
    check, ret, raise.
  exec_with Hlog.
  all: split_events.
  all: split; [reflexivity|]; split; [reflexivity|].
  all: split; [intros e0 [Hin|[Hin|Hin]]; in_cases Hin|].
  all: split; [intros e0 He0; try discriminate He0; try (injection He0 as <-);
               repeat split; simpl; auto|].
  all: intros e0 Hin; in_cases Hin; try (injection Hin as <-).
  all: repeat split; intros; simpl; try congruence; auto.
  all: exfalso;
    match goal with
    | H1 : is_KeyboardInterrupt ?x = true, H2 : is_Exception ?x = true |- _ =>
        destruct x as [[] ?|?]; discriminate
    end.
Qed.

Lemma shutdown_with_logger (s : State MM) d :
  dc_logger s = Some RootLogger ->
  trace (snd (shutdown s)) = trace s ++ d ->
  exists d',
    d = EvShutdown :: EvLog INFO "Initiating shutdown sequence..." :: d'
    /\ forallb shutdown_event d' = true
    /\ (forall m, dc_module s = Some m ->
          exists r d2,
            d' = EvDoAll "disable" r :: d2
            /\ (r = None ->
                exists r', hd_error d2 = Some (EvDoAll "teardown" r')
                           /\ (r' = None -> fst (shutdown s) = Ret tt))).
Proof.
  intros Hlog.
  unfold shutdown, call_do_all, module_attr, dc_log, bind, modify, check, ret, raise.
  exec_with Hlog.
  all: split_events.
  all: eexists; split; [reflexivity|]; split; [reflexivity|].
  all: intros m' Hm'; try discriminate Hm'.
  all: eexists; eexists; split; [reflexivity|]; intros Hr; try discriminate Hr.
  all: eexists; split; [reflexivity|]; intros Hr'; try discriminate Hr'; reflexivity.
Qed.

Lemma emits_appends {A} ok (m : M MM A) :
  emits ok m -> forall s, exists d, trace (snd (m s)) = trace s ++ d.
Proof. intros H s. destruct (H s) as (d & Hd & _). exists d. exact Hd. Qed.

Lemma initialize_modules_appends (s : State MM) :
  exists d, trace (snd (initialize_modules s)) = trace s ++ d.
Proof.
  apply (emits_appends operate_event).
  unfold initialize_modules. emits_auto.
Qed.

Lemma main_loop_appends (s : State MM) :
  exists d, trace (snd (main_loop s)) = trace s ++ d.
Proof.
  apply (emits_appends operate_event).
  unfold main_loop. emits_auto.
Qed.

Lemma operate_appends (s : State MM) :
  exists d, trace (snd (operate s)) = trace s ++ d.
Proof. apply (emits_appends operate_event). apply operate_emits. Qed.

Lemma shutdown_appends (s : State MM) :
  exists d, trace (snd (shutdown s)) = trace s ++ d.
Proof.
  destruct (shutdown_trace s) as (d & Hd & _).
  exists (EvShutdown :: d). exact Hd.
Qed.

(** [operate], entered with a logger. *)
Lemma operate_spec (s : State MM) d :
  dc_logger s = Some RootLogger ->
  trace (snd (operate s)) = trace s ++ d ->
  dc_logger (snd (operate s)) = Some RootLogger
  /\ forallb (fun ev => negb (is_log_at CRITICAL ev) && negb (is_shutdown_entry ev)) d = true
  /\ (forall e, initialization_raised e d -> is_Exception e = true ->
        fst (operate s) = Ret tt
        /\ (exists pre, d = pre ++ [EvLog ERROR ("Failed to initialize modules: " ++ exn_str e)%string])
        /\ forallb (fun ev => negb (is_main_loop_call ev)) d = true
        /\ exists m, dc_module (snd (operate s)) = Some m)
  /\ (forall e, In (EvMainLoop (Some e)) d ->
        (fst (operate s) = Ret tt
         \/ (fst (operate s) = Raise e /\ is_Exception e = false))
        /\ (is_KeyboardInterrupt e = true ->
            In (EvLog INFO "Main loop interrupted by user") d)
        /\ (is_Exception e = true ->
            In (EvLog ERROR ("Main loop error: " ++ exn_str e)%string) d)).
Proof.
  intros Hlog.
  destruct (doorlockd_option_pure "enable_modules" (VBool true) s) as [r0 Hr0].
  assert (Hop : operate s =
                match r0 with
                | Ret v =>
                    (if negb (truthy v)
                     then dc_log WARNING "Modules are disabled in configuration"
                     else bind initialize_modules
                               (fun ok : bool => if ok then main_loop else ret tt)) s
                | Raise e0 => (Raise e0, s)
                end).
  { unfold operate. unfold bind at 1. rewrite Hr0. destruct r0; reflexivity. }
  rewrite Hop. clear Hop Hr0.
  destruct r0 as [v|e0]; [destruct (negb (truthy v))|].
  - (* modules disabled *)
    rewrite (dc_log_with_logger _ _ s Hlog). simpl.
    intros Hd. apply app_inv_trace in Hd. subst d.
    split; [exact Hlog|]. split; [reflexivity|].
    split; [intros e [Hin|[Hin|Hin]]; in_cases Hin|].
    intros e Hin. in_cases Hin.
  - (* modules enabled *)
    unfold bind.
    destruct (initialize_modules_appends s) as (di & Hdi).
    pose proof (initialize_modules_spec s di Hlog Hdi) as (Hlog2 & Hquiet & Hok & Hraised).
    destruct (initialize_modules s) as [ri s2]. simpl in *.
    destruct ri as [[|]|e1].
    + (* initialized: the operational loop *)
      specialize (Hok eq_refl). subst di.
      destruct (main_loop_appends s2) as (dl & Hdl).
      pose proof (main_loop_spec s2 dl Hlog2 Hdl) as (Hlog3 & Hall & Hnone & Hraise & Hloop).
      destruct (main_loop s2) as [rl s3]. simpl in *.
      rewrite Hdl, Hdi, <- app_assoc. intros Hd. apply app_inv_trace in Hd. subst d.
      split; [exact Hlog3|]. split; [simpl; exact Hall|].
      split.
      * intros e Hin _. exfalso.
        destruct Hin as [Hin|[Hin|Hin]]; simpl in Hin;
          repeat match type of Hin with
                 | _ \/ _ => destruct Hin as [Hin|Hin]
                 end;
          try discriminate Hin;
          eapply Hnone; unfold initialization_raised; eauto.
      * intros e Hin. simpl in Hin.
        repeat match type of Hin with
               | _ \/ _ => destruct Hin as [Hin|Hin]
               end;
          try discriminate Hin.
        destruct (Hloop e Hin) as (Hki & Hexc & Hother).
        split.
        { destruct (is_KeyboardInterrupt e) eqn:Eki;
            [left; apply Hki; reflexivity|].
          destruct (is_Exception e) eqn:Eexc;
            [left; apply Hexc; reflexivity|].
          right. split; [apply Hother; reflexivity|reflexivity]. }
        split; intros Hc; simpl; do 4 right;
          [apply Hki; exact Hc|apply Hexc; exact Hc].
    + (* a forward call failed: no operational loop *)
      simpl. intros Hd. rewrite Hdi in Hd. apply app_inv_trace in Hd. subst d.
      split; [exact Hlog2|].
      split; [eapply forallb_weaken; [|exact Hquiet];
              intros ev; unfold quiet_event; destruct ev; simpl; try discriminate; try reflexivity;
              intros H; rewrite andb_true_r in H; rewrite H; reflexivity|].
      split.
      * intros e Hin Hexc. destruct (Hraised e Hin) as (Hcaught & _).
        destruct (Hcaught Hexc) as (_ & Hpre & Hmod).
        split; [reflexivity|]. split; [exact Hpre|]. split; [|exact Hmod].
        eapply forallb_weaken; [|exact Hquiet].
        intros ev; unfold quiet_event; destruct ev; simpl; try discriminate; reflexivity.
      * intros e Hin. exfalso.
        revert Hin. apply (forallb_not_In quiet_event); [exact Hquiet|reflexivity].
    + (* a forward call raised past [except Exception] *)
      simpl. intros Hd. rewrite Hdi in Hd. apply app_inv_trace in Hd. subst d.
      split; [exact Hlog2|].
      split; [eapply forallb_weaken; [|exact Hquiet];
              intros ev; unfold quiet_event; destruct ev; simpl; try discriminate; try reflexivity;
              intros H; rewrite andb_true_r in H; rewrite H; reflexivity|].
      split.
      * intros e Hin Hexc. destruct (Hraised e Hin) as (Hcaught & _).
        destruct (Hcaught Hexc) as (Habs & _). discriminate Habs.
      * intros e Hin. exfalso.
        revert Hin. apply (forallb_not_In quiet_event); [exact Hquiet|reflexivity].
  - (* the flag could not be read *)
    simpl. intros Hd.
    rewrite <- (app_nil_r (trace s)) in Hd at 1. apply app_inv_trace in Hd. subst d.
    split; [exact Hlog|]. split; [reflexivity|].
    split; [intros e [Hin|[Hin|Hin]]; in_cases Hin|].
    intros e Hin. in_cases Hin.
Qed.

(** How the events of [run_modules] are made up: those of [operate], the
    critical line when the [except] clause of [run] runs, and [shutdown]. *)
Lemma run_modules_trace (s : State MM) dr :
  dc_logger s = Some RootLogger ->
  trace (snd (run_modules s)) = trace s ++ dr ->
  exists dop dsh,
    trace (snd (operate s)) = trace s ++ dop
    /\ forallb shutdown_event dsh = true
    /\ (((forall e, fst (operate s) = Raise e -> is_Exception e = false)
         /\ dr = dop ++ EvShutdown
                    :: EvLog INFO "Initiating shutdown sequence..." :: dsh
         /\ (forall m, dc_module (snd (operate s)) = Some m ->
               exists r d2,
                 dsh = EvDoAll "disable" r :: d2
                 /\ (r = None ->
                     exists r', hd_error d2 = Some (EvDoAll "teardown" r')
                                /\ (r' = None ->
                                    fst (run_modules s) = fst (operate s)))))
        \/ (exists e,
              fst (operate s) = Raise e /\ is_Exception e = true
              /\ dr = dop ++ EvLog CRITICAL ("Fatal error during startup: " ++ exn_str e)%string
                         :: EvShutdown
                         :: EvLog INFO "Initiating shutdown sequence..." :: dsh)).
Proof.
  intros Hlog.
  destruct (operate_appends s) as (dop & Hdop).
  pose proof (operate_spec s dop Hlog Hdop) as (Hlog2 & _).
  unfold run_modules, try_finally, try_except.
  destruct (operate s) as [rop s2]. simpl in Hdop, Hlog2.
  assert (Hsh : forall (r : Res unit) s3,
             dc_logger s3 = Some RootLogger ->
             forall dsh0, trace (snd (shutdown s3)) = trace s3 ++ dsh0 ->
             trace (snd (let (r0, s4) := shutdown s3 in
                         match r0 with
                         | Ret _ => (r, s4)
                         | Raise e => (Raise e, s4)
                         end)) = trace s3 ++ dsh0).
  { intros r s3 _ dsh0 H. destruct (shutdown s3) as [[u|e] s4]; exact H. }
  destruct rop as [u|e].
  - (* no exception: straight to [shutdown] *)
    cbv beta iota. cbn [fst snd].
    destruct (shutdown_appends s2) as (dsh0 & Hdsh0).
    destruct (shutdown_with_logger s2 dsh0 Hlog2 Hdsh0) as (d' & -> & Hall & Hmod).
    rewrite (Hsh _ s2 Hlog2 _ Hdsh0), Hdop, <- app_assoc.
    intros Hd. apply app_inv_trace in Hd. subst dr.
    exists dop, d'. split; [reflexivity|]. split; [exact Hall|].
    left. split; [intros e He; discriminate He|]. split; [reflexivity|].
    intros m Hm. destruct (Hmod m Hm) as (r & d2 & -> & Hr).
    exists r, d2. split; [reflexivity|].
    intros ->. destruct (Hr eq_refl) as (r' & Hhd & Hret).
    exists r'. split; [exact Hhd|].
    intros ->. specialize (Hret eq_refl). simpl.
    destruct (shutdown s2) as [[[]|e] s4]; simpl in *;
      [destruct u; reflexivity|discriminate Hret].
  - destruct (is_Exception e) eqn:Eexc.
    + (* the [except] clause of [run] *)
      unfold fatal. rewrite Eexc. unfold bind.
      rewrite (dc_log_with_logger _ _ s2 Hlog2). unfold sys_exit, raise.
      cbv beta iota. cbn [fst snd].
      set (s3 := record (EvLog CRITICAL ("Fatal error during startup: " ++ exn_str e)%string) s2).
      assert (Hlog3 : dc_logger s3 = Some RootLogger) by exact Hlog2.
      destruct (shutdown_appends s3) as (dsh0 & Hdsh0).
      destruct (shutdown_with_logger s3 dsh0 Hlog3 Hdsh0) as (d' & -> & Hall & _).
      rewrite (Hsh _ s3 Hlog3 _ Hdsh0). subst s3. simpl.
      rewrite Hdop, <- !app_assoc. simpl.
      intros Hd. apply app_inv_trace in Hd. subst dr.
      exists dop, d'. split; [reflexivity|]. split; [exact Hall|].
      right. exists e. repeat split; reflexivity || assumption.
    + (* not an [Exception]: nothing catches it *)
      unfold fatal. rewrite Eexc. cbv beta iota. cbn [fst snd].
      destruct (shutdown_appends s2) as (dsh0 & Hdsh0).
      destruct (shutdown_with_logger s2 dsh0 Hlog2 Hdsh0) as (d' & -> & Hall & Hmod).
      rewrite (Hsh _ s2 Hlog2 _ Hdsh0), Hdop, <- app_assoc.
      intros Hd. apply app_inv_trace in Hd. subst dr.
      exists dop, d'. split; [reflexivity|]. split; [exact Hall|].
      left. split; [intros e' [= <-]; exact Eexc|]. split; [reflexivity|].
      intros m Hm. destruct (Hmod m Hm) as (r & d2 & -> & Hr).
      exists r, d2. split; [reflexivity|].
      intros ->. destruct (Hr eq_refl) as (r' & Hhd & Hret).
      exists r'. split; [exact Hhd|].
      intros ->. specialize (Hret eq_refl). simpl.
      destruct (shutdown s2) as [[[]|e'] s4]; simpl in *;
        first [reflexivity | discriminate Hret].
Qed.
End AfterStartup.

Lemma initialization_raised_app e d1 d2 :
  initialization_raised e (d1 ++ d2) ->
  initialization_raised e d1 \/ initialization_raised e d2.
Proof.
  unfold initialization_raised. rewrite !in_app_iff. tauto.
Qed.

Lemma initialization_raised_forward (p : Event -> bool) d e :
  forallb p d = true ->
  (forall ev, p ev = true -> is_forward_call ev = false) ->
  ~ initialization_raised e d.
Proof.
  intros Hall Hp [Hin|[Hin|Hin]];
    rewrite forallb_forall in Hall;
    specialize (Hp _ (Hall _ Hin)); discriminate Hp.
Qed.

Lemma main_loop_raised_forward (p : Event -> bool) d e :
  forallb p d = true ->
  (forall ev, p ev = true -> is_forward_call ev = false) ->
  ~ In (EvMainLoop (Some e)) d.
Proof.
  intros Hall Hp Hin. rewrite forallb_forall in Hall.
  specialize (Hp _ (Hall _ Hin)). discriminate Hp.
Qed.

Lemma startup_event_not_forward ev :
  startup_event ev = true -> is_forward_call ev = false.
Proof. destruct ev; simpl; intros H; first [reflexivity | discriminate H]. Qed.

Lemma shutdown_event_not_forward ev :
  shutdown_event ev = true -> is_forward_call ev = false.
Proof.
  destruct ev; simpl; intros H; try reflexivity; try discriminate H.
  apply orb_true_iff in H. destruct H as [H|H]; apply String.eqb_eq in H;
    subst; reflexivity.
Qed.

Lemma unstarted_event_not_forward ev :
  unstarted_event ev = true -> is_forward_call ev = false.
Proof.
  unfold unstarted_event. intros H.
  apply orb_true_iff in H. destruct H as [H|H];
    [apply orb_true_iff in H; destruct H as [H|H]|].
  - apply startup_event_not_forward; exact H.
  - destruct ev; simpl in *; first [reflexivity | discriminate H].
  - apply shutdown_event_not_forward; exact H.
Qed.

Section WholeRun.
Context {MM : Type} {manager : ModuleManager.Interface MM} (env : Env).

Lemma bind_ret_inv {A B} (m : M MM A) (k : A -> M MM B) s b s' :
  bind m k s = (Ret b, s') ->
  exists a s1, m s = (Ret a, s1) /\ k a s1 = (Ret b, s').
Proof.
  unfold bind. destruct (m s) as [[a|e] s1]; [|discriminate].
  intros H. exists a, s1. split; [reflexivity|exact H].
Qed.

Lemma dc_log_ret_inv lvl msg (s : State MM) u s' :
  dc_log lvl msg s = (Ret u, s') -> dc_logger s' = Some RootLogger.
Proof.
  unfold dc_log. destruct (dc_logger s) as [[]|] eqn:Hlog; [|discriminate].
  intros [= _ <-]. exact Hlog.
Qed.

(** A completed initialization sequence leaves the logger bound: its last
    statement logs through [dc.logger]. *)
Lemma startup_returns_logger (s : State MM) u s1 :
  startup env s = (Ret u, s1) -> dc_logger s1 = Some RootLogger.
Proof.
  unfold startup, setup_signal_handlers. intros H.
  do 9 (apply bind_ret_inv in H; destruct H as (? & ? & _ & H)).
  eapply dc_log_ret_inv; exact H.
Qed.

Lemma run_after_startup (s : State MM) u s1 :
  startup env s = (Ret u, s1) -> run env s = run_modules s1.
Proof.
  intros H. unfold run, run_modules, try_finally, try_except.
  rewrite (bind_ret _ _ s u s1 H). reflexivity.
Qed.

Lemma run_unstarted (s : State MM) e s1 :
  startup env s = (Raise e, s1) ->
  exists d, trace (snd (run env s)) = trace s ++ d
            /\ forallb unstarted_event d = true.
Proof.
  intros H.
  assert (Hrun : run env s
                 = try_finally (try_except (startup env) fatal) shutdown s).
  { unfold run, try_finally, try_except.
    rewrite (bind_raise _ _ s e s1 H), H. reflexivity. }
  rewrite Hrun.
  assert (Hemits : emits unstarted_event
                         (try_finally (try_except (startup (MM := MM) env) fatal)
                                      shutdown)).
  { apply emits_try_finally; [apply emits_try_except|].
    - eapply emits_weaken; [|apply startup_emits].
      intros ev Hev. unfold unstarted_event. rewrite Hev. reflexivity.
    - intros e0 handler Hh. eapply emits_weaken; [|eapply fatal_emits; exact Hh].
      intros ev Hev. unfold unstarted_event. rewrite Hev.
      rewrite orb_true_r. reflexivity.
    - intros s0. destruct (shutdown_trace s0) as (d & Hd & Hall & _).
      exists (EvShutdown :: d). split; [exact Hd|].
      simpl. eapply forallb_weaken; [|exact Hall].
      intros ev Hev. unfold unstarted_event. rewrite Hev.
      rewrite orb_true_r. reflexivity. }
  apply Hemits.
Qed.
End WholeRun.

(** * The events of a run, split at the end of the initialization *)

Section ErrorPaths.
Context {MM : Type} {manager : ModuleManager.Interface MM} (env : Env).

Lemma run_modules_appends (s : State MM) :
  exists d, trace (snd (run_modules s)) = trace s ++ d.
Proof.
  apply (emits_appends (fun _ => true)).
  apply emits_try_finally; [apply emits_try_except|].
  - eapply emits_weaken; [|apply operate_emits]. reflexivity.
  - intros e handler H. eapply emits_weaken; [|eapply fatal_emits; exact H].
    reflexivity.
  - intros s0. destruct (shutdown_appends s0) as (d & Hd).
    exists d. split; [exact Hd|]. apply forallb_forall. reflexivity.
Qed.

(** The events of a run, split at the end of the initialization sequence. *)
Lemma run_split (s : State MM) d :
  trace (snd (run env s)) = trace s ++ d ->
  (forallb unstarted_event d = true)
  \/ (exists s1 d0 dr,
         run env s = run_modules s1
         /\ dc_logger s1 = Some RootLogger
         /\ forallb startup_event d0 = true
         /\ trace (snd (run_modules s1)) = trace s1 ++ dr
         /\ d = d0 ++ dr).
Proof.
  intros Hd.
  destruct (startup_emits env s) as (d0 & Hd0 & Hall0).
  destruct (startup env s) as [[u|e] s1] eqn:Hst; simpl in Hd0.
  - right. destruct (run_modules_appends s1) as (dr & Hdr).
    exists s1, d0, dr.
    rewrite (run_after_startup env s u s1 Hst) in Hd.
    split; [apply (run_after_startup env s u s1 Hst)|].
    split; [apply (startup_returns_logger env s u s1 Hst)|].
    split; [exact Hall0|]. split; [exact Hdr|].
    rewrite Hdr, Hd0, <- app_assoc in Hd. apply app_inv_trace in Hd.
    symmetry. exact Hd.
  - left. destruct (run_unstarted env s e s1 Hst) as (d' & Hd' & Hall').
    rewrite Hd' in Hd. apply app_inv_trace in Hd. subst d'. exact Hall'.
Qed.

End ErrorPaths.

(** * The handlers installed by [setup_logging] *)





Section SetupLogging.
Context {MM : Type} (env : Env).

Lemma section_lookup (s : State MM) section key default :
  doorlockd_section (dc_config s) = Some section ->
  doorlockd_option key default s
  = (Ret (match dict_get section key with Some v => v | None => default end), s).
Proof.
  unfold doorlockd_section, doorlockd_option, bind, gets, lift, py_get. simpl.
  destruct (dict_get (dc_config s) "doorlockd") as [[]|]; try discriminate;
    intros [= <-]; reflexivity.
Qed.

Lemma install_console_handler_spec (s : State MM) section :
  doorlockd_section (dc_config s) = Some section ->
  names_level section "stderr_level" ->
  exists l,
    install_console_handler s
    = (Ret tt, record (EvAddHandler (mkHandler Console l formatter))
                      (set_handlers (root_handlers s ++ [mkHandler Console l formatter]) s))
    /\ (dict_get section "stderr_level" = None -> l = levelno INFO)
    /\ (forall n, dict_get section "stderr_level" = Some (VStr n) ->
                  logging_level (upper n) = Ret l).
Proof.
  intros Hsec Hlevel. unfold install_console_handler.
  rewrite (bind_ret _ _ s _ s (section_lookup s section _ _ Hsec)).
  destruct (dict_get section "stderr_level") as [v|] eqn:Hv.
  - destruct (Hlevel v Hv) as (n & l & -> & Hl).
    exists l. unfold bind, lift, add_handler, modify, py_upper. rewrite Hl.
    split; [reflexivity|]. split; [discriminate|].
    intros n' [= <-]. exact Hl.
  - exists 20. split; [reflexivity|]. split; [reflexivity|discriminate].
Qed.



End SetupLogging.

(** * The termination reason under signals and thread exceptions *)

Section FirstWriterWins.
Context (sc : string -> option exn).

Lemma deliver_to_empty dl (s : State SpecManager.t) m :
  dc_module s = Some m -> SpecManager.is_empty m = true ->
  exists m',
    deliver (manager := SpecManager.interface sc) dl s = (Ret tt, set_module (Some m') s)
    /\ SpecManager.is_empty m' = false
    /\ exclusive m'
    /\ SpecManager.log m' = SpecManager.log m
    /\ match dl with
       | Signal signum =>
           SpecManager.abort_msg m' = None
           /\ SpecManager.exit_msg m'
              = Some ("Received "
                        ++ (if (signum =? SIGINT)%Z then "SIGINT" else "SIGTERM"))%string
       | ThreadException e =>
           SpecManager.exit_msg m' = None
           /\ SpecManager.abort_cause m' = Some e
           /\ SpecManager.abort_msg m'
              = Some ("Uncaught exception in thread: " ++ exn_str e)%string
       end.
Proof.
  intros Hmod Hempty.
  assert (Hfields : SpecManager.abort_msg m = None /\ SpecManager.exit_msg m = None).
  { unfold SpecManager.is_empty in Hempty.
    destruct (SpecManager.abort_msg m); [discriminate|].
    destruct (SpecManager.exit_msg m); [discriminate|]. split; reflexivity. }
  destruct Hfields as (Ha & He).
  destruct dl as [signum|e]; simpl;
    unfold signal_handler, global_exception_handler; rewrite Hmod; simpl;
    unfold SpecManager.request_exit, SpecManager.request_abort; rewrite Hempty;
    eexists; (split; [reflexivity|]); simpl.
  - rewrite Ha. repeat split; left; reflexivity.
  - rewrite He. repeat split; right; reflexivity.
Qed.

Lemma deliver_to_set dl (s : State SpecManager.t) m :
  dc_module s = Some m -> SpecManager.is_empty m = false ->
  exists m' entry,
    deliver (manager := SpecManager.interface sc) dl s = (Ret tt, set_module (Some m') s)
    /\ reason_of m' = reason_of m
    /\ SpecManager.is_empty m' = false
    /\ SpecManager.log m' = SpecManager.log m ++ [entry]
    /\ superseded entry = true.
Proof.
  intros Hmod Hset.
  destruct dl as [signum|e]; simpl;
    unfold signal_handler, global_exception_handler; rewrite Hmod; simpl;
    unfold SpecManager.request_exit, SpecManager.request_abort; rewrite Hset;
    eexists; eexists; (split; [reflexivity|]); simpl;
    (split; [reflexivity|]); (split; [exact Hset|]);
    (split; [reflexivity|]); reflexivity.
Qed.

Lemma deliver_all_to_set ds :
  forall (s : State SpecManager.t) m,
    dc_module s = Some m -> SpecManager.is_empty m = false ->
    exists m' entries,
      deliver_all (manager := SpecManager.interface sc) ds s = (Ret tt, set_module (Some m') s)
      /\ reason_of m' = reason_of m
      /\ SpecManager.log m' = SpecManager.log m ++ entries
      /\ length entries = length ds
      /\ forallb superseded entries = true.
Proof.
  induction ds as [|dl ds IH]; intros s m Hmod Hset.
  - exists m, []. simpl. unfold ret. rewrite app_nil_r.
    repeat split. destruct s; simpl in *; subst; reflexivity.
  - destruct (deliver_to_set dl s m Hmod Hset)
      as (m1 & entry & Hdl & Hreason1 & Hset1 & Hlog1 & Hsup).
    destruct (IH (set_module (Some m1) s) m1 eq_refl Hset1)
      as (m' & entries & Hall & Hreason & Hlog & Hlen & Hsups).
    exists m', (entry :: entries). simpl.
    rewrite (bind_ret _ _ s tt _ Hdl), Hall.
    split; [reflexivity|]. split; [congruence|].
    split; [rewrite Hlog, Hlog1, <- app_assoc; reflexivity|].
    split; [rewrite Hlen; reflexivity|].
    rewrite Hsup, Hsups. reflexivity.
Qed.

(** C7. With the set-if-empty requests of the specification behind
    [dc.module.abort] and [dc.module.exit], every interleaving of signals
    and thread exceptions that reaches an empty reason leaves the reason of
    the first delivery: a signal records Exit, a thread exception records
    Abort with its cause, every later delivery is discarded and logged as
    superseded, once each, and Abort and Exit are never both set. *)
Theorem C7_first_writer_wins
  (s : State SpecManager.t) (m : SpecManager.t)
  (first : Delivery) (rest : list Delivery) :
  dc_module s = Some m ->
  SpecManager.is_empty m = true ->
  exists m1 mn entries,
    dc_module (snd (deliver (manager := SpecManager.interface sc) first s)) = Some m1
    /\ deliver_all (manager := SpecManager.interface sc) (first :: rest) s = (Ret tt, set_module (Some mn) s)
    /\ reason_of mn = reason_of m1
    /\ exclusive mn
    /\ SpecManager.is_empty mn = false
    /\ match first with
       | Signal signum =>
           SpecManager.abort_msg mn = None
           /\ SpecManager.exit_msg mn
              = Some ("Received "
                        ++ (if (signum =? SIGINT)%Z then "SIGINT" else "SIGTERM"))%string
       | ThreadException e =>
           SpecManager.exit_msg mn = None
           /\ SpecManager.abort_cause mn = Some e
           /\ SpecManager.abort_msg mn
              = Some ("Uncaught exception in thread: " ++ exn_str e)%string
       end
    /\ SpecManager.log mn = SpecManager.log m ++ entries
    /\ length entries = length rest
    /\ forallb superseded entries = true.
Proof.
  intros Hmod Hempty.
  destruct (deliver_to_empty first s m Hmod Hempty)
    as (m1 & Hfirst & Hset1 & Hexcl1 & Hlog1 & Hkind).
  destruct (deliver_all_to_set rest (set_module (Some m1) s) m1 eq_refl Hset1)
    as (mn & entries & Hall & Hreason & Hlog & Hlen & Hsups).
  assert (Habort : SpecManager.abort_msg mn = SpecManager.abort_msg m1)
    by (unfold reason_of in Hreason; congruence).
  assert (Hcause : SpecManager.abort_cause mn = SpecManager.abort_cause m1)
    by (unfold reason_of in Hreason; congruence).
  assert (Hexit : SpecManager.exit_msg mn = SpecManager.exit_msg m1)
    by (unfold reason_of in Hreason; congruence).
  exists m1, mn, entries.
  split; [rewrite Hfirst; reflexivity|].
  split; [simpl; rewrite (bind_ret _ _ s tt _ Hfirst), Hall; reflexivity|].
  split; [exact Hreason|].
  split; [unfold exclusive; rewrite Habort, Hexit; exact Hexcl1|].
  split; [unfold SpecManager.is_empty; rewrite Habort, Hexit; exact Hset1|].
  split; [destruct first; rewrite ?Habort, ?Hcause, ?Hexit; exact Hkind|].
  split; [rewrite Hlog, Hlog1; reflexivity|].
  split; assumption.
Qed.
End FirstWriterWins.

(** * The order of the initialization sequence *)

(** Turns a computation that returned into the state it left. *)
Ltac returned :=
  exec;
  let H := fresh "H" in
  intros H; try discriminate H; inversion H; subst; clear H.

Section StartupOrder.
Context {MM : Type} {manager : ModuleManager.Interface MM} (env : Env).

Lemma dc_log_returns lvl msg (s : State MM) u s' :
  dc_log lvl msg s = (Ret u, s') -> s' = record (EvLog lvl msg) s.
Proof. unfold dc_log. returned. reflexivity. Qed.

Lemma load_configuration_returns (s : State MM) u s' :
  load_configuration env s = (Ret u, s') ->
  exists cfg,
    toml_load env = Ret cfg
    /\ s' = record (EvLog INFO "Configuration loaded successfully")
                   (set_config cfg (record EvTomlLoad s)).
Proof.
  unfold load_configuration, try_except, bind, modify, lift, dc_log, sys_exit, raise.
  returned. eexists. split; reflexivity.
Qed.

Lemma install_console_handler_returns (s : State MM) u s' :
  install_console_handler s = (Ret u, s') ->
  exists l,
    s' = record (EvAddHandler (mkHandler Console l formatter))
                (set_handlers (root_handlers s ++ [mkHandler Console l formatter]) s).
Proof.
  unfold install_console_handler, doorlockd_option, add_handler, bind, gets,
    lift, modify, py_get, py_upper.
  returned; eexists; reflexivity.
Qed.

Lemma logging_rest_emits :
  emits logging_event
        (install_file_handler (MM := MM) env ;; set_overall_level ;; warn_deprecated env).
Proof.
  unfold install_file_handler, set_overall_level, warn_deprecated,
    new_file_handler, add_handler.
  emits_auto.
Qed.

Lemma setup_logging_returns (s : State MM) u s' :
  setup_logging env s = (Ret u, s') ->
  exists l dlog,
    trace s' = trace s ++ EvAddHandler (mkHandler Console l formatter) :: dlog
    /\ forallb logging_event dlog = true.
Proof.
  unfold setup_logging. intros H.
  apply bind_ret_inv in H. destruct H as (a & sa & Hconsole & Hrest).
  apply install_console_handler_returns in Hconsole. destruct Hconsole as (l & ->).
  match type of Hrest with
  | _ ?sa = _ => destruct (logging_rest_emits sa) as (dlog & Hd & Hall)
  end.
  rewrite Hrest in Hd. simpl in Hd.
  exists l, dlog. split; [|exact Hall].
  rewrite Hd, <- app_assoc. reflexivity.
Qed.

Lemma setup_event_system_returns (s : State MM) u s' :
  setup_event_system env s = (Ret u, s') ->
  s' = record (EvLog DEBUG "Event system initialized")
              (record EvNewEvents (set_e (Some Events) s)).
Proof.
  unfold setup_event_system, bind, check, modify, dc_log, ret, raise.
  returned. reflexivity.
Qed.

Lemma setup_module_manager_returns (s : State MM) u s' :
  setup_module_manager s = (Ret u, s') ->
  exists m,
    s' = record (EvLog DEBUG "Module manager initialized")
                (record EvNewManager (set_module (Some m) s)).
Proof.
  unfold setup_module_manager, bind, lift, modify, dc_log.
  returned. eexists. reflexivity.
Qed.

Lemma setup_exception_handling_returns (s : State MM) u s' :
  setup_exception_handling s = (Ret u, s') ->
  s' = record (EvLog DEBUG "Global exception handler configured")
              (record EvExcepthook (set_excepthook true s)).
Proof.
  unfold setup_exception_handling, bind, modify, dc_log.
  returned. reflexivity.
Qed.

Lemma setup_signal_handlers_returns (s : State MM) u s' :
  setup_signal_handlers env s = (Ret u, s') ->
  trace s' = trace s ++ [EvSignal SIGINT; EvSignal SIGTERM;
                         EvLog DEBUG "Signal handlers configured"]
  /\ dc_e s' = dc_e s /\ dc_module s' = dc_module s
  /\ excepthook s' = excepthook s.
Proof.
  unfold setup_signal_handlers, signal_signal, bind, check, modify, dc_log, ret, raise.
  returned. simpl. rewrite <- !app_assoc. repeat split.
Qed.

(** Whenever the initialization sequence of [run] completes, its steps
    happened in this order: the configuration is loaded, logging starts
    with the console handler (a file handler may follow), the event bus is
    constructed, then the module manager, then the exception hook is
    installed, then the handlers of SIGINT and SIGTERM; the check of the
    flag, the modules and the operational loop come after all of them. *)
Theorem startup_steps_in_order (s : State MM) u s1 :
  startup env s = (Ret u, s1) ->
  exists l dlog name_ver,
    trace s1
    = trace s
      ++ [EvTomlLoad; EvLog INFO "Configuration loaded successfully";
          EvAddHandler (mkHandler Console l formatter)]
      ++ dlog
      ++ [EvLog INFO (glyph_wrench ++ " " ++ name_ver ++ " starting up...")%string;
          EvNewEvents; EvLog DEBUG "Event system initialized";
          EvNewManager; EvLog DEBUG "Module manager initialized";
          EvExcepthook; EvLog DEBUG "Global exception handler configured";
          EvSignal SIGINT; EvSignal SIGTERM;
          EvLog DEBUG "Signal handlers configured"]
    /\ forallb logging_event dlog = true
    /\ dc_e s1 = Some Events
    /\ (exists m, dc_module s1 = Some m)
    /\ excepthook s1 = true
    /\ dc_logger s1 = Some RootLogger
    /\ run env s = run_modules s1.
Proof.
  intros Hstartup.
  pose proof (startup_returns_logger env s u s1 Hstartup) as Hlogger.
  pose proof (run_after_startup env s u s1 Hstartup) as Hrun.
  unfold startup in Hstartup.
  apply bind_ret_inv in Hstartup. destruct Hstartup as (? & s2 & Hload & H).
  apply bind_ret_inv in H. destruct H as (? & s3 & Hlogging & H).
  apply bind_ret_inv in H. destruct H as (name_ver & s4 & Hname & H).
  apply bind_ret_inv in H. destruct H as (? & s5 & Hstart & H).
  apply bind_ret_inv in H. destruct H as (? & s6 & Hevents & H).
  apply bind_ret_inv in H. destruct H as (? & s7 & Hmanager & H).
  apply bind_ret_inv in H. destruct H as (? & s8 & Hhook & Hsignals).
  apply load_configuration_returns in Hload. destruct Hload as (cfg & _ & ->).
  apply setup_logging_returns in Hlogging. destruct Hlogging as (l & dlog & Hd3 & Hall).
  injection Hname as <- <-.
  apply dc_log_returns in Hstart. subst s5.
  apply setup_event_system_returns in Hevents. subst s6.
  apply setup_module_manager_returns in Hmanager. destruct Hmanager as (m & ->).
  apply setup_exception_handling_returns in Hhook. subst s8.
  apply setup_signal_handlers_returns in Hsignals.
  destruct Hsignals as (Hd1 & He & Hm & Hx).
  exists l, dlog, (dc_app_name_ver s3).
  split.
  { rewrite Hd1. simpl. rewrite Hd3. simpl.
    repeat (rewrite <- app_assoc; simpl). reflexivity. }
  split; [exact Hall|].
  split; [rewrite He; reflexivity|].
  split; [exists m; rewrite Hm; reflexivity|].
  split; [rewrite Hx; reflexivity|].
  split; [exact Hlogger|exact Hrun].
Qed.

(** A completed initialization sequence has constructed the manager. *)
Lemma startup_returns_manager (s : State MM) u s1 :
  startup env s = (Ret u, s1) -> exists m, dc_module s1 = Some m.
Proof.
  unfold startup. intros H.
  do 5 (apply bind_ret_inv in H; destruct H as (? & ? & _ & H)).
  apply bind_ret_inv in H. destruct H as (? & sm & Hmanager & H).
  apply bind_ret_inv in H. destruct H as (? & sh & Hhook & Hsignals).
  apply setup_module_manager_returns in Hmanager. destruct Hmanager as (m & ->).
  apply setup_exception_handling_returns in Hhook. subst sh.
  apply setup_signal_handlers_returns in Hsignals.
  destruct Hsignals as (_ & _ & Hmod & _).
  exists m. rewrite Hmod. reflexivity.
Qed.

(** With the logger in place and [doorlockd.enable_modules = false], the run
    logs the warning and goes straight to [shutdown]: no module is loaded,
    set up or enabled and the operational loop is not entered.  [shutdown]
    then applies [disable] to the manager that loaded nothing, and
    [teardown] when [disable] has returned; when both return, [run] returns
    and the exit status is 0. *)
Theorem disabled_modules_skip_to_shutdown (s : State MM) u s1 section :
  startup env s = (Ret u, s1) ->
  dict_get (dc_config s1) "doorlockd" = Some (VTable section) ->
  dict_get section "enable_modules" = Some (VBool false) ->
  exists r dsh,
    trace (snd (run env s))
    = trace s1 ++ EvLog WARNING "Modules are disabled in configuration"
                :: EvShutdown
                :: EvLog INFO "Initiating shutdown sequence..."
                :: EvDoAll "disable" r :: dsh
    /\ forallb shutdown_event dsh = true
    /\ (r = None ->
        exists r', hd_error dsh = Some (EvDoAll "teardown" r')
                   /\ (r' = None ->
                       fst (run env s) = Ret tt
                       /\ exit_status (fst (run env s)) = 0))
    /\ (forall m m1 m2,
          dc_module s1 = Some m ->
          ModuleManager.do_all "disable" m = (m1, None) ->
          ModuleManager.do_all "teardown" m1 = (m2, None) ->
          r = None
          /\ hd_error dsh = Some (EvDoAll "teardown" None)
          /\ fst (run env s) = Ret tt
          /\ exit_status (fst (run env s)) = 0).
Proof.
  intros Hstartup Hsection Hflag.
  pose proof (startup_returns_logger env s u s1 Hstartup) as Hlog.
  destruct (startup_returns_manager s u s1 Hstartup) as (m0 & Hm0).
  rewrite (run_after_startup env s u s1 Hstartup).
  assert (Hsec : doorlockd_section (dc_config s1) = Some section)
    by (unfold doorlockd_section; rewrite Hsection; reflexivity).
  assert (Hop : operate s1
                = (Ret tt, record (EvLog WARNING "Modules are disabled in configuration") s1)).
  { unfold operate.
    rewrite (bind_ret _ _ s1 _ s1 (section_lookup s1 section _ _ Hsec)).
    rewrite Hflag. simpl. apply dc_log_with_logger. exact Hlog. }
  set (s2 := record (EvLog WARNING "Modules are disabled in configuration") s1) in *.
  assert (Hlog2 : dc_logger s2 = Some RootLogger) by exact Hlog.
  assert (Hm2 : dc_module s2 = Some m0) by exact Hm0.
  assert (Hrun : run_modules s1
                 = (let (r, s3) := shutdown s2 in
                    match r with
                    | Ret _ => (Ret tt, s3)
                    | Raise e => (Raise e, s3)
                    end)).
  { unfold run_modules, try_finally, try_except. rewrite Hop. reflexivity. }
  rewrite Hrun.
  destruct (shutdown_appends s2) as (d & Hd).
  destruct (shutdown_with_logger s2 d Hlog2 Hd) as (dsh0 & -> & Hall & Hmod).
  destruct (Hmod m0 Hm2) as (r & dsh & -> & Hr).
  exists r, dsh.
  assert (Hdone : fst (shutdown s2) = Ret tt ->
                  fst (let (r0, s3) := shutdown s2 in
                       match r0 with
                       | Ret _ => (Ret tt, s3)
                       | Raise e => (Raise e, s3)
                       end) = Ret tt).
  { destruct (shutdown s2) as [[[]|e] s3]; simpl; [reflexivity|discriminate]. }
  split; [|split; [|split]].
  - destruct (shutdown s2) as [[[]|e] s3]; simpl in *; rewrite Hd; subst s2;
      simpl; rewrite <- app_assoc; reflexivity.
  - simpl in Hall. exact Hall.
  - intros Hnone. destruct (Hr Hnone) as (r' & Hhd & Hret).
    exists r'. split; [exact Hhd|].
    intros Hnone'. rewrite (Hdone (Hret Hnone')). split; reflexivity.
  - intros m m1 m2 Hm Hdis Htear.
    destruct (shutdown_completes s2 m m1 m2 Hlog2 Hm Hdis Htear)
      as (final & Hret & Htrace & _).
    rewrite Htrace in Hd. apply app_inv_trace in Hd.
    injection Hd as <- <-.
    rewrite (Hdone Hret). repeat split; reflexivity.
Qed.
End StartupOrder.

(** * What a method leaves untouched *)

Section Keeps.
Context {MM X : Type} (f : State MM -> X).

Lemma keeps_ret {A} (a : A) : keeps f (ret (MM := MM) a).
Proof. intros s. reflexivity. Qed.

Lemma keeps_raise {A} e : keeps f (raise (MM := MM) (A := A) e).
Proof. intros s. reflexivity. Qed.

Lemma keeps_lift {A} (r : Res A) : keeps f (lift (MM := MM) r).
Proof. intros s. reflexivity. Qed.

Lemma keeps_gets {A} (g : State MM -> A) : keeps f (gets g).
Proof. intros s. reflexivity. Qed.

Lemma keeps_check o : keeps f (check (MM := MM) o).
Proof. destruct o; intros s; reflexivity. Qed.

Lemma keeps_modify (g : State MM -> State MM) :
  (forall s, f (g s) = f s) -> keeps f (modify g).
Proof. intros H s. apply H. Qed.

Lemma keeps_bind {A B} (m : M MM A) (k : A -> M MM B) :
  keeps f m -> (forall a, keeps f (k a)) -> keeps f (bind m k).
Proof.
  intros Hm Hk s. unfold bind. specialize (Hm s).
  destruct (m s) as [[a|e] s1]; simpl in *; [rewrite Hk|]; exact Hm.
Qed.

Lemma keeps_try_except {A} (m : M MM A) (h : exn -> option (M MM A)) :
  keeps f m -> (forall e handler, h e = Some handler -> keeps f handler) ->
  keeps f (try_except m h).
Proof.
  intros Hm Hh s. unfold try_except. specialize (Hm s).
  destruct (m s) as [[a|e] s1]; simpl in *; [exact Hm|].
  destruct (h e) as [handler|] eqn:Hhe; [|exact Hm].
  rewrite (Hh e handler Hhe). exact Hm.
Qed.

Lemma keeps_dc_log lvl msg :
  (forall ev s, f (record ev s) = f s) -> keeps f (dc_log (MM := MM) lvl msg).
Proof.
  intros H s. unfold dc_log. destruct (dc_logger s) as [[]|]; simpl; [apply H|reflexivity].
Qed.

Lemma keeps_doorlockd_option key default :
  keeps f (doorlockd_option (MM := MM) key default).
Proof.
  intros s. destruct (doorlockd_option_pure key default s) as [r ->]. reflexivity.
Qed.

Lemma keeps_prefix {A B} (m : M MM A) (k : A -> M MM B) (R : X -> State MM -> Prop) :
  keeps f m ->
  (forall s, R (f s) s) ->
  (forall a s, R (f s) (snd (k a s))) ->
  forall s, R (f s) (snd (bind m k s)).
Proof.
  intros Hm Hhere Hk s. unfold bind. specialize (Hm s).
  destruct (m s) as [[a|e] s1]; simpl in *; rewrite <- Hm; [apply Hk|apply Hhere].
Qed.
End Keeps.

Ltac keeps_step :=
  match goal with
  | |- keeps _ (bind _ _) => apply keeps_bind; [|intros ?]
  | |- keeps _ (try_except _ _) =>
      apply keeps_try_except;
      [|let e := fresh "e" in
        let handler := fresh "handler" in
        let H := fresh "H" in
        intros e handler H; cbv beta in H]
  | |- keeps _ (ret _) => apply keeps_ret
  | |- keeps _ (raise _) => apply keeps_raise
  | |- keeps _ (sys_exit _) => apply keeps_raise
  | |- keeps _ (lift _) => apply keeps_lift
  | |- keeps _ (gets _) => apply keeps_gets
  | |- keeps _ (check _) => apply keeps_check
  | |- keeps _ (doorlockd_option _ _) => apply keeps_doorlockd_option
  | |- keeps _ (dc_log _ _) => apply keeps_dc_log; intros ? ?; reflexivity
  | |- keeps _ (root_log _ _) => apply keeps_modify; intros ?; reflexivity
  | |- keeps _ (modify _) => apply keeps_modify; intros ?; reflexivity
  | H : (if ?b then _ else _) = Some _ |- _ => destruct b
  | H : Some _ = Some _ |- _ => injection H as <-
  | H : None = Some _ |- _ => discriminate H
  | |- keeps _ (if ?b then _ else _) => destruct b
  | |- keeps _ (match ?x with _ => _ end) => destruct x
  end.

Ltac keeps_auto := repeat keeps_step.

(** * The constructor *)

Section Constructor.
Context {MM : Type} {manager : ModuleManager.Interface MM} (env : Env).

(** The constructor does not depend on [git]: when the version command
    fails with an [Exception], a warning is printed, the version is
    [version-unknown], and the client is constructed all the same, with
    every attribute of [dc] reset. *)
Theorem the_constructor_survives_a_failing_git (s0 : State MM) :
  new_io_ports env = None ->
  (forall e, git_describe env = Raise e -> is_Exception e = true) ->
  exists ver warning,
    fst (init env s0) = Ret tt
    /\ dc_app_name_ver (snd (init env s0)) = ("doorlockd-client(" ++ ver ++ ")")%string
    /\ trace (snd (init env s0)) = trace s0 ++ warning
    /\ match git_describe env with
       | Ret v => ver = v /\ warning = []
       | Raise e =>
           ver = "version-unknown"%string
           /\ warning = [EvPrint ("Warning: Could not read version from git: "
                                    ++ exn_str e)%string]
       end
    /\ dc_config (snd (init env s0)) = []
    /\ dc_module (snd (init env s0)) = None
    /\ dc_e (snd (init env s0)) = None
    /\ dc_logger (snd (init env s0)) = None.
Proof.
  intros Hio Hgit.
  unfold init, setup_application_info, get_git_version, setup_data_container,
    try_except, bind, modify, lift, check, ret, raise.
  rewrite Hio.
  destruct (git_describe env) as [v|e] eqn:Hv.
  - exists v, []. simpl. rewrite app_nil_r. repeat split; reflexivity.
  - rewrite (Hgit e eq_refl). do 2 eexists. simpl. repeat split; reflexivity.
Qed.
End Constructor.

(** * The manager and the gateways *)

Section Wiring.
Context {MM : Type} {manager : ModuleManager.Interface MM} (env : Env).

Lemma load_configuration_keeps_wiring : keeps wiring (load_configuration (MM := MM) env).
Proof. unfold load_configuration. keeps_auto. Qed.

Lemma setup_logging_keeps_wiring : keeps wiring (setup_logging (MM := MM) env).
Proof.
  unfold setup_logging, install_console_handler, install_file_handler,
    new_file_handler, add_handler, set_overall_level, warn_deprecated.
  keeps_auto.
Qed.

Lemma setup_event_system_keeps_wiring : keeps wiring (setup_event_system (MM := MM) env).
Proof. unfold setup_event_system. keeps_auto. Qed.

(** However far the initialization sequence gets, a gateway is never
    installed before the manager exists: when [threading.excepthook] is the
    handler of the client, [dc.module] holds a manager; the signal handlers
    are installed after the hook, SIGINT first, then SIGTERM. *)
Theorem gateways_are_installed_after_the_manager (s : State MM) :
  excepthook s = false ->
  signal_handlers s = [] ->
  (excepthook (snd (startup env s)) = true ->
   exists m, dc_module (snd (startup env s)) = Some m)
  /\ (signal_handlers (snd (startup env s)) <> [] ->
      excepthook (snd (startup env s)) = true)
  /\ (signal_handlers (snd (startup env s)) = []
      \/ signal_handlers (snd (startup env s)) = [SIGINT]
      \/ signal_handlers (snd (startup env s)) = [SIGINT; SIGTERM]).
Proof.
  set (R := fun (w : option MM * (bool * list Z)) (s' : State MM) =>
              snd w = (false, []) ->
              (excepthook s' = true -> exists m, dc_module s' = Some m)
              /\ (signal_handlers s' <> [] -> excepthook s' = true)
              /\ (signal_handlers s' = [] \/ signal_handlers s' = [SIGINT]
                  \/ signal_handlers s' = [SIGINT; SIGTERM])).
  assert (Hhere : forall s0 : State MM, R (wiring s0) s0).
  { intros s0 [= -> ->]. split; [discriminate|]. split; [congruence|]. left. reflexivity. }
  assert (H : R (wiring s) (snd (startup env s))).
  { revert s. unfold startup.
    apply (keeps_prefix wiring _ _ R);
      [apply load_configuration_keeps_wiring|exact Hhere|intros _].
    apply (keeps_prefix wiring _ _ R);
      [apply setup_logging_keeps_wiring|exact Hhere|intros _].
    apply (keeps_prefix wiring _ _ R); [apply keeps_gets|exact Hhere|intros name_ver].
    apply (keeps_prefix wiring _ _ R);
      [apply keeps_dc_log; reflexivity|exact Hhere|intros _].
    apply (keeps_prefix wiring _ _ R);
      [apply setup_event_system_keeps_wiring|exact Hhere|intros _].
    intros s [= Hhook Hsig].
    unfold setup_module_manager, setup_exception_handling, setup_signal_handlers,
      signal_signal, dc_log, bind, modify, lift, check, ret, raise.
    exec; rewrite ?Hhook, ?Hsig; simpl;
      (split; [intros; try discriminate; eexists; reflexivity|]);
      (split; [intros; try congruence; reflexivity|]);
      auto. }
  intros Hhook Hsig. apply H. unfold wiring, hooks. rewrite Hhook, Hsig. reflexivity.
Qed.

(** When the initialization sequence fails while [dc.module] is still
    [None] (the configuration, the logging setup, the event bus or the
    constructor of the manager failed), [shutdown] cannot do its work: it
    raises [AttributeError] on [None], at its first line without a logger
    and at [dc.module.do_all] with one.  That exception replaces the one in
    flight, the [SystemExit] of [load_configuration] and of the [except]
    clause included; no phase is applied, and the process ends with
    status 1. *)
Theorem failure_before_the_manager_exists (s : State MM) e s1 :
  startup env s = (Raise e, s1) ->
  dc_module s1 = None ->
  fst (run env s)
  = Raise (none_has_no (match dc_logger s1 with
                        | Some _ => "do_all"
                        | None => "info"
                        end))
  /\ exit_status (fst (run env s)) = 1
  /\ trace (snd (run env s))
     = trace s1
       ++ match dc_logger s1 with
          | Some _ =>
              (if is_Exception e
               then [EvLog CRITICAL ("Fatal error during startup: " ++ exn_str e)%string]
               else [])
              ++ [EvShutdown; EvLog INFO "Initiating shutdown sequence..."]
          | None => [EvShutdown]
          end.
Proof.
  intros Hst Hmod.
  unfold run, try_finally, try_except.
  rewrite (bind_raise _ _ s e s1 Hst).
  unfold fatal, shutdown, call_do_all, dc_log, sys_exit, bind, modify, raise.
  destruct (dc_logger s1) as [[]|] eqn:Hlog; destruct (is_Exception e);
    repeat (progress (simpl; rewrite ?Hlog, ?Hmod));
    rewrite <- ?app_assoc; repeat split; reflexivity.
Qed.

(** With a logger in place, a failure of [toml.load] still ends the run
    in the [AttributeError] of [shutdown]: a missing file and a syntax error
    become a [SystemExit] that the [except] clause of [run] does not see, any
    other [Exception] is logged as fatal, and in each case [shutdown] then
    fails at [dc.module.do_all] and its exception is the one that leaves
    [run]; the message prepared for [sys.exit] is lost, and [dc.config] is as
    it was. *)
Theorem a_configuration_error_ends_in_the_shutdown_error (s : State MM) e0 :
  dc_logger s = Some RootLogger ->
  dc_module s = None ->
  toml_load env = Raise e0 ->
  fst (run env s) = Raise (none_has_no "do_all")
  /\ dc_config (snd (run env s)) = dc_config s
  /\ trace (snd (run env s))
     = trace s
       ++ EvTomlLoad
       :: (if is_FileNotFoundError e0 || is_TomlDecodeError e0 then []
           else if is_Exception e0
                then [EvLog CRITICAL ("Fatal error during startup: " ++ exn_str e0)%string]
                else [])
       ++ [EvShutdown; EvLog INFO "Initiating shutdown sequence..."].
Proof.
  intros Hlog Hmod Htoml.
  unfold run, startup, load_configuration, try_finally, try_except, fatal,
    shutdown, call_do_all, dc_log, sys_exit, bind, modify, lift, raise.
  rewrite Htoml.
  destruct e0 as [[] msg|code];
    repeat (progress (simpl; rewrite ?Hlog, ?Hmod));
    rewrite <- ?app_assoc; repeat split; reflexivity.
Qed.
End Wiring.

(** * The logger that [setup_logging] publishes *)

Lemma fold_min_spec l :
  forall x, fold_left Z.min l x <= x
            /\ (forall y, In y l -> fold_left Z.min l x <= y)
            /\ In (fold_left Z.min l x) (x :: l).
Proof.
  induction l as [|z l IH]; intros x; simpl.
  - split; [lia|]. split; [contradiction|]. left. reflexivity.
  - destruct (IH (Z.min x z)) as (Hle & Hall & Hin).
    split; [lia|]. split.
    + intros y [<-|Hy]; [lia|apply Hall; exact Hy].
    + destruct Hin as [Hin|Hin]; [|right; right; exact Hin].
      rewrite <- Hin.
      destruct (Z.min_spec x z) as [[_ ->]|[_ ->]]; [left|right; left]; reflexivity.
Qed.

Section Publishing.
Context {MM : Type} {manager : ModuleManager.Interface MM} (env : Env).

Lemma doorlockd_option_returns key default (s : State MM) v s' :
  doorlockd_option key default s = (Ret v, s') ->
  s' = s /\ exists section, doorlockd_section (dc_config s) = Some section.
Proof.
  unfold doorlockd_option, doorlockd_section, bind, gets, lift, py_get. simpl.
  destruct (dict_get (dc_config s) "doorlockd") as [[]|]; intros [= _ <-];
    (split; [reflexivity|eexists; reflexivity]).
Qed.

Lemma set_overall_level_returns (s : State MM) u s' :
  set_overall_level s = (Ret u, s') ->
  exists lowest,
    list_min (map h_level (root_handlers s)) = Ret lowest
    /\ s' = set_logger (Some RootLogger) (set_level lowest s).
Proof.
  unfold set_overall_level, bind, gets, lift, modify.
  destruct (list_min (map h_level (root_handlers s))) as [lowest|e]; [|discriminate].
  intros [= _ <-]. exists lowest. split; reflexivity.
Qed.

Lemma warn_deprecated_keeps_logging :
  keeps (fun s : State MM => (root_handlers s, published s)) (warn_deprecated env).
Proof. unfold warn_deprecated. keeps_auto. Qed.

(** When [setup_logging] returns, the root logger is published in [dc]
    and its level is the lowest threshold among all its handlers, those it
    found included: the logger itself never drops a record that one of its
    handlers accepts. *)
Theorem overall_level_is_the_lowest_threshold (s : State MM) u s' :
  setup_logging env s = (Ret u, s') ->
  dc_logger s' = Some RootLogger
  /\ (forall h, In h (root_handlers s') -> root_level s' <= h_level h)
  /\ (exists h, In h (root_handlers s') /\ h_level h = root_level s')
  /\ (forall h r, In h (root_handlers s') ->
                  h_level h <= levelno (rec_level r) ->
                  In (h_stream h, format h r)
                     (emit (root_level s') (root_handlers s') r)).
Proof.
  unfold setup_logging. intros H.
  apply bind_ret_inv in H. destruct H as (? & s1 & _ & H).
  apply bind_ret_inv in H. destruct H as (? & s2 & _ & H).
  apply bind_ret_inv in H. destruct H as (? & s3 & Hlevel & H).
  apply set_overall_level_returns in Hlevel. destruct Hlevel as (lowest & Hmin & ->).
  pose proof (warn_deprecated_keeps_logging
                (set_logger (Some RootLogger) (set_level lowest s2))) as Hkeep.
  rewrite H in Hkeep. simpl in Hkeep. injection Hkeep as Hh Hl Hlv.
  unfold list_min in Hmin.
  destruct (root_handlers s2) as [|h0 hs] eqn:Hhs; [discriminate Hmin|].
  simpl in Hmin. injection Hmin as <-.
  destruct (fold_min_spec (map h_level hs) (h_level h0)) as (Hle & Hall & Hin).
  assert (Hlow : forall h, In h (root_handlers s') -> root_level s' <= h_level h).
  { rewrite Hh, Hlv. intros h [<-|Hin']; [exact Hle|].
    apply Hall. apply in_map. exact Hin'. }
  split; [exact Hl|]. split; [exact Hlow|]. split.
  - rewrite Hh, Hlv. change (h_level h0 :: map h_level hs) with (map h_level (h0 :: hs)) in Hin.
    apply in_map_iff in Hin. destruct Hin as (h & Heq & Hin). exists h. split; assumption.
  - intros h r Hin' Hacc. unfold emit.
    specialize (Hlow h Hin').
    destruct (levelno (rec_level r) <? root_level s') eqn:Hdrop;
      [apply Z.ltb_lt in Hdrop; lia|].
    apply (in_map (fun h => (h_stream h, format h r))).
    apply filter_In. split; [exact Hin'|]. apply Z.leb_le. exact Hacc.
Qed.

Lemma install_console_handler_raises (s : State MM) e s' :
  install_console_handler s = (Raise e, s') -> s' = s.
Proof.
  unfold install_console_handler, add_handler, bind, modify, lift.
  destruct (doorlockd_option_pure "stderr_level" (VStr "INFO") s) as [r ->].
  destruct r as [v|e0]; [|intros [= _ <-]; reflexivity].
  destruct (py_upper v) as [NAME|e0]; [|intros [= _ <-]; reflexivity].
  destruct (logging_level NAME) as [l|e0]; [discriminate|intros [= _ <-]; reflexivity].
Qed.

Lemma install_console_handler_section (s : State MM) u s' :
  install_console_handler s = (Ret u, s') ->
  exists section, doorlockd_section (dc_config s) = Some section.
Proof.
  unfold install_console_handler. intros H.
  apply bind_ret_inv in H. destruct H as (v & s1 & Hopt & _).
  apply doorlockd_option_returns in Hopt. apply Hopt.
Qed.

Lemma install_file_handler_keeps :
  keeps (fun s : State MM => (published s, dc_config s)) (install_file_handler env).
Proof. unfold install_file_handler, new_file_handler, add_handler. keeps_auto. Qed.

Lemma install_file_handler_adds (s : State MM) :
  exists hs, root_handlers (snd (install_file_handler env s)) = root_handlers s ++ hs
             /\ (length hs <= 1)%nat.
Proof.
  unfold install_file_handler, new_file_handler, add_handler, dc_log.
  destruct (doorlockd_option_pure "logfile_name" VNone s) as [r Hr].
  unfold bind at 1. rewrite Hr.
  destruct r as [v|e0]; [|exists []; rewrite app_nil_r; split; [reflexivity|simpl; lia]].
  destruct (truthy v); [|exists []; rewrite app_nil_r; split; [reflexivity|simpl; lia]].
  destruct v; try (exists []; rewrite app_nil_r; split; [reflexivity|simpl; lia]).
  unfold bind, modify, check, ret, raise, lift.
  destruct (open_log_file env s0);
    [exists []; rewrite app_nil_r; split; [reflexivity|simpl; lia]|].
  destruct (doorlockd_option_pure "logfile_level" (VStr "INFO") (record (EvOpenLogFile s0) s))
    as [r2 ->].
  destruct r2 as [v2|e0]; [|exists []; rewrite app_nil_r; split; [reflexivity|simpl; lia]].
  destruct (py_upper v2); [|exists []; rewrite app_nil_r; split; [reflexivity|simpl; lia]].
  destruct (logging_level a); [|exists []; rewrite app_nil_r; split; [reflexivity|simpl; lia]].
  simpl. destruct (dc_logger s) as [[]|]; simpl; eexists [_]; split; reflexivity || (simpl; lia).
Qed.

(** [setup_logging] publishes the logger and sets the level of the root
    logger in one block, after everything that can fail: when it raises,
    [dc.logger], the level of the root logger and the configuration are as
    they were, and at most the console handler and the file handler have
    been added to the root logger. *)
Theorem failed_setup_logging_publishes_nothing (s : State MM) e s' :
  setup_logging env s = (Raise e, s') ->
  dc_logger s' = dc_logger s
  /\ root_level s' = root_level s
  /\ dc_config s' = dc_config s
  /\ exists hs, root_handlers s' = root_handlers s ++ hs /\ (length hs <= 2)%nat.
Proof.
  unfold setup_logging. unfold bind at 1.
  destruct (install_console_handler s) as [[u|e0] s1] eqn:Hconsole.
  2:{ intros [= _ <-]. apply install_console_handler_raises in Hconsole. subst s1.
      repeat split. exists []. rewrite app_nil_r. split; [reflexivity|simpl; lia]. }
  destruct (install_console_handler_section s u s1 Hconsole) as (section & Hsec).
  apply install_console_handler_returns in Hconsole. destruct Hconsole as (l & ->).
  set (console := mkHandler Console l formatter).
  set (s1 := record (EvAddHandler console) (set_handlers (root_handlers s ++ [console]) s)).
  pose proof (install_file_handler_keeps s1) as Hkeep.
  destruct (install_file_handler_adds s1) as (hs & Hhs & Hlen).
  unfold bind at 1.
  destruct (install_file_handler env s1) as [[u2|e2] s2]; simpl in Hkeep, Hhs.
  2:{ intros [= _ <-]. injection Hkeep as Hl Hlv Hc.
      split; [exact Hl|]. split; [exact Hlv|]. split; [exact Hc|].
      exists (console :: hs). split; [|simpl; lia].
      rewrite Hhs. rewrite <- app_assoc. reflexivity. }
  injection Hkeep as Hl Hlv Hc.
  unfold set_overall_level, warn_deprecated, root_log, bind, gets, lift, modify, ret.
  rewrite Hhs, <- app_assoc. simpl app.
  destruct (root_handlers s) as [|h0 rest]; simpl list_min; cbv beta iota;
    match goal with
    | |- context [doorlockd_option ?k ?d ?st] =>
        rewrite (section_lookup st section k d)
          by (simpl; rewrite Hc; exact Hsec)
    end;
    destruct (truthy _); discriminate.
Qed.

Lemma install_file_handler_without_logger (s : State MM) section p :
  dc_logger s = None ->
  doorlockd_section (dc_config s) = Some section ->
  names_level section "logfile_level" ->
  dict_get section "logfile_name" = Some (VStr p) ->
  p <> ""%string ->
  open_log_file env p = None ->
  exists lf,
    install_file_handler env s
    = (Raise (none_has_no "info"),
       record (EvAddHandler (mkHandler (File p) lf formatter))
              (set_handlers (root_handlers s ++ [mkHandler (File p) lf formatter])
                            (record (EvOpenLogFile p) s))).
Proof.
  intros Hlog Hsec Hflevel Hname Hp Hopen.
  assert (Hlf : exists NAME lf,
             py_upper (match dict_get section "logfile_level" with
                       | Some v => v
                       | None => VStr "INFO"
                       end) = Ret NAME
             /\ logging_level NAME = Ret lf).
  { destruct (dict_get section "logfile_level") as [v|] eqn:Hv.
    - destruct (Hflevel v Hv) as (n & lf & -> & Hlf). exists (upper n), lf.
      split; [reflexivity|exact Hlf].
    - exists "INFO"%string, 20. split; reflexivity. }
  destruct Hlf as (NAME & lf & Hupper & Hlf).
  exists lf.
  assert (Htruthy : truthy (VStr p) = true).
  { simpl. destruct (String.eqb p "") eqn:E; [|reflexivity].
    apply String.eqb_eq in E. contradiction. }
  unfold install_file_handler, bind.
  rewrite (section_lookup s section "logfile_name" VNone Hsec), Hname.
  cbv beta iota. rewrite Htruthy.
  unfold new_file_handler, bind, modify, check, ret. rewrite Hopen. cbv beta iota.
  rewrite (section_lookup (record (EvOpenLogFile p) s) section "logfile_level"
                          (VStr "INFO") Hsec).
  cbv beta iota. unfold lift. rewrite Hupper, Hlf.
  unfold add_handler, modify, dc_log. simpl. rewrite Hlog. reflexivity.
Qed.

(** With [dc.logger] still [None], a configuration that asks for a log
    file makes [setup_logging] fail: the line that reports the log file
    goes through [dc.logger] before the logger is published.  Both handlers
    are installed by then and the file is open; the level of the root
    logger is not set and no logger is published. *)
Theorem file_logging_needs_a_logger (s : State MM) section p :
  dc_logger s = None ->
  doorlockd_section (dc_config s) = Some section ->
  names_level section "stderr_level" ->
  names_level section "logfile_level" ->
  dict_get section "logfile_name" = Some (VStr p) ->
  p <> ""%string ->
  open_log_file env p = None ->
  exists l lf,
    fst (setup_logging env s) = Raise (none_has_no "info")
    /\ root_handlers (snd (setup_logging env s))
       = root_handlers s ++ [mkHandler Console l formatter;
                             mkHandler (File p) lf formatter]
    /\ trace (snd (setup_logging env s))
       = trace s ++ [EvAddHandler (mkHandler Console l formatter);
                     EvOpenLogFile p;
                     EvAddHandler (mkHandler (File p) lf formatter)]
    /\ dc_logger (snd (setup_logging env s)) = None
    /\ root_level (snd (setup_logging env s)) = root_level s.
Proof.
  intros Hlog Hsec Hstderr Hflevel Hname Hp Hopen.
  destruct (install_console_handler_spec s section Hsec Hstderr) as (l & Hconsole & _).
  set (console := mkHandler Console l formatter) in *.
  set (s1 := record (EvAddHandler console)
                    (set_handlers (root_handlers s ++ [console]) s)) in *.
  destruct (install_file_handler_without_logger s1 section p Hlog Hsec Hflevel
                                                Hname Hp Hopen) as (lf & Hfile).
  exists l, lf.
  unfold setup_logging.
  rewrite (bind_ret _ _ s tt s1 Hconsole), (bind_raise _ _ s1 _ _ Hfile).
  simpl. rewrite <- !app_assoc. repeat split; try reflexivity. exact Hlog.
Qed.
End Publishing.

(** * Whether the logging setup comes into effect *)

Section LoggingSetup.
Context {MM : Type} {manager : ModuleManager.Interface MM} (env : Env).



End LoggingSetup.

(** * Calls into the manager that fail *)

(** Proves a disjunction of equations one of which holds by computation. *)
Ltac one_of := solve [reflexivity | left; one_of | right; one_of].

Section FailedCalls.
Context {MM : Type} {manager : ModuleManager.Interface MM} (env : Env).

(** [shutdown] has no [try]: the application of [disable] or of [teardown]
    that raises is the last thing it does.  After a failed [disable],
    [teardown] is not applied; after either failure no reason is reported,
    and the exception leaves [shutdown]. *)
Theorem shutdown_stops_at_a_failing_phase (s : State MM) d phase e :
  trace (snd (shutdown s)) = trace s ++ d ->
  In (EvDoAll phase (Some e)) d ->
  fst (shutdown s) = Raise e
  /\ (exists pre, d = pre ++ [EvDoAll phase (Some e)]
                  /\ forallb (fun ev => negb (call_raised ev)) pre = true)
  /\ forallb (fun ev => negb (is_reason_line ev)) d = true
  /\ (phase = "disable"%string ->
      forallb (fun ev => match ev with
                         | EvDoAll p _ => negb (String.eqb p "teardown")
                         | _ => true
                         end) d = true).
Proof.
  unfold shutdown, call_do_all, module_attr, dc_log, bind, modify, check, ret, raise.
  exec.
  all: split_events.
  all: intros Hin; in_cases Hin.
  all: injection Hin as <- <-.
  all: split; [reflexivity|].
  all: split; [first [ eexists [_; _; _]; split; reflexivity
                     | eexists [_; _]; split; reflexivity ]|].
  all: split; [reflexivity|].
  all: intros Hphase; first [reflexivity | discriminate Hphase].
Qed.

(** [operate] once the flag has been read. *)
Lemma operate_unfold (s : State MM) section :
  doorlockd_section (dc_config s) = Some section ->
  operate s
  = (if negb (truthy (match dict_get section "enable_modules" with
                      | Some v => v
                      | None => VBool true
                      end))
     then dc_log WARNING "Modules are disabled in configuration"
     else bind initialize_modules
               (fun ok : bool => if ok then main_loop else ret tt)) s.
Proof.
  intros Hsec. unfold operate. unfold bind at 1.
  rewrite (section_lookup s section "enable_modules" (VBool true) Hsec).
  reflexivity.
Qed.

Lemma modules_emit_no_warning :
  emits (fun ev => negb (is_log_at WARNING ev))
        (bind (initialize_modules (MM := MM))
              (fun ok : bool => if ok then main_loop else ret tt)).
Proof. unfold initialize_modules, main_loop. emits_auto. Qed.

Lemma operate_cases (s : State MM) :
  (exists e0, operate s = (Raise e0, s))
  \/ operate s = dc_log WARNING "Modules are disabled in configuration" s
  \/ operate s = bind initialize_modules
                      (fun ok : bool => if ok then main_loop else ret tt) s.
Proof.
  destruct (doorlockd_option_pure "enable_modules" (VBool true) s) as [r0 Hr0].
  assert (Hop : operate s =
                match r0 with
                | Ret v =>
                    (if negb (truthy v)
                     then dc_log WARNING "Modules are disabled in configuration"
                     else bind initialize_modules
                               (fun ok : bool => if ok then main_loop else ret tt)) s
                | Raise e0 => (Raise e0, s)
                end).
  { unfold operate. unfold bind at 1. rewrite Hr0. destruct r0; reflexivity. }
  rewrite Hop.
  destruct r0 as [v|e0]; [|left; exists e0; reflexivity].
  destruct (negb (truthy v)); [right; left|right; right]; reflexivity.
Qed.

(** With a manager, the first thing [initialize_modules] does is the call
    of [load_all] on the table [module] of the configuration. *)
Lemma initialize_modules_loads_first (s : State MM) m :
  dc_module s = Some m ->
  exists rest,
    trace (snd (initialize_modules s))
    = trace s
      ++ EvLoadAll (snd (ModuleManager.load_all
                           (match dict_get (dc_config s) "module" with
                            | Some v => v
                            | None => VTable []
                            end) m))
      :: rest.
Proof.
  intros Hmod.
  unfold initialize_modules, call_load_all, call_do_all, dc_log, try_except,
    bind, gets, modify, check, ret, raise.
  simpl. rewrite Hmod.
  destruct (ModuleManager.load_all _ m) as [m1 r1].
  exec; rewrite <- ?app_assoc; simpl; eexists; reflexivity.
Qed.

(** The flag [doorlockd.enable_modules] is read by its truth value: the
    modules are skipped exactly when the option is set to a value that is
    false for Python ([false], [0], an empty string, an empty list), and then
    [operate] does nothing but log the warning.  An absent option, and
    every other value, starts the modules: [operate] is then
    [initialize_modules] followed, when it returned [True], by [main_loop],
    and with a manager its first event is the call of [load_all]. *)
Theorem modules_are_skipped_exactly_when_the_flag_is_false
  (s : State MM) (section : dict) (d : list Event) :
  dc_logger s = Some RootLogger ->
  doorlockd_section (dc_config s) = Some section ->
  trace (snd (operate s)) = trace s ++ d ->
  ((exists v, dict_get section "enable_modules" = Some v /\ truthy v = false)
   -> operate s = (Ret tt, record (EvLog WARNING "Modules are disabled in configuration") s))
  /\ (In (EvLog WARNING "Modules are disabled in configuration") d
      -> exists v, dict_get section "enable_modules" = Some v /\ truthy v = false)
  /\ (dict_get section "enable_modules" = None
      \/ (exists v, dict_get section "enable_modules" = Some v /\ truthy v = true)
      -> operate s
         = bind initialize_modules (fun ok : bool => if ok then main_loop else ret tt) s
         /\ forall m, dc_module s = Some m ->
              exists rest,
                d = EvLoadAll (snd (ModuleManager.load_all
                                      (match dict_get (dc_config s) "module" with
                                       | Some v => v
                                       | None => VTable []
                                       end) m))
                    :: rest).
Proof.
  intros Hlog Hsec. rewrite (operate_unfold s section Hsec). intros H.
  split; [|split].
  - intros (v & -> & ->). simpl. apply dc_log_with_logger. exact Hlog.
  - destruct (dict_get section "enable_modules") as [v|] eqn:Hv.
    + destruct (truthy v) eqn:Ht; [|intros _; exists v; split; [reflexivity|exact Ht]].
      simpl in H. intros Hin. exfalso.
      destruct (modules_emit_no_warning s) as (d' & Hd' & Hall).
      rewrite Hd' in H. apply app_inv_trace in H. subst d'.
      revert Hin. apply (forallb_not_In _ _ _ Hall). reflexivity.
    + simpl in H. intros Hin. exfalso.
      destruct (modules_emit_no_warning s) as (d' & Hd' & Hall).
      rewrite Hd' in H. apply app_inv_trace in H. subst d'.
      revert Hin. apply (forallb_not_In _ _ _ Hall). reflexivity.
  - intros Hflag.
    assert (Hon : truthy (match dict_get section "enable_modules" with
                          | Some v => v
                          | None => VBool true
                          end) = true).
    { destruct Hflag as [->|(v & -> & Ht)]; [reflexivity|exact Ht]. }
    rewrite Hon in H |- *. simpl in H |- *. split; [reflexivity|].
    intros m Hm.
    destruct (initialize_modules_loads_first s m Hm) as (rest & Hrest).
    revert H. unfold bind.
    destruct (initialize_modules s) as [[[|]|e] s2]; simpl in Hrest |- *.
    + destruct (main_loop_appends s2) as (dl & Hdl).
      rewrite Hdl, Hrest, <- app_assoc. simpl. intros H.
      apply app_inv_trace in H. subst d. eexists; reflexivity.
    + rewrite Hrest. intros H. apply app_inv_trace in H. subst d.
      eexists; reflexivity.
    + rewrite Hrest. intros H. apply app_inv_trace in H. subst d.
      eexists; reflexivity.
Qed.

Lemma shutdown_teardown_returned (s : State MM) d :
  dc_logger s = Some RootLogger ->
  trace (snd (shutdown s)) = trace s ++ d ->
  In (EvDoAll "teardown" None) d ->
  fst (shutdown s) = Ret tt.
Proof.
  intros Hlog.
  unfold shutdown, call_do_all, module_attr, dc_log, bind, modify, check, ret, raise.
  exec_with Hlog.
  all: split_events.
  all: intros Hin; in_cases Hin.
  all: reflexivity.
Qed.

Lemma operate_loop_caught (s : State MM) d e :
  dc_logger s = Some RootLogger ->
  trace (snd (operate s)) = trace s ++ d ->
  In (EvMainLoop (Some e)) d ->
  is_KeyboardInterrupt e = true \/ is_Exception e = true ->
  fst (operate s) = Ret tt.
Proof.
  intros Hlog.
  destruct (operate_cases s) as [(e0 & ->)|[->| ->]].
  - simpl. intros Hd.
    rewrite <- (app_nil_r (trace s)) in Hd at 1. apply app_inv_trace in Hd. subst d.
    contradiction.
  - rewrite (dc_log_with_logger _ _ s Hlog). simpl.
    intros Hd. apply app_inv_trace in Hd. subst d. intros Hin. in_cases Hin.
  - unfold bind.
    destruct (initialize_modules_appends s) as (di & Hdi).
    pose proof (initialize_modules_spec s di Hlog Hdi) as (Hlog2 & Hquiet & Hok & _).
    destruct (initialize_modules s) as [ri s2]. simpl in *.
    destruct ri as [[|]|e1].
    + specialize (Hok eq_refl). subst di.
      destruct (main_loop_appends s2) as (dl & Hdl).
      pose proof (main_loop_spec s2 dl Hlog2 Hdl) as (_ & _ & _ & _ & Hloop).
      rewrite Hdl, Hdi, <- app_assoc. intros Hd. apply app_inv_trace in Hd. subst d.
      intros Hin Hclass. in_cases Hin.
      destruct (Hloop e Hin) as (Hki & Hexc & _).
      destruct Hclass as [Hc|Hc]; [apply Hki|apply Hexc]; exact Hc.
    + simpl. rewrite Hdi. intros Hd. apply app_inv_trace in Hd. subst d.
      intros Hin. exfalso. revert Hin.
      apply (forallb_not_In quiet_event); [exact Hquiet|reflexivity].
    + simpl. rewrite Hdi. intros Hd. apply app_inv_trace in Hd. subst d.
      intros Hin. exfalso. revert Hin.
      apply (forallb_not_In quiet_event); [exact Hquiet|reflexivity].
Qed.

(** A failure of the operational loop is not reported to the caller: when
    the loop raises [KeyboardInterrupt] or an [Exception], and the shutdown
    that follows gets as far as a returning [teardown], [run] returns
    normally and the process ends with status 0. *)
Theorem a_failed_loop_still_ends_with_status_0 (s : State MM) d e :
  trace (snd (run env s)) = trace s ++ d ->
  In (EvMainLoop (Some e)) d ->
  is_KeyboardInterrupt e = true \/ is_Exception e = true ->
  In (EvDoAll "teardown" None) d ->
  fst (run env s) = Ret tt
  /\ exit_status (fst (run env s)) = 0.
Proof.
  intros Hd Hin Hclass Htear.
  assert (Hret : fst (run env s) = Ret tt); [|rewrite Hret; split; reflexivity].
  destruct (run_split env s d Hd)
    as [Hall|(s1 & d0 & dr & Hrun & Hlog & Hall0 & Hdr & ->)].
  { exfalso. revert Hin.
    apply (main_loop_raised_forward unstarted_event); [exact Hall|].
    apply unstarted_event_not_forward. }
  rewrite Hrun. clear Hrun Hd.
  apply in_app_or in Hin. destruct Hin as [Habs|Hin].
  { exfalso. revert Habs.
    apply (main_loop_raised_forward startup_event); [exact Hall0|].
    apply startup_event_not_forward. }
  apply in_app_or in Htear. destruct Htear as [Habs|Htear].
  { exfalso. revert Habs. apply (forallb_not_In startup_event); [exact Hall0|reflexivity]. }
  destruct (run_modules_trace s1 dr Hlog Hdr) as (dop & dsh & Hdop & Hallsh & Hcases).
  assert (Hin_op : In (EvMainLoop (Some e)) dop).
  { destruct Hcases as [(_ & -> & _)|(e' & _ & _ & ->)];
      apply in_app_or in Hin;
      destruct Hin as [H|H]; try exact H; exfalso; simpl in H;
      repeat match type of H with
             | _ \/ _ => destruct H as [H|H]
             end;
      try discriminate H;
      revert H; apply (forallb_not_In shutdown_event); try exact Hallsh; reflexivity. }
  pose proof (operate_loop_caught s1 dop e Hlog Hdop Hin_op Hclass) as Hop.
  pose proof (operate_spec s1 dop Hlog Hdop) as (Hlog2 & _).
  destruct (operate_emits s1) as (dop' & Hdop' & Hallop).
  rewrite Hdop in Hdop'. apply app_inv_trace in Hdop'. subst dop'.
  clear Hcases.
  revert Hdr. unfold run_modules, try_finally, try_except.
  destruct (operate s1) as [rop s2]. simpl in Hop, Hdop, Hlog2. subst rop.
  destruct (shutdown_appends s2) as (dsh0 & Hdsh0).
  pose proof (shutdown_teardown_returned s2 dsh0 Hlog2 Hdsh0) as Hsh.
  destruct (shutdown s2) as [[u|e'] s3]; simpl in *; [reflexivity|].
  intros Hdr. rewrite Hdsh0, Hdop, <- app_assoc in Hdr.
  apply app_inv_trace in Hdr. subst dr.
  apply in_app_or in Htear. destruct Htear as [Habs|Htear].
  - exfalso. revert Habs. apply (forallb_not_In operate_event); [exact Hallop|reflexivity].
  - discriminate (Hsh Htear).
Qed.
Lemma initialize_modules_uncaught (s : State MM) d e :
  dc_logger s = Some RootLogger ->
  trace (snd (initialize_modules s)) = trace s ++ d ->
  initialization_raised e d ->
  is_Exception e = false ->
  fst (initialize_modules s) = Raise e
  /\ forallb (fun ev => negb (is_main_loop_call ev) && negb (is_log ev)) d = true
  /\ exists m, dc_module (snd (initialize_modules s)) = Some m.
Proof.
  intros Hlog.
  unfold initialize_modules, call_load_all, call_do_all, dc_log, try_except,
    bind, gets, modify, check, ret, raise.
  exec_with Hlog.
  all: split_events.
  all: intros [Hin|[Hin|Hin]]; in_cases Hin.
  all: try (injection Hin as <-).
  all: intros Hexc; try congruence.
  all: split; [reflexivity|]; split; [reflexivity|eexists; reflexivity].
Qed.

Lemma operate_uncaught (s : State MM) d e :
  dc_logger s = Some RootLogger ->
  trace (snd (operate s)) = trace s ++ d ->
  initialization_raised e d ->
  is_Exception e = false ->
  fst (operate s) = Raise e
  /\ forallb (fun ev => negb (is_main_loop_call ev) && negb (is_log ev)) d = true
  /\ exists m, dc_module (snd (operate s)) = Some m.
Proof.
  intros Hlog.
  destruct (operate_cases s) as [(e0 & ->)|[->| ->]].
  - simpl. intros Hd.
    rewrite <- (app_nil_r (trace s)) in Hd at 1. apply app_inv_trace in Hd. subst d.
    intros [Hin|[Hin|Hin]]; in_cases Hin.
  - rewrite (dc_log_with_logger _ _ s Hlog). simpl.
    intros Hd. apply app_inv_trace in Hd. subst d.
    intros [Hin|[Hin|Hin]]; in_cases Hin.
  - unfold bind.
    destruct (initialize_modules_appends s) as (di & Hdi).
    pose proof (initialize_modules_spec s di Hlog Hdi) as (Hlog2 & _ & Hok & _).
    pose proof (initialize_modules_uncaught s di e Hlog Hdi) as Hun.
    destruct (initialize_modules s) as [ri s2]. simpl in *.
    destruct ri as [[|]|e1].
    + specialize (Hok eq_refl). subst di.
      destruct (main_loop_appends s2) as (dl & Hdl).
      pose proof (main_loop_spec s2 dl Hlog2 Hdl) as (_ & _ & Hnone & _).
      rewrite Hdl, Hdi, <- app_assoc. intros Hd. apply app_inv_trace in Hd. subst d.
      intros Hin. exfalso.
      apply initialization_raised_app in Hin. destruct Hin as [Hin|Hin].
      * destruct Hin as [Hin|[Hin|Hin]]; in_cases Hin.
      * exact (Hnone e Hin).
    + simpl. rewrite Hdi. intros Hd. apply app_inv_trace in Hd. subst d.
      intros Hin Hexc. destruct (Hun Hin Hexc) as (Habs & _). discriminate Habs.
    + simpl. rewrite Hdi. intros Hd. apply app_inv_trace in Hd. subst d.
      intros Hin Hexc. destruct (Hun Hin Hexc) as ([= ->] & Hquiet & Hm).
      split; [reflexivity|]. split; assumption.
Qed.

(** An exception that is not an [Exception] ([KeyboardInterrupt],
    [SystemExit], [GeneratorExit]) and is raised while the modules are
    loaded, set up or enabled is caught by nothing: no error and no critical
    line is logged and the operational loop is not entered; [shutdown] runs
    in the [finally] clause, and when [disable] and [teardown] return the
    exception leaves [run]. *)
Theorem an_interrupted_initialization_is_not_swallowed
  (s : State MM) (d : list Event) (e : exn) :
  trace (snd (run env s)) = trace s ++ d ->
  initialization_raised e d ->
  is_Exception e = false ->
  exists d1 r d2,
    d = d1 ++ [EvShutdown;
               EvLog INFO "Initiating shutdown sequence...";
               EvDoAll "disable" r] ++ d2
    /\ forallb (fun ev => negb (is_main_loop_call ev)
                          && negb (is_log_at CRITICAL ev)
                          && negb (is_log_at ERROR ev)) d = true
    /\ (r = None ->
        exists r', hd_error d2 = Some (EvDoAll "teardown" r')
                   /\ (r' = None -> fst (run env s) = Raise e)).
Proof.
  intros Hd Hraised Hexc.
  destruct (run_split env s d Hd)
    as [Hall|(s1 & d0 & dr & Hrun & Hlog & Hall0 & Hdr & ->)].
  { exfalso. revert Hraised.
    apply (initialization_raised_forward unstarted_event); [exact Hall|].
    apply unstarted_event_not_forward. }
  apply initialization_raised_app in Hraised.
  destruct Hraised as [Habs|Hraised].
  { exfalso. revert Habs.
    apply (initialization_raised_forward startup_event); [exact Hall0|].
    apply startup_event_not_forward. }
  destruct (run_modules_trace s1 dr Hlog Hdr) as (dop & dsh & Hdop & Hallsh & Hcases).
  assert (Hin_op : initialization_raised e dop).
  { destruct Hcases as [(_ & -> & _)|(e' & _ & _ & ->)];
      apply initialization_raised_app in Hraised;
      destruct Hraised as [H|H]; try exact H; exfalso;
      destruct H as [H|[H|H]]; simpl in H;
      repeat match type of H with
             | _ \/ _ => destruct H as [H|H]
             end;
      try discriminate H;
      revert H; apply (forallb_not_In shutdown_event); try exact Hallsh; reflexivity. }
  destruct (operate_uncaught s1 dop e Hlog Hdop Hin_op Hexc) as (Hraise & Hquiet & (m & Hm)).
  destruct Hcases as [(_ & -> & Hmod)|(e' & Habs & Hexc' & _)];
    [|rewrite Hraise in Habs; injection Habs as <-; congruence].
  destruct (Hmod m Hm) as (r & d2 & -> & Hr).
  exists (d0 ++ dop), r, d2. split; [|split].
  - rewrite <- !app_assoc. reflexivity.
  - rewrite !forallb_app. simpl.
    assert (H0 : forallb (fun ev => negb (is_main_loop_call ev)
                                    && negb (is_log_at CRITICAL ev)
                                    && negb (is_log_at ERROR ev)) d0 = true).
    { eapply forallb_weaken; [|exact Hall0].
      intros ev; destruct ev; simpl; try discriminate; try reflexivity.
      intros H. exact H. }
    assert (H1 : forallb (fun ev => negb (is_main_loop_call ev)
                                    && negb (is_log_at CRITICAL ev)
                                    && negb (is_log_at ERROR ev)) dop = true).
    { eapply forallb_weaken; [|exact Hquiet].
      intros ev; destruct ev; simpl; try discriminate; reflexivity. }
    assert (H2 : forallb (fun ev => negb (is_main_loop_call ev)
                                    && negb (is_log_at CRITICAL ev)
                                    && negb (is_log_at ERROR ev)) d2 = true).
    { simpl in Hallsh.
      eapply forallb_weaken; [|exact Hallsh].
      intros ev; destruct ev; simpl; try discriminate; try reflexivity.
      intros H. exact H. }
    rewrite H0, H1, H2. reflexivity.
  - intros Hnone. destruct (Hr Hnone) as (r' & Hhd & Hfst).
    exists r'. split; [exact Hhd|].
    intros Hnone'. rewrite Hrun, (Hfst Hnone'). exact Hraise.
Qed.
Lemma quiet_after_failure_quiet later d :
  forallb (fun ev => negb (later ev)) d = true -> quiet_after_failure later d = true.
Proof.
  induction d as [|ev d IH]; simpl; [reflexivity|].
  intros H. apply andb_true_iff in H. destruct H as (_ & H).
  rewrite (IH H), H. destruct (call_raised ev); reflexivity.
Qed.

Lemma quiet_after_failure_app later d1 d2 :
  quiet_after_failure later d1 = true ->
  forallb (fun ev => negb (later ev)) d2 = true ->
  quiet_after_failure later (d1 ++ d2) = true.
Proof.
  intros H1 H2. induction d1 as [|ev d1 IH]; simpl in *.
  - apply quiet_after_failure_quiet. exact H2.
  - apply andb_true_iff in H1. destruct H1 as (Hev & H1).
    rewrite (IH H1), andb_true_r.
    destruct (call_raised ev); [|reflexivity].
    rewrite forallb_app, Hev, H2. reflexivity.
Qed.

Lemma quiet_after_failure_returned later d1 d2 :
  forallb (fun ev => negb (call_raised ev)) d1 = true ->
  quiet_after_failure later d2 = true ->
  quiet_after_failure later (d1 ++ d2) = true.
Proof.
  intros H1 H2. induction d1 as [|ev d1 IH]; simpl in *; [exact H2|].
  apply andb_true_iff in H1. destruct H1 as (Hev & H1).
  rewrite (IH H1). apply negb_true_iff in Hev. rewrite Hev. reflexivity.
Qed.

Lemma initialize_modules_quiet_after_failure (s : State MM) d :
  dc_logger s = Some RootLogger ->
  trace (snd (initialize_modules s)) = trace s ++ d ->
  quiet_after_failure is_forward_call d = true.
Proof.
  intros Hlog.
  unfold initialize_modules, call_load_all, call_do_all, dc_log, try_except,
    bind, gets, modify, check, ret, raise.
  exec_with Hlog.
  all: split_events.
  all: reflexivity.
Qed.

Lemma main_loop_quiet_after_failure (s : State MM) d :
  dc_logger s = Some RootLogger ->
  trace (snd (main_loop s)) = trace s ++ d ->
  quiet_after_failure is_forward_call d = true.
Proof.
  intros Hlog.
  unfold main_loop, call_main_loop, dc_log, try_except, bind, gets, modify,
    check, ret, raise.
  exec_with Hlog.
  all: split_events.
  all: reflexivity.
Qed.

Lemma operate_quiet_after_failure (s : State MM) d :
  dc_logger s = Some RootLogger ->
  trace (snd (operate s)) = trace s ++ d ->
  quiet_after_failure is_forward_call d = true.
Proof.
  intros Hlog.
  destruct (operate_cases s) as [(e0 & ->)|[->| ->]].
  - simpl. intros Hd.
    rewrite <- (app_nil_r (trace s)) in Hd at 1. apply app_inv_trace in Hd. subst d.
    reflexivity.
  - rewrite (dc_log_with_logger _ _ s Hlog). simpl.
    intros Hd. apply app_inv_trace in Hd. subst d. reflexivity.
  - unfold bind.
    destruct (initialize_modules_appends s) as (di & Hdi).
    pose proof (initialize_modules_spec s di Hlog Hdi) as (Hlog2 & _ & Hok & _).
    pose proof (initialize_modules_quiet_after_failure s di Hlog Hdi) as Hqi.
    destruct (initialize_modules s) as [ri s2]. simpl in *.
    destruct ri as [[|]|e1].
    + specialize (Hok eq_refl). subst di.
      destruct (main_loop_appends s2) as (dl & Hdl).
      pose proof (main_loop_quiet_after_failure s2 dl Hlog2 Hdl) as Hql.
      rewrite Hdl, Hdi, <- app_assoc. intros Hd. apply app_inv_trace in Hd. subst d.
      apply quiet_after_failure_returned; [reflexivity|exact Hql].
    + simpl. rewrite Hdi. intros Hd. apply app_inv_trace in Hd. subst d. exact Hqi.
    + simpl. rewrite Hdi. intros Hd. apply app_inv_trace in Hd. subst d. exact Hqi.
Qed.

(** In every run, a call into the manager that raised is the last forward
    call: after a failed [load_all] neither [setup] nor [enable] is applied,
    after a failed [setup] no [enable], and after any of them, or a failed
    [enable], the operational loop is not entered. *)
Theorem no_forward_call_follows_a_failed_call (s : State MM) (d : list Event) :
  trace (snd (run env s)) = trace s ++ d ->
  quiet_after_failure is_forward_call d = true.
Proof.
  intros Hd.
  destruct (run_split env s d Hd)
    as [Hall|(s1 & d0 & dr & Hrun & Hlog & Hall0 & Hdr & ->)].
  { apply quiet_after_failure_quiet.
    eapply forallb_weaken; [|exact Hall].
    intros ev Hev. rewrite (unstarted_event_not_forward ev Hev). reflexivity. }
  apply quiet_after_failure_returned.
  { eapply forallb_weaken; [|exact Hall0].
    intros ev; destruct ev; simpl; try discriminate; reflexivity. }
  destruct (run_modules_trace s1 dr Hlog Hdr) as (dop & dsh & Hdop & Hallsh & Hcases).
  pose proof (operate_quiet_after_failure s1 dop Hlog Hdop) as Hq.
  assert (Hsh : forallb (fun ev => negb (is_forward_call ev)) dsh = true).
  { eapply forallb_weaken; [|exact Hallsh].
    intros ev Hev. rewrite (shutdown_event_not_forward ev Hev). reflexivity. }
  destruct Hcases as [(_ & -> & _)|(e' & _ & _ & ->)];
    apply quiet_after_failure_app; try exact Hq; simpl; exact Hsh.
Qed.

(** [initialize_modules], entered with a logger, keeps its contract: it
    returns [True] exactly when [load_all], [setup] and [enable] have all
    returned, in this order; every [Exception] on the way, the missing
    manager included, is logged as an error and turned into [False]; and
    what it lets through is not an [Exception] and was raised by one of the
    three calls. *)
Theorem initialize_modules_reports_every_Exception_as_False (s : State MM) d :
  dc_logger s = Some RootLogger ->
  trace (snd (initialize_modules s)) = trace s ++ d ->
  (fst (initialize_modules s) = Ret true
   <-> d = [EvLoadAll None; EvDoAll "setup" None; EvDoAll "enable" None;
            EvLog INFO "All modules initialized successfully"])
  /\ (fst (initialize_modules s) = Ret false
      <-> exists pre msg, d = pre ++ [EvLog ERROR ("Failed to initialize modules: " ++ msg)%string])
  /\ (forall e, fst (initialize_modules s) = Raise e ->
                is_Exception e = false /\ initialization_raised e d)
  /\ (dc_module s = None ->
      initialize_modules s
      = (Ret false,
         record (EvLog ERROR ("Failed to initialize modules: "
                                ++ "'NoneType' object has no attribute 'load_all'")%string) s)).
Proof.
  intros Hlog.
  unfold initialize_modules, call_load_all, call_do_all, dc_log, try_except,
    bind, gets, modify, check, ret, raise.
  exec_with Hlog.
  all: split_events.
  all: split; [split; intros H; first [reflexivity | discriminate H]|].
  all: split; [split;
               [intros H; try discriminate H;
                first [ eexists [], _; reflexivity
                      | eexists [_], _; reflexivity
                      | eexists [_; _], _; reflexivity
                      | eexists [_; _; _], _; reflexivity ]
               |intros (pre & msg & H); try reflexivity;
                exfalso;
                repeat (destruct pre as [|? pre]; simpl in H; try discriminate H)]|].
  all: split; [intros e0 H; try discriminate H; injection H as <-;
               (split; [assumption|]); unfold initialization_raised; simpl; one_of|].
  all: intros Hm; first [reflexivity | discriminate Hm].
Qed.
Lemma initialize_modules_lets_through (s : State MM) d e :
  dc_logger s = Some RootLogger ->
  trace (snd (initialize_modules s)) = trace s ++ d ->
  fst (initialize_modules s) = Raise e ->
  is_Exception e = false /\ initialization_raised e d.
Proof.
  intros Hlog.
  unfold initialize_modules, call_load_all, call_do_all, dc_log, try_except,
    bind, gets, modify, check, ret, raise.
  exec_with Hlog.
  all: split_events.
  all: intros H; try discriminate H; injection H as <-.
  all: split; [assumption|]; unfold initialization_raised; simpl; one_of.
Qed.

Lemma after_load_keeps_config :
  keeps (dc_config (MM := MM))
        (setup_logging env ;;
         name_ver <- gets dc_app_name_ver ;;
         dc_log INFO (glyph_wrench ++ " " ++ name_ver ++ " starting up...") ;;
         setup_event_system env ;;
         setup_module_manager ;;
         setup_exception_handling ;;
         setup_signal_handlers env).
Proof.
  unfold setup_logging, install_console_handler, install_file_handler,
    new_file_handler, add_handler, set_overall_level, warn_deprecated,
    setup_event_system, setup_module_manager, setup_exception_handling,
    setup_signal_handlers, signal_signal.
  keeps_auto.
Qed.

(** A completed initialization sequence has read the table [doorlockd]
    already: the configuration it leaves has one. *)
Lemma startup_returns_section (s : State MM) u s1 :
  startup env s = (Ret u, s1) ->
  exists section, doorlockd_section (dc_config s1) = Some section.
Proof.
  unfold startup. intros H.
  apply bind_ret_inv in H. destruct H as (? & sa & _ & H).
  pose proof (after_load_keeps_config sa) as Hkeep.
  rewrite H in Hkeep. simpl in Hkeep. rewrite Hkeep.
  apply bind_ret_inv in H. destruct H as (? & sb & Hlogging & _).
  unfold setup_logging in Hlogging.
  apply bind_ret_inv in Hlogging. destruct Hlogging as (? & sc & Hconsole & _).
  apply (install_console_handler_section sa _ sc Hconsole).
Qed.

Lemma operate_raises_no_Exception (s : State MM) section e :
  dc_logger s = Some RootLogger ->
  doorlockd_section (dc_config s) = Some section ->
  fst (operate s) = Raise e ->
  is_Exception e = false.
Proof.
  intros Hlog Hsec. rewrite (operate_unfold s section Hsec).
  destruct (negb (truthy _)).
  { rewrite (dc_log_with_logger _ _ s Hlog). discriminate. }
  unfold bind.
  destruct (initialize_modules_appends s) as (di & Hdi).
  pose proof (initialize_modules_spec s di Hlog Hdi) as (Hlog2 & _).
  pose proof (initialize_modules_lets_through s di) as Hraise.
  destruct (initialize_modules s) as [ri s2]. simpl in *.
  destruct ri as [[|]|e1].
  - destruct (main_loop_appends s2) as (dl & Hdl).
    pose proof (main_loop_spec s2 dl Hlog2 Hdl) as (_ & _ & _ & Hloop & _).
    intros H. apply (Hloop e H).
  - discriminate.
  - simpl. intros [= <-]. apply (Hraise e1 Hlog Hdi eq_refl).
Qed.

(** The [except] clause of [run] is for the initialization sequence only.
    Once that sequence has completed, nothing is fatal any more: whatever
    the modules do, the clause does not run (no critical line is logged),
    [shutdown] is entered, and an exception that leaves [run] is not an
    [Exception] unless [shutdown] raised it. *)
Theorem nothing_is_fatal_after_the_initialization
  (s : State MM) u s1 (dr : list Event) :
  startup env s = (Ret u, s1) ->
  trace (snd (run env s)) = trace s1 ++ dr ->
  forallb (fun ev => negb (is_log_at CRITICAL ev)) dr = true
  /\ In EvShutdown dr
  /\ (forall e, fst (run env s) = Raise e ->
                is_Exception e = false \/ fst (shutdown (snd (operate s1))) = Raise e).
Proof.
  intros Hst.
  pose proof (startup_returns_logger env s u s1 Hst) as Hlog.
  destruct (startup_returns_section s u s1 Hst) as (section & Hsec).
  rewrite (run_after_startup env s u s1 Hst). intros Hdr.
  destruct (run_modules_trace s1 dr Hlog Hdr) as (dop & dsh & Hdop & Hallsh & Hcases).
  pose proof (operate_spec s1 dop Hlog Hdop) as (_ & Hnocrit & _).
  pose proof (operate_raises_no_Exception s1 section) as Hop.
  destruct Hcases as [(_ & -> & _)|(e' & Hraise & Hexc & _)];
    [|rewrite (Hop e' Hlog Hsec Hraise) in Hexc; discriminate Hexc].
  split; [|split].
  - rewrite forallb_app. simpl.
    assert (H1 : forallb (fun ev => negb (is_log_at CRITICAL ev)) dop = true).
    { eapply forallb_weaken; [|exact Hnocrit].
      intros ev H. apply andb_true_iff in H. apply H. }
    assert (H2 : forallb (fun ev => negb (is_log_at CRITICAL ev)) dsh = true).
    { eapply forallb_weaken; [|exact Hallsh].
      intros ev; destruct ev; simpl; try discriminate; try reflexivity.
      intros H. apply andb_true_iff in H. apply H. }
    rewrite H1, H2. reflexivity.
  - apply in_or_app. right. left. reflexivity.
  - intros e. unfold run_modules, try_finally, try_except.
    destruct (operate s1) as [[[]|e1] s2]; simpl in *.
    + destruct (shutdown s2) as [[[]|e2] s3]; simpl; [discriminate|].
      intros [= <-]. right. reflexivity.
    + unfold fatal.
      destruct (is_Exception e1) eqn:Hexc.
      * rewrite (Hop e1 Hlog Hsec eq_refl) in Hexc. discriminate Hexc.
      * destruct (shutdown s2) as [[[]|e2] s3]; simpl;
          intros [= <-]; [left; exact Hexc|right; reflexivity].
Qed.
End FailedCalls.

(** * Errors while the modules are initialized, and in the operational loop *)

Lemma prefix_append (p x : string) : String.prefix p (p ++ x) = true.
Proof.
  induction p as [|a p IH]; simpl.
  - destruct x; reflexivity.
  - destruct (ascii_dec a a) as [_|Hne]; [exact IH|contradiction].
Qed.

Section ModuleFailures.
Context {MM : Type} {manager : ModuleManager.Interface MM} (env : Env).

Lemma operate_loop_uncaught (s : State MM) d e :
  dc_logger s = Some RootLogger ->
  trace (snd (operate s)) = trace s ++ d ->
  In (EvMainLoop (Some e)) d ->
  is_KeyboardInterrupt e = false ->
  is_Exception e = false ->
  fst (operate s) = Raise e.
Proof.
  intros Hlog.
  destruct (operate_cases s) as [(e0 & ->)|[->| ->]].
  - simpl. intros Hd.
    rewrite <- (app_nil_r (trace s)) in Hd at 1. apply app_inv_trace in Hd. subst d.
    contradiction.
  - rewrite (dc_log_with_logger _ _ s Hlog). simpl.
    intros Hd. apply app_inv_trace in Hd. subst d. intros Hin. in_cases Hin.
  - unfold bind.
    destruct (initialize_modules_appends s) as (di & Hdi).
    pose proof (initialize_modules_spec s di Hlog Hdi) as (Hlog2 & Hquiet & Hok & _).
    destruct (initialize_modules s) as [ri s2]. simpl in *.
    destruct ri as [[|]|e1].
    + specialize (Hok eq_refl). subst di.
      destruct (main_loop_appends s2) as (dl & Hdl).
      pose proof (main_loop_spec s2 dl Hlog2 Hdl) as (_ & _ & _ & _ & Hloop).
      rewrite Hdl, Hdi, <- app_assoc. intros Hd. apply app_inv_trace in Hd. subst d.
      intros Hin Hki Hexc. in_cases Hin.
      destruct (Hloop e Hin) as (_ & _ & Hother). apply Hother; assumption.
    + simpl. rewrite Hdi. intros Hd. apply app_inv_trace in Hd. subst d.
      intros Hin. exfalso. revert Hin.
      apply (forallb_not_In quiet_event); [exact Hquiet|reflexivity].
    + simpl. rewrite Hdi. intros Hd. apply app_inv_trace in Hd. subst d.
      intros Hin. exfalso. revert Hin.
      apply (forallb_not_In quiet_event); [exact Hquiet|reflexivity].
Qed.

(** [shutdown] entered with a logger and a manager: a phase application
    raises, or the sequence is complete and ends with the line that reports
    the reason. *)
Lemma shutdown_with_manager (s : State MM) m d :
  dc_logger s = Some RootLogger ->
  dc_module s = Some m ->
  trace (snd (shutdown s)) = trace s ++ d ->
  (exists e, In (EvDoAll "disable" (Some e)) d)
  \/ (exists e, In (EvDoAll "teardown" (Some e)) d)
  \/ (exists final,
        d = [EvShutdown; EvLog INFO "Initiating shutdown sequence...";
             EvDoAll "disable" None; EvDoAll "teardown" None; final]
        /\ is_reason_line final = true
        /\ fst (shutdown s) = Ret tt).
Proof.
  intros Hlog Hmod.
  unfold shutdown, call_do_all, module_attr, dc_log, bind, modify, check, ret, raise.
  simpl. rewrite Hlog. simpl. rewrite Hmod.
  exec_with Hlog.
  all: split_events.
  all: first [ left; eexists; one_of
             | right; left; eexists; one_of
             | right; right; eexists; split; [reflexivity|]; split; [|reflexivity] ].
  all: unfold is_reason_line; rewrite ?prefix_append; reflexivity.
Qed.

(** The run after a completed initialization, when [operate] returns or
    raises past the [except] clause: the events of [run_modules] are those
    of [operate] and then those of one call of [shutdown], whose outcome
    decides between the outcome of [operate] and its own exception. *)
Lemma run_modules_uncaught (s1 : State MM) rop s2 :
  operate s1 = (rop, s2) ->
  (forall e, rop = Raise e -> is_Exception e = false) ->
  trace (snd (run_modules s1)) = trace (snd (shutdown s2))
  /\ (fst (shutdown s2) = Ret tt -> fst (run_modules s1) = rop).
Proof.
  intros Hop Hpast. unfold run_modules, try_finally, try_except. rewrite Hop.
  destruct rop as [[]|e].
  - destruct (shutdown s2) as [[[]|e2] s3]; simpl; split;
      first [reflexivity | discriminate].
  - unfold fatal. rewrite (Hpast e eq_refl).
    destruct (shutdown s2) as [[[]|e2] s3]; simpl; split;
      first [reflexivity | discriminate].
Qed.

(** C10, as the code has it. [main_loop], entered with a logger, catches a
    [KeyboardInterrupt] and every [Exception] that the operational loop
    raises, logs the first at info level and the second at error level, and
    returns normally; every other exception of the loop ([SystemExit],
    [GeneratorExit]) leaves [main_loop] unchanged, and nothing else does.
    Inside [run] such an exception passes the [except] clause as well:
    whatever the loop raises, nothing is logged as critical, and when the
    shutdown that follows completes, the exception that [main_loop] let
    through leaves [run]. *)
Theorem C10_loop_failure_never_reaches_the_fatal_branch
  (s : State MM) (d : list Event) (e : exn) :
  trace (snd (run env s)) = trace s ++ d ->
  In (EvMainLoop (Some e)) d ->
  forallb (fun ev => negb (is_log_at CRITICAL ev)) d = true
  /\ (is_KeyboardInterrupt e = true ->
      In (EvLog INFO "Main loop interrupted by user") d)
  /\ (is_Exception e = true ->
      In (EvLog ERROR ("Main loop error: " ++ exn_str e)%string) d)
  /\ (is_KeyboardInterrupt e = false -> is_Exception e = false ->
      In (EvDoAll "teardown" None) d -> fst (run env s) = Raise e)
  /\ (forall (s' : State MM) d',
        dc_logger s' = Some RootLogger ->
        trace (snd (main_loop s')) = trace s' ++ d' ->
        (forall e', In (EvMainLoop (Some e')) d' ->
                    is_KeyboardInterrupt e' = true \/ is_Exception e' = true ->
                    fst (main_loop s') = Ret tt)
        /\ (forall e', In (EvMainLoop (Some e')) d' ->
                       is_KeyboardInterrupt e' = false ->
                       is_Exception e' = false ->
                       fst (main_loop s') = Raise e')
        /\ (forall e', fst (main_loop s') = Raise e' ->
                       is_Exception e' = false
                       /\ is_KeyboardInterrupt e' = false
                       /\ In (EvMainLoop (Some e')) d')).
Proof.
  intros Hd Hin.
  assert (Hfun : forall (s' : State MM) d',
             dc_logger s' = Some RootLogger ->
             trace (snd (main_loop s')) = trace s' ++ d' ->
             (forall e', In (EvMainLoop (Some e')) d' ->
                         is_KeyboardInterrupt e' = true \/ is_Exception e' = true ->
                         fst (main_loop s') = Ret tt)
             /\ (forall e', In (EvMainLoop (Some e')) d' ->
                            is_KeyboardInterrupt e' = false ->
                            is_Exception e' = false ->
                            fst (main_loop s') = Raise e')
             /\ (forall e', fst (main_loop s') = Raise e' ->
                            is_Exception e' = false
                            /\ is_KeyboardInterrupt e' = false
                            /\ In (EvMainLoop (Some e')) d')).
  { intros s' d' Hlog' Hd'.
    destruct (main_loop_spec s' d' Hlog' Hd') as (_ & _ & _ & Hraise & Hloop).
    split; [|split; [|exact Hraise]].
    - intros e' Hin' [Hki|Hex]; destruct (Hloop e' Hin') as (H1 & H2 & _);
        [apply H1; exact Hki|apply H2; exact Hex].
    - intros e' Hin' Hki Hex. destruct (Hloop e' Hin') as (_ & _ & H3).
      apply H3; assumption. }
  destruct (run_split env s d Hd)
    as [Hall|(s1 & d0 & dr & Hrun & Hlog & Hall0 & Hdr & ->)].
  { exfalso. revert Hin.
    apply (main_loop_raised_forward unstarted_event); [exact Hall|].
    apply unstarted_event_not_forward. }
  apply in_app_or in Hin. destruct Hin as [Habs|Hin].
  { exfalso. revert Habs.
    apply (main_loop_raised_forward startup_event); [exact Hall0|].
    apply startup_event_not_forward. }
  destruct (run_modules_trace s1 dr Hlog Hdr) as (dop & dsh & Hdop & Hallsh & Hcases).
  pose proof (operate_spec s1 dop Hlog Hdop) as (Hlog2 & Hnocrit & _ & Hloop).
  assert (Hin_op : In (EvMainLoop (Some e)) dop).
  { destruct Hcases as [(_ & -> & _)|(e' & _ & _ & ->)];
      apply in_app_or in Hin;
      destruct Hin as [H|H]; try exact H; exfalso; simpl in H;
      repeat match type of H with
             | _ \/ _ => destruct H as [H|H]
             end;
      try discriminate H;
      revert H; apply (forallb_not_In shutdown_event); try exact Hallsh; reflexivity. }
  destruct (Hloop e Hin_op) as (Hres & Hki & Hex).
  assert (Hdr_eq : dr = dop ++ EvShutdown
                           :: EvLog INFO "Initiating shutdown sequence..." :: dsh).
  { destruct Hcases as [(_ & -> & _)|(e' & Hraise & Hexc' & _)]; [reflexivity|].
    exfalso. destruct Hres as [Hret|(Hraise' & Hnot)].
    - rewrite Hret in Hraise. discriminate Hraise.
    - rewrite Hraise' in Hraise. injection Hraise as <-.
      rewrite Hnot in Hexc'. discriminate Hexc'. }
  subst dr. clear Hcases.
  split; [|split; [|split; [|split; [|exact Hfun]]]].
  - rewrite !forallb_app. simpl.
    assert (H0 : forallb (fun ev => negb (is_log_at CRITICAL ev)) d0 = true).
    { eapply forallb_weaken; [|exact Hall0].
      intros ev; destruct ev; simpl; try discriminate; try reflexivity.
      intros H. apply andb_true_iff in H. apply H. }
    assert (H1 : forallb (fun ev => negb (is_log_at CRITICAL ev)) dop = true).
    { eapply forallb_weaken; [|exact Hnocrit].
      intros ev H. apply andb_true_iff in H. apply H. }
    assert (H2 : forallb (fun ev => negb (is_log_at CRITICAL ev)) dsh = true).
    { eapply forallb_weaken; [|exact Hallsh].
      intros ev; destruct ev; simpl; try discriminate; try reflexivity.
      intros H. apply andb_true_iff in H. apply H. }
    rewrite H0, H1, H2. reflexivity.
  - intros Hc. apply in_or_app. right. apply in_or_app. left. apply Hki. exact Hc.
  - intros Hc. apply in_or_app. right. apply in_or_app. left. apply Hex. exact Hc.
  - intros Hnki Hnexc Htear.
    pose proof (operate_loop_uncaught s1 dop e Hlog Hdop Hin_op Hnki Hnexc) as Hraise.
    destruct (operate_emits s1) as (dop' & Hdop' & Hallop).
    rewrite Hdop in Hdop'. apply app_inv_trace in Hdop'. subst dop'.
    destruct (operate s1) as [rop s2] eqn:Hop. simpl in Hraise, Hdop, Hlog2. subst rop.
    destruct (run_modules_uncaught s1 (Raise e) s2 Hop) as (Htrace & Hout).
    { intros e' [= <-]. exact Hnexc. }
    destruct (shutdown_appends s2) as (dsh0 & Hdsh0).
    rewrite Hrun, Hout; [reflexivity|].
    apply (shutdown_teardown_returned s2 dsh0 Hlog2 Hdsh0).
    rewrite Htrace, Hdsh0, Hdop, <- app_assoc in Hdr.
    apply app_inv_trace in Hdr. apply app_inv_head in Hdr. rewrite Hdr.
    apply in_app_or in Htear. destruct Htear as [Habs|Htear].
    { exfalso. revert Habs.
      apply (forallb_not_In startup_event); [exact Hall0|reflexivity]. }
    apply in_app_or in Htear. destruct Htear as [Habs|Htear]; [|exact Htear].
    exfalso. revert Habs.
    apply (forallb_not_In operate_event); [exact Hallop|reflexivity].
Qed.
(** C4. When [load_all], or the application of [setup] or of [enable],
    raises an error (an [Exception]) [e], the error is logged, the run goes
    from that line straight into [shutdown], the operational loop is never
    entered and the process is not aborted by the error: the [except] clause
    of [run] does not run (nothing is logged as critical).  [shutdown]
    applies [disable], and [teardown] when [disable] has returned.  When no
    application of [disable] or [teardown] raises, as the manager of the
    specification guarantees, both phases are applied, the reason of the
    shutdown is reported, [run] returns normally and the exit status is 0. *)
Theorem C4_initialization_error_goes_straight_to_shutdown
  (s : State MM) (d : list Event) (e : exn) :
  trace (snd (run env s)) = trace s ++ d ->
  initialization_raised e d ->
  is_Exception e = true ->
  exists d1 r d2,
    d = d1 ++ [EvLog ERROR ("Failed to initialize modules: " ++ exn_str e)%string;
               EvShutdown;
               EvLog INFO "Initiating shutdown sequence...";
               EvDoAll "disable" r] ++ d2
    /\ forallb (fun ev => negb (is_main_loop_call ev)
                          && negb (is_log_at CRITICAL ev)) d = true
    /\ (r = None ->
        exists r', hd_error d2 = Some (EvDoAll "teardown" r')
                   /\ (r' = None -> fst (run env s) = Ret tt))
    /\ ((forall e', ~ In (EvDoAll "disable" (Some e')) d
                    /\ ~ In (EvDoAll "teardown" (Some e')) d) ->
        exists final,
          r = None
          /\ d2 = [EvDoAll "teardown" None; final]
          /\ is_reason_line final = true
          /\ fst (run env s) = Ret tt
          /\ exit_status (fst (run env s)) = 0).
Proof.
  intros Hd Hraised Hexc.
  destruct (run_split env s d Hd)
    as [Hall|(s1 & d0 & dr & Hrun & Hlog & Hall0 & Hdr & ->)].
  { exfalso. revert Hraised.
    apply (initialization_raised_forward unstarted_event); [exact Hall|].
    apply unstarted_event_not_forward. }
  apply initialization_raised_app in Hraised.
  destruct Hraised as [Habs|Hraised].
  { exfalso. revert Habs.
    apply (initialization_raised_forward startup_event); [exact Hall0|].
    apply startup_event_not_forward. }
  destruct (run_modules_trace s1 dr Hlog Hdr) as (dop & dsh & Hdop & Hallsh & Hcases).
  pose proof (operate_spec s1 dop Hlog Hdop) as (Hlog2 & Hnocrit & Hinit & _).
  assert (Hin_op : initialization_raised e dop).
  { destruct Hcases as [(_ & -> & _)|(e' & _ & _ & ->)];
      apply initialization_raised_app in Hraised;
      destruct Hraised as [H|H]; try exact H; exfalso;
      destruct H as [H|[H|H]]; simpl in H;
      repeat match type of H with
             | _ \/ _ => destruct H as [H|H]
             end;
      try discriminate H;
      revert H; apply (forallb_not_In shutdown_event); try exact Hallsh; reflexivity. }
  destruct (Hinit e Hin_op Hexc) as (Hret & (pre & Hpre) & Hnoloop & (m & Hm)).
  destruct Hcases as [(_ & -> & Hmod)|(e' & Habs & _)];
    [|rewrite Hret in Habs; discriminate Habs].
  destruct (Hmod m Hm) as (r & d2 & -> & Hr).
  exists (d0 ++ pre), r, d2. split; [|split; [|split]].
  - rewrite Hpre, <- !app_assoc. reflexivity.
  - rewrite !forallb_app. simpl.
    assert (H0 : forallb (fun ev => negb (is_main_loop_call ev)
                                    && negb (is_log_at CRITICAL ev)) d0 = true).
    { eapply forallb_weaken; [|exact Hall0].
      intros ev; destruct ev; simpl; try discriminate; try reflexivity.
      intros H. apply andb_true_iff in H. apply H. }
    assert (H1 : forallb (fun ev => negb (is_main_loop_call ev)
                                    && negb (is_log_at CRITICAL ev)) dop = true).
    { apply forallb_forall. intros ev Hev.
      rewrite forallb_forall in Hnoloop, Hnocrit.
      specialize (Hnoloop _ Hev). specialize (Hnocrit _ Hev).
      apply andb_true_iff in Hnocrit. destruct Hnocrit as (Hc & _).
      rewrite Hnoloop, Hc. reflexivity. }
    assert (H2 : forallb (fun ev => negb (is_main_loop_call ev)
                                    && negb (is_log_at CRITICAL ev)) d2 = true).
    { simpl in Hallsh.
      eapply forallb_weaken; [|exact Hallsh].
      intros ev; destruct ev; simpl; try discriminate; try reflexivity.
      intros H. apply andb_true_iff in H. apply H. }
    rewrite H0, H1, H2. reflexivity.
  - intros Hnone. destruct (Hr Hnone) as (r' & Hhd & Hfst).
    exists r'. split; [exact Hhd|].
    intros Hnone'. rewrite Hrun, (Hfst Hnone'). exact Hret.
  - intros Hquiet.
    destruct (operate s1) as [rop s2] eqn:Hop. simpl in Hret, Hdop, Hlog2, Hm. subst rop.
    destruct (run_modules_uncaught s1 (Ret tt) s2 Hop) as (Htrace & Hout);
      [discriminate|].
    destruct (shutdown_appends s2) as (dsh0 & Hdsh0).
    assert (Hsame : dsh0 = EvShutdown :: EvLog INFO "Initiating shutdown sequence..."
                             :: EvDoAll "disable" r :: d2).
    { rewrite Htrace, Hdsh0, Hdop, <- app_assoc in Hdr.
      apply app_inv_trace in Hdr. apply app_inv_head in Hdr. exact Hdr. }
    assert (Hlater : forall ev, In ev dsh0 -> In ev (d0 ++ dop ++ dsh0)).
    { intros ev Hev. apply in_or_app. right. apply in_or_app. right. exact Hev. }
    rewrite <- Hsame in Hquiet.
    destruct (shutdown_with_manager s2 m dsh0 Hlog2 Hm Hdsh0)
      as [(e' & Hin)|[(e' & Hin)|(final & Hall & Hreason & Hdone)]].
    { exfalso. apply (proj1 (Hquiet e')). apply Hlater. exact Hin. }
    { exfalso. apply (proj2 (Hquiet e')). apply Hlater. exact Hin. }
    rewrite Hall in Hsame. injection Hsame as <- <-.
    exists final. rewrite Hrun, (Hout Hdone).
    repeat split; reflexivity || assumption.
Qed.
End ModuleFailures.

(** * Concrete runs *)

Lemma C2_witness_missing_file :
  exit_status
    (fst (run (manager := quiet_manager) (world (Raise missing_file)) constructed))
  = 1.
Proof.
  exact (proj1 (proj2 (proj2
           (C2_missing_or_invalid_configuration_exits_with_1
              (manager := quiet_manager) (world (Raise missing_file))
              process_start constructed missing_file
              eq_refl eq_refl eq_refl)))).
Defined.

Lemma C3_witness_empty_configuration :
  fst (run (manager := quiet_manager) (world (Ret [])) constructed)
  = Raise (none_has_no "info").
Proof.
  exact (proj1 (proj2
           (C3_valid_configuration_never_starts_logging
              (manager := quiet_manager) (world (Ret []))
              process_start constructed [] eq_refl eq_refl))).
Defined.

Lemma C5_witness_modules_disabled :
  exit_status
    (fst (main (manager := quiet_manager) (world (Ret modules_disabled))
               process_start))
  = 1.
Proof.
  exact (proj1
           (C5_disabled_modules_never_reach_the_check
              (manager := quiet_manager) (world (Ret modules_disabled))
              process_start constructed modules_disabled
              [("enable_modules", VBool false)]
              eq_refl eq_refl eq_refl eq_refl)).
Defined.

Lemma C9_witness_constructed :
  fst (load_configuration (world (Ret [])) constructed)
  = Raise (none_has_no "info").
Proof.
  exact (proj1 (proj1 (proj2 (proj2
           (C9_logger_is_None_until_setup_logging_assigns
              (world (Ret [])) process_start constructed eq_refl)))
           [] eq_refl)).
Defined.

(** Picks the event out of a computed list. *)
Ltac find_event := vm_compute; repeat (first [left; reflexivity | right]).

(** A module that calls [sys.exit(3)] inside the operational loop. *)
Lemma C10_main_loop_lets_SystemExit_through :
  dc_logger (ready (SpecManager.failing [("main_loop", SystemExit (ExitInt 3))]))
  = Some RootLogger
  /\ fst (main_loop
            (manager := failing_manager [("main_loop", SystemExit (ExitInt 3))])
            (ready (SpecManager.failing [("main_loop", SystemExit (ExitInt 3))])))
     = Raise (SystemExit (ExitInt 3)).
Proof. split; vm_compute; reflexivity. Qed.

Lemma C7_witness_abort_then_signals :
  exists mn,
    deliver_all (manager := quiet_manager)
                [ThreadException boom; Signal SIGINT; Signal SIGTERM]
                (ready SpecManager.quiet)
    = (Ret tt, set_module (Some mn) (ready SpecManager.quiet))
    /\ SpecManager.exit_msg mn = None
    /\ SpecManager.abort_cause mn = Some boom.
Proof.
  destruct (C7_first_writer_wins
              SpecManager.quiet (ready SpecManager.quiet)
              (SpecManager.fresh SpecManager.quiet)
              (ThreadException boom) [Signal SIGINT; Signal SIGTERM]
              eq_refl eq_refl)
    as (m1 & mn & entries & _ & Hall & _ & _ & _ & (Hexit & Hcause & _) & _).
  exists mn. split; [exact Hall|]. split; assumption.
Defined.

Lemma startup_steps_in_order_witness :
  run (manager := quiet_manager) (world (Ret modules_disabled)) logged
  = run_modules (manager := quiet_manager) started_disabled.
Proof.
  assert (H1 : startup (manager := quiet_manager) (world (Ret modules_disabled)) logged
               = (Ret tt, started_disabled))
    by (vm_compute; reflexivity).
  destruct (startup_steps_in_order
              (manager := quiet_manager) (world (Ret modules_disabled))
              logged tt started_disabled H1)
    as (l & dlog & name_ver & _ & _ & _ & _ & _ & _ & Hrun).
  exact Hrun.
Defined.

Lemma every_run_of_main_witness :
  exit_status
    (fst (main (manager := quiet_manager) (world (Ret file_logging)) process_start))
  = 1.
Proof.
  exact (proj1 (proj2 (proj2
           (every_run_of_main_ends_in_AttributeError
              (manager := quiet_manager) (world (Ret file_logging))
              process_start constructed eq_refl)))).
Defined.

Lemma the_constructor_witness :
  dc_app_name_ver (snd (init (MM := SpecManager.t) world_without_git process_start))
  = "doorlockd-client(version-unknown)"%string.
Proof.
  destruct (the_constructor_survives_a_failing_git
              (MM := SpecManager.t) world_without_git process_start eq_refl)
    as (ver & warning & _ & Hname & _ & (Hver & _) & _).
  - intros e [= <-]. reflexivity.
  - rewrite Hname, Hver. reflexivity.
Defined.

Lemma failure_before_the_manager_witness :
  fst (run (manager := quiet_manager) (world (Raise missing_file)) logged)
  = Raise (none_has_no "do_all").
Proof.
  assert (H1 : startup (manager := quiet_manager) (world (Raise missing_file)) logged
               = (Raise (SystemExit
                           (ExitStr (glyph_cross
                                       ++ " Configuration file 'config.ini' not found."))),
                  config_missing))
    by (vm_compute; reflexivity).
  assert (H2 : dc_module config_missing = None) by (vm_compute; reflexivity).
  assert (H3 : dc_logger config_missing = Some RootLogger) by (vm_compute; reflexivity).
  destruct (failure_before_the_manager_exists _ _ _ _ H1 H2) as (H & _).
  rewrite H3 in H. exact H.
Defined.

Lemma gateways_witness :
  exists m, dc_module started_disabled = Some m.
Proof.
  destruct (gateways_are_installed_after_the_manager
              (manager := quiet_manager) (world (Ret modules_disabled)) logged)
    as (H & _); [reflexivity|reflexivity|].
  apply H. vm_compute. reflexivity.
Defined.

Lemma overall_level_witness :
  exists h, In h (root_handlers logging_to_file)
            /\ h_level h = root_level logging_to_file.
Proof.
  assert (H1 : setup_logging (MM := SpecManager.t) (world (Ret file_logging))
                             (set_config file_logging logged)
               = (Ret tt, logging_to_file))
    by (vm_compute; reflexivity).
  destruct (overall_level_is_the_lowest_threshold _ _ _ _ H1) as (_ & _ & H & _).
  exact H.
Defined.

Lemma failed_setup_logging_witness :
  dc_logger (snd (setup_logging (MM := SpecManager.t) (world (Ret unknown_level))
                                (set_config unknown_level constructed)))
  = dc_logger (set_config unknown_level constructed).
Proof.
  assert (H1 : setup_logging (MM := SpecManager.t) (world (Ret unknown_level))
                             (set_config unknown_level constructed)
               = (Raise (Exn AttributeError "module 'logging' has no attribute 'LOUD'"),
                  snd (setup_logging (MM := SpecManager.t) (world (Ret unknown_level))
                                     (set_config unknown_level constructed))))
    by (vm_compute; reflexivity).
  destruct (failed_setup_logging_publishes_nothing _ _ _ _ H1) as (H & _).
  exact H.
Defined.

Lemma file_logging_needs_a_logger_witness :
  exists l lf,
    fst (setup_logging (MM := SpecManager.t) (world (Ret file_logging))
                       (set_config file_logging constructed))
    = Raise (none_has_no "info")
    /\ root_handlers log_to_file
       = root_handlers (set_config file_logging constructed)
         ++ [mkHandler Console l formatter;
             mkHandler (File "/var/log/doorlockd.log") lf formatter].
Proof.
  assert (H1 : dc_logger (set_config file_logging constructed) = None)
    by (vm_compute; reflexivity).
  assert (H2 : names_level [("logfile_name", VStr "/var/log/doorlockd.log")]
                           "stderr_level")
    by (intros v Hv; discriminate Hv).
  assert (H3 : names_level [("logfile_name", VStr "/var/log/doorlockd.log")]
                           "logfile_level")
    by (intros v Hv; discriminate Hv).
  assert (H4 : "/var/log/doorlockd.log"%string <> ""%string) by discriminate.
  destruct (file_logging_needs_a_logger
              (world (Ret file_logging)) (set_config file_logging constructed)
              [("logfile_name", VStr "/var/log/doorlockd.log")]
              "/var/log/doorlockd.log" H1 eq_refl H2 H3 eq_refl H4 eq_refl)
    as (l & lf & Hfst & Hhandlers & _).
  exists l, lf. split; [exact Hfst|exact Hhandlers].
Defined.

Lemma shutdown_stops_witness :
  fst (shutdown (manager := failing_manager [("disable", bang)])
                (ready (SpecManager.failing [("disable", bang)])))
  = Raise bang.
Proof.
  assert (H1 : trace (snd (shutdown (manager := failing_manager [("disable", bang)])
                                    (ready (SpecManager.failing [("disable", bang)]))))
               = trace (ready (SpecManager.failing [("disable", bang)]))
                 ++ [EvShutdown; EvLog INFO "Initiating shutdown sequence...";
                     EvDoAll "disable" (Some bang)])
    by (vm_compute; reflexivity).
  destruct (shutdown_stops_at_a_failing_phase _ _ "disable" bang H1) as (H & _).
  - right. right. left. reflexivity.
  - exact H.
Defined.

Lemma a_failed_loop_witness :
  exit_status
    (fst (run (manager := failing_manager [("main_loop", bus_error)])
              (world (Ret [])) logged))
  = 0.
Proof.
  assert (H1 : trace (snd (run (manager := failing_manager [("main_loop", bus_error)])
                               (world (Ret [])) logged))
               = trace logged ++ added logged loop_fails)
    by (vm_compute; reflexivity).
  assert (H2 : In (EvMainLoop (Some bus_error)) (added logged loop_fails))
    by find_event.
  assert (H3 : In (EvDoAll "teardown" None) (added logged loop_fails))
    by find_event.
  destruct (a_failed_loop_still_ends_with_status_0 _ _ _ bus_error H1 H2) as (_ & H).
  - right. reflexivity.
  - exact H3.
  - exact H.
Defined.

Lemma an_interrupted_initialization_witness :
  forallb (fun ev => negb (is_main_loop_call ev)
                     && negb (is_log_at CRITICAL ev)
                     && negb (is_log_at ERROR ev))
          (added logged setup_interrupted) = true.
Proof.
  assert (H1 : trace (snd (run (manager := failing_manager [("setup", interrupt)])
                               (world (Ret [])) logged))
               = trace logged ++ added logged setup_interrupted)
    by (vm_compute; reflexivity).
  assert (H2 : initialization_raised interrupt (added logged setup_interrupted))
    by (right; left; find_event).
  destruct (an_interrupted_initialization_is_not_swallowed _ _ _ interrupt H1 H2 eq_refl)
    as (d1 & r & d2 & _ & H & _).
  exact H.
Defined.

Lemma no_forward_call_witness :
  quiet_after_failure is_forward_call (added logged load_fails) = true.
Proof.
  assert (H1 : trace (snd (run (manager := failing_manager [("load_all", boom)])
                               (world (Ret [])) logged))
               = trace logged ++ added logged load_fails)
    by (vm_compute; reflexivity).
  exact (no_forward_call_follows_a_failed_call _ _ _ H1).
Defined.

Lemma initialize_modules_witness :
  fst (initialize_modules (manager := quiet_manager) logged) = Ret false.
Proof.
  assert (H1 : trace (snd (initialize_modules (manager := quiet_manager) logged))
               = trace logged
                 ++ [EvLog ERROR ("Failed to initialize modules: "
                                    ++ "'NoneType' object has no attribute 'load_all'")%string])
    by (vm_compute; reflexivity).
  destruct (initialize_modules_reports_every_Exception_as_False
              (manager := quiet_manager) logged _ eq_refl H1) as (_ & _ & _ & H).
  rewrite (H eq_refl). reflexivity.
Defined.

Lemma nothing_is_fatal_witness :
  forallb (fun ev => negb (is_log_at CRITICAL ev))
          (added started_for_the_loop loop_fails) = true.
Proof.
  assert (H1 : startup (manager := failing_manager [("main_loop", bus_error)])
                       (world (Ret [])) logged
               = (Ret tt, started_for_the_loop))
    by (vm_compute; reflexivity).
  assert (H2 : trace (snd (run (manager := failing_manager [("main_loop", bus_error)])
                               (world (Ret [])) logged))
               = trace started_for_the_loop ++ added started_for_the_loop loop_fails)
    by (vm_compute; reflexivity).
  destruct (nothing_is_fatal_after_the_initialization _ _ _ _ _ H1 H2) as (H & _).
  exact H.
Defined.

Lemma a_configuration_error_witness :
  trace (snd (run (manager := quiet_manager) (world (Raise permission_denied)) logged))
  = trace logged
    ++ [EvTomlLoad;
        EvLog CRITICAL "Fatal error during startup: Permission denied: 'config.ini'";
        EvShutdown; EvLog INFO "Initiating shutdown sequence..."].
Proof.
  destruct (a_configuration_error_ends_in_the_shutdown_error
              (manager := quiet_manager) (world (Raise permission_denied)) logged
              permission_denied)
    as (_ & _ & H); [reflexivity|reflexivity|reflexivity|].
  exact H.
Defined.

Lemma C1_witness_main_applies_no_phase :
  exists d,
    trace (snd (run (manager := quiet_manager) (world (Ret [])) constructed))
    = trace constructed ++ d
    /\ shutdown_entries d = 1%nat
    /\ phase_applications "disable" d = 0%nat
    /\ phase_applications "teardown" d = 0%nat
    /\ forallb (fun ev => negb (is_log ev)) d = true.
Proof.
  assert (H1 : init (MM := SpecManager.t) (world (Ret [])) process_start
               = (Ret tt, constructed))
    by (vm_compute; reflexivity).
  destruct (C1_shutdown_is_called_once_and_does_nothing_from_main
              (manager := quiet_manager) (world (Ret [])) process_start constructed H1)
    as (_ & _ & _ & H).
  exact H.
Defined.

Lemma C6_witness_shutdown_from_main :
  fst (shutdown (manager := quiet_manager) loaded) = Raise (none_has_no "info")
  /\ main (manager := quiet_manager) (world (Ret [])) process_start
     = shutdown (manager := quiet_manager) loaded.
Proof.
  assert (H1 : trace (snd (shutdown (manager := quiet_manager) loaded))
               = trace loaded ++ [EvShutdown])
    by (vm_compute; reflexivity).
  assert (H2 : init (MM := SpecManager.t) (world (Ret [])) process_start
               = (Ret tt, constructed))
    by (vm_compute; reflexivity).
  destruct (C6_shutdown_called_by_main_applies_no_phase
              (manager := quiet_manager) (world (Ret [])) loaded [EvShutdown] H1)
    as (Hnone & Hmain & _).
  split.
  - apply Hnone. vm_compute. reflexivity.
  - apply (Hmain process_start constructed H2).
Defined.


Lemma C4_witness_setup_fails :
  exit_status
    (fst (run (manager := failing_manager [("setup", boom)]) (world (Ret [])) logged))
  = 0.
Proof.
  assert (H1 : trace (snd (run (manager := failing_manager [("setup", boom)])
                               (world (Ret [])) logged))
               = trace logged ++ added logged setup_fails)
    by (vm_compute; reflexivity).
  assert (H2 : initialization_raised boom (added logged setup_fails))
    by (right; left; find_event).
  destruct (C4_initialization_error_goes_straight_to_shutdown
              (manager := failing_manager [("setup", boom)]) (world (Ret []))
              logged (added logged setup_fails) boom H1 H2 eq_refl)
    as (d1 & r & d2 & _ & _ & _ & Hfull).
  destruct Hfull as (final & _ & _ & _ & _ & Hstatus).
  - intros e'. split; intros Hin; vm_compute in Hin; in_cases Hin.
  - exact Hstatus.
Defined.

Lemma C10_witness_loop_fails :
  forallb (fun ev => negb (is_log_at CRITICAL ev)) (added logged loop_fails) = true.
Proof.
  assert (H1 : trace (snd (run (manager := failing_manager [("main_loop", bus_error)])
                               (world (Ret [])) logged))
               = trace logged ++ added logged loop_fails)
    by (vm_compute; reflexivity).
  assert (H2 : In (EvMainLoop (Some bus_error)) (added logged loop_fails))
    by find_event.
  exact (proj1 (C10_loop_failure_never_reaches_the_fatal_branch
                  (manager := failing_manager [("main_loop", bus_error)])
                  (world (Ret [])) logged (added logged loop_fails) bus_error
                  H1 H2)).
Defined.

Lemma disabled_modules_witness :
  exists r dsh,
    trace (snd (run (manager := quiet_manager) (world (Ret modules_disabled)) logged))
    = trace started_disabled
      ++ EvLog WARNING "Modules are disabled in configuration"
         :: EvShutdown :: EvLog INFO "Initiating shutdown sequence..."
         :: EvDoAll "disable" r :: dsh.
Proof.
  assert (H1 : startup (manager := quiet_manager) (world (Ret modules_disabled)) logged
               = (Ret tt, started_disabled))
    by (vm_compute; reflexivity).
  assert (H2 : dict_get (dc_config started_disabled) "doorlockd"
               = Some (VTable [("enable_modules", VBool false)]))
    by (vm_compute; reflexivity).
  destruct (disabled_modules_skip_to_shutdown
              (manager := quiet_manager) (world (Ret modules_disabled))
              logged tt started_disabled [("enable_modules", VBool false)]
              H1 H2 eq_refl)
    as (r & dsh & Htrace & _).
  exists r, dsh. exact Htrace.
Defined.

Lemma modules_are_skipped_witness :
  operate (manager := quiet_manager) (set_config modules_zero (ready SpecManager.quiet))
  = (Ret tt, record (EvLog WARNING "Modules are disabled in configuration")
                    (set_config modules_zero (ready SpecManager.quiet))).
Proof.
  assert (H1 : trace (snd (operate (manager := quiet_manager)
                                   (set_config modules_zero (ready SpecManager.quiet))))
               = trace (set_config modules_zero (ready SpecManager.quiet))
                 ++ [EvLog WARNING "Modules are disabled in configuration"])
    by (vm_compute; reflexivity).
  destruct (modules_are_skipped_exactly_when_the_flag_is_false
              (manager := quiet_manager)
              (set_config modules_zero (ready SpecManager.quiet))
              [("enable_modules", VInt 0)] _ eq_refl eq_refl H1) as (H & _).
  apply H. exists (VInt 0). split; reflexivity.
Defined.
